(** * HARMORYC episodic-memory questionnaire: a model of [app.py]

    The trial builder, the session state machine, the response evaluator and
    the telemetry serialisation of [ExperimentApp], embedded as Rocq
    functions over explicit state, with the properties of the specification
    stated about them.

    Conventions of the embedding:
    - a Python dict used as a struct (room, object, trial, choice) is a
      record whose [.get] fields are [option]s;
    - a task dict is its scalar fields plus a payload tagged by its ["kind"];
    - a response record is an association list (keys in insertion order),
      because which keys it holds depends on the task;
    - [time.perf_counter()] readings are rationals, the k-th reading being
      [perf_counter k];
    - [random.Random] is an abstract state with [_randbelow]. *)

From Stdlib Require Import List String Ascii Bool Arith ZArith QArith Lia.
From Stdlib Require Import Permutation DecimalString Decimal.
Import ListNotations.

Open Scope string_scope.
Open Scope list_scope.

(** ** Python built-ins *)

(** [str(n)] for a non-negative integer. *)
Definition str_nat (n : nat) : string := NilZero.string_of_uint (Nat.to_uint n).

(** [str(x)] inside an f-string, for [x] a string or [None]. *)
Definition str_opt (o : option string) : string :=
  match o with Some s => s | None => "None" end.

(** Truthiness of an optional string: [None] and the empty string are falsy. *)
Definition truthy (o : option string) : bool :=
  match o with Some s => negb (s =? "") | None => false end.

(** [a == b] between two values that are each a string or [None]. *)
Definition opt_str_eqb (a b : option string) : bool :=
  match a, b with
  | Some x, Some y => x =? y
  | None, None => true
  | _, _ => false
  end.

(** [xs == ys] on lists of such values. *)
Fixpoint ids_eqb (xs ys : list (option string)) : bool :=
  match xs, ys with
  | [], [] => true
  | x :: xs', y :: ys' => opt_str_eqb x y && ids_eqb xs' ys'
  | _, _ => false
  end.

(** [max(a, b)] and [min(a, b)] on floats: the second argument is returned
    only when it is strictly greater (smaller). *)
Definition py_max (a b : Q) : Q := if Qle_bool b a then a else b.
Definition py_min (a b : Q) : Q := if Qle_bool a b then a else b.

(** [int(x)] on a float: truncation toward zero. *)
Definition py_int (q : Q) : Z := Z.quot (Qnum q) (Zpos (Qden q)).

(** [float(n)] on an int. *)
Definition py_float (z : Z) : Q := inject_Z z.

(** [q[i:i]], the position a slice index denotes in a list of length [len]. *)
Definition slice_pos (i : Z) (len : nat) : nat :=
  if (i <? 0)%Z then Z.to_nat (Z.max 0 (Z.of_nat len + i))
  else Nat.min (Z.to_nat i) len.

(** [q[i:i] = xs] *)
Definition slice_insert {A} (q : list A) (i : Z) (xs : list A) : list A :=
  let p := slice_pos i (List.length q) in firstn p q ++ xs ++ skipn p q.

(** [x[i] = v], for [i] in range. *)
Fixpoint list_update {A} (l : list A) (i : nat) (v : A) : list A :=
  match l, i with
  | [], _ => []
  | _ :: t, O => v :: t
  | h :: t, S i' => h :: list_update t i' v
  end.

(** [x[i], x[j] = x[j], x[i]] *)
Definition swap {A} (l : list A) (i j : nat) : list A :=
  match nth_error l i, nth_error l j with
  | Some a, Some b => list_update (list_update l i b) j a
  | _, _ => l
  end.

(** ** The runtime the program runs on

    What the Python standard library supplies: the Mersenne-Twister source
    behind [random.Random(seed)] and the module-level [random], the two
    clocks, and [int(str)]. *)
Record Runtime := {
  rng : Type;
  (** [random.Random(seed)] *)
  Random : string -> rng;
  (** [Random._randbelow(n)], with the state after the draw *)
  randbelow : nat -> rng -> nat * rng;
  randbelow_lt : forall n g, (fst (randbelow (S n) g) < S n)%nat;
  (** the k-th reading of [time.perf_counter()], in seconds *)
  perf_counter : nat -> Q;
  (** the k-th reading of [now_iso()] *)
  now_iso : nat -> string;
  (** [int(s)]; [None] when it raises *)
  int_of_str : string -> option Z
}.

Section Shuffle.
Context (RT : Runtime) {A : Type}.

(** [for i in reversed(range(1, i + 1)): j = randbelow(i + 1); swap] *)
Fixpoint shuffle_down (i : nat) (x : list A) (g : rng RT) : list A * rng RT :=
  match i with
  | O => (x, g)
  | S i' =>
      let (j, g') := randbelow RT (S i) g in
      shuffle_down i' (swap x i j) g'
  end.

(** [rand.shuffle(x)]: the shuffled list and the state of the source. *)
Definition shuffle (x : list A) (g : rng RT) : list A * rng RT :=
  shuffle_down (List.length x - 1) x g.

End Shuffle.
Arguments shuffle_down RT {A} i x g.
Arguments shuffle RT {A} x g.

(** ** Constants of [app.py] *)

Definition RANDOM_MODE : string := "fixed".
Definition RANDOM_SEED : string := "HARMORYC_V2".
Definition ROOM_GRID_ORDER : list string :=
  ["room8"; "room5"; "room3"; "room7"; "room4"; "room6"; "room10"; "room9";
   "room2"; "room1"].
Definition STEP1_DURATION_MS : Z := 10000.
Definition STEP2_DURATION_MS : Z := 20000.
Definition STEP3_DURATION_MS : Z := 10000.
Definition STEP4_DURATION_MS : Z := 10000.
Definition RAPPEL_IMMEDIAT_DURATION_MS : Z := 10000.
Definition INTER_DELAY_MS : Z := 3000.

(** ** The asset catalog ([self.data], as [_load_v2_assets] builds it) *)

Record room := mkRoom {
  rm_id : option string;
  rm_name : option string;
  rm_image : option string;
  rm_timing : option string
}.

Record obj := mkObj {
  obj_id : option string;
  obj_name : option string;
  obj_image : option string;
  is_familiar : bool;
  room_id : option string;
  obj_timing : option string
}.

Record trial := mkTrial {
  tr_id : option string;
  tr_image : option string;
  tr_is_correct : bool
}.

(** One entry of the [iib_positions] table. *)
Record positions := mkPositions {
  good : option string;
  bad : option string;
  alt_bad : option string
}.

Record catalog := mkCatalog {
  cat_experiment_name : string;
  rooms : list room;
  familiar_objects : list obj;
  new_objects : list obj;
  rappel_immediat_trials : list trial;
  step5_trials : list trial;
  iib_positions : list (string * positions)
}.

(** The empty dict [self.data] starts as. *)
Definition empty_catalog : catalog := mkCatalog "MemoireEpisodique" [] [] [] [] [] [].

(** ** Tasks *)

(** One image choice of a spatial-position task. *)
Record choice := mkChoice {
  ch_id : string;
  ch_image : option string;
  ch_is_correct : bool
}.

(** The kind of a task with the keys that kind carries. *)
Inductive payload :=
| Step1 (object : obj)
| Step2Where (object : obj) (grid : list room)
| Step2Spatial (object : obj) (choices : list choice)
| Step3Daynight (rm : room)
| Step4Order (rm : room) (correct_order : option nat)
| Step5 (image : option string) (is_correct : bool)
| RappelImmediat (image : option string) (is_correct : bool).

Record task := mkTask {
  task_id : option string;
  stage : string;
  body : payload;
  duration_ms : Z
}.

(** [task.get("kind")] *)
Definition kind (t : task) : string :=
  match body t with
  | Step1 _ => "step1"
  | Step2Where _ _ => "step2_where"
  | Step2Spatial _ _ => "step2_spatial"
  | Step3Daynight _ => "step3_daynight"
  | Step4Order _ _ => "step4_order"
  | Step5 _ _ => "step5"
  | RappelImmediat _ _ => "rappel_immediat"
  end.

(** ** Decidable equality on catalog entries (Python's [==] on dicts) *)

Definition opt_string_dec (a b : option string) : {a = b} + {a <> b}.
Proof. decide equality. apply string_dec. Defined.

Definition room_dec (a b : room) : {a = b} + {a <> b}.
Proof. decide equality; apply opt_string_dec. Defined.

(** [room in rooms] *)
Definition room_in (r : room) (l : list room) : bool :=
  if in_dec room_dec r l then true else false.

(** [x in ids] for a list of ids. *)
Definition id_in (x : option string) (l : list (option string)) : bool :=
  existsb (opt_str_eqb x) l.

(** [ids.index(x)], when [x in ids]. *)
Fixpoint id_index (x : option string) (l : list (option string)) : nat :=
  match l with
  | [] => 0
  | y :: l' => if opt_str_eqb y x then 0 else S (id_index x l')
  end.

(** ** Trial builder *)

Section Builder.
Context (RT : Runtime).

(** [_pick_balanced_trials(trials, rand, target_each)] *)
Definition _pick_balanced_trials (trials : list trial) (rand : rng RT)
    (target_each : nat) : list trial * rng RT :=
  let correct := filter (fun t => tr_is_correct t) trials in
  let incorrect := filter (fun t => negb (tr_is_correct t)) trials in
  let (correct, rand) := shuffle RT correct rand in
  let (incorrect, rand) := shuffle RT incorrect rand in
  if (target_each <=? List.length correct)%nat
     && (target_each <=? List.length incorrect)%nat
  then (firstn target_each correct ++ firstn target_each incorrect, rand)
  else (correct ++ incorrect, rand).

(** [[r.get("id") for r in rs]] *)
Definition room_ids (rs : list room) : list (option string) := map rm_id rs.

(** [[r.get("id") for r in rs if r.get("id")]] *)
Definition room_ids_truthy (rs : list room) : list (option string) :=
  filter truthy (map rm_id rs).

(** The loop [for _ in range(n): rand.shuffle(rooms_iia); if ... != ...: break]. *)
Fixpoint reshuffle_iia (n : nat) (rooms_iia : list room)
    (learning : list (option string)) (rand : rng RT) : list room * rng RT :=
  match n with
  | O => (rooms_iia, rand)
  | S n' =>
      let (rooms_iia, rand) := shuffle RT rooms_iia rand in
      if negb (ids_eqb (room_ids rooms_iia) learning) then (rooms_iia, rand)
      else reshuffle_iia n' rooms_iia learning rand
  end.

(** [xs[1:] + xs[:1]] *)
Definition rotate1 {A} (xs : list A) : list A := skipn 1 xs ++ firstn 1 xs.

(** The two room orders computed at the head of the recall branch:
    [(learning_room_order, iia_room_order)] and the source after them. *)
Definition room_orders (rms : list room) (rand : rng RT)
    : list (option string) * list (option string) * rng RT :=
  let (rooms_learning, rand) := shuffle RT rms rand in
  let learning_room_order := room_ids_truthy rooms_learning in
  let (rooms_iia, rand) := reshuffle_iia 5 rms learning_room_order rand in
  let rooms_iia :=
    if ids_eqb (room_ids rooms_iia) learning_room_order
       && negb (match rooms_iia with [] => true | _ => false end)
    then rotate1 rooms_iia else rooms_iia in
  (learning_room_order, room_ids_truthy rooms_iia, rand).

(** The Stage-I tasks: [enumerate(step1_objects, start=idx)]. *)
Fixpoint step1_tasks (idx : nat) (objs : list obj) : list task :=
  match objs with
  | [] => []
  | o :: rest =>
      mkTask (Some ("step1_" ++ str_opt (obj_id o) ++ "_" ++ str_nat idx)%string)
             "I" (Step1 o) STEP1_DURATION_MS
      :: step1_tasks (S idx) rest
  end.

Definition step3_task (r : room) : task :=
  mkTask (Some ("step3_" ++ str_opt (rm_id r))%string) "III" (Step3Daynight r)
         STEP3_DURATION_MS.

Definition step4_task (learning : list (option string)) (r : room) : task :=
  let rid := rm_id r in
  let correct_order :=
    if id_in rid learning then Some (id_index rid learning + 1)%nat else None in
  mkTask (Some ("step4_" ++ str_opt rid)%string) "IV" (Step4Order r correct_order)
         STEP4_DURATION_MS.

Definition step5_task (t : trial) : task :=
  mkTask (Some ("step5_" ++ str_opt (tr_id t))%string) "V"
         (Step5 (tr_image t) (negb (tr_is_correct t))) STEP4_DURATION_MS.

Definition ri_end_task (t : trial) : task :=
  mkTask (Some ("ri_end_" ++ str_opt (tr_id t))%string) "RI_END"
         (RappelImmediat (tr_image t) (tr_is_correct t)) RAPPEL_IMMEDIAT_DURATION_MS.

Definition ri_task (t : trial) : task :=
  mkTask (tr_id t) "RI" (RappelImmediat (tr_image t) (tr_is_correct t))
         RAPPEL_IMMEDIAT_DURATION_MS.

(** What [_build_tasks] returns and leaves in [self]. *)
Record built := mkBuilt {
  b_tasks : list task;
  b_learning_room_order : list (option string);
  b_iia_room_order : list (option string)
}.

(** The body of [_build_tasks] from the source [rand] on.  [learning0] and
    [iia0] are the orders [self] holds before the call (the short form
    leaves them as they are). *)
Definition build_from (data : catalog) (task_mode : string)
    (learning0 iia0 : list (option string)) (rand : rng RT) : built :=
  if task_mode =? "rappel_immediat" then
    let (balanced_ri, rand) := _pick_balanced_trials (rappel_immediat_trials data) rand 5 in
    let (balanced_ri, rand) := shuffle RT balanced_ri rand in
    mkBuilt (map ri_task balanced_ri) learning0 iia0
  else
    let '(learning, iia, rand) := room_orders (rooms data) rand in
    let (step1_objects, rand) :=
      shuffle RT (familiar_objects data ++ new_objects data) rand in
    let (rooms_for_step3, rand) := shuffle RT (rooms data) rand in
    let (step5, rand) := _pick_balanced_trials (step5_trials data) rand 5 in
    let (step5, rand) := shuffle RT step5 rand in
    let (final_ri, rand) := _pick_balanced_trials (rappel_immediat_trials data) rand 5 in
    let (final_ri, rand) := shuffle RT final_ri rand in
    mkBuilt (step1_tasks 1 step1_objects
             ++ map step3_task rooms_for_step3
             ++ map (step4_task learning) rooms_for_step3
             ++ map step5_task step5
             ++ map ri_end_task final_ri)
            learning iia.

End Builder.

(** ** Response evaluator *)

(** The two sentinels: the "don't know" button and the timeout. *)
Definition JE_NE_SAIS_PAS : string := "je_ne_sais_pas".
Definition NE_REPOND_PAS : string := "ne_repond_pas".

(** [response in ("je_ne_sais_pas", "ne_repond_pas")] *)
Definition is_sentinel (response : string) : bool :=
  (response =? JE_NE_SAIS_PAS) || (response =? NE_REPOND_PAS).

(** The guard at the head of [_evaluate_correctness]: a spatial-position
    task about an object that is not familiar has no correct answer. *)
Definition no_correct_answer (t : task) : bool :=
  match body t with
  | Step2Spatial o _ => negb (is_familiar o)
  | _ => false
  end.

(** [str(correct_order)] *)
Definition str_order (o : option nat) : string :=
  match o with Some n => str_nat n | None => "None" end.

(** The loop over [task["choices"]] of the spatial-position branch. *)
Fixpoint choice_correct (cs : list choice) (response : string) : bool :=
  match cs with
  | [] => false
  | c :: cs' => if ch_id c =? response then ch_is_correct c else choice_correct cs' response
  end.

(** [_evaluate_correctness(task, response, timeout)]; [None] is Python's [None]. *)
Definition _evaluate_correctness (t : task) (response : option string)
    (timeout : bool) : option bool :=
  if no_correct_answer t then None
  else match response with
  | None => Some false
  | Some r =>
    if is_sentinel r then Some false
    else match body t with
    | Step1 o =>
        if r =? "yes" then Some (is_familiar o)
        else if r =? "no" then Some (negb (is_familiar o))
        else None
    | Step2Where o _ =>
        if negb (is_familiar o) then Some false
        else Some (opt_str_eqb (Some r) (room_id o))
    | Step2Spatial o cs =>
        if negb (is_familiar o) then None
        else Some (choice_correct cs r)
    | Step3Daynight rm => Some (opt_str_eqb (Some r) (rm_timing rm))
    | Step4Order _ correct_order => Some (r =? str_order correct_order)
    | Step5 _ expected | RappelImmediat _ expected =>
        if r =? "correct" then Some expected
        else if r =? "incorrect" then Some (negb expected)
        else None
    end
  end.

(** ** Response records *)

(** The values a response record holds. *)
Inductive value :=
| VNone
| VBool (b : bool)
| VInt (z : Z)
| VStr (s : string)
| VObject (o : obj)
| VRoom (r : room)
| VChoices (cs : list choice).

Definition v_opt_str (o : option string) : value :=
  match o with Some s => VStr s | None => VNone end.

Definition v_opt_nat (o : option nat) : value :=
  match o with Some n => VInt (Z.of_nat n) | None => VNone end.

(** A response record: a dict, keys in insertion order. *)
Definition record := list (string * value).

(** [d.get(k)] *)
Fixpoint dget (k : string) (d : record) : option value :=
  match d with
  | [] => None
  | (k', v) :: d' => if k' =? k then Some v else dget k d'
  end.

(** [d[k] = v] *)
Fixpoint dset (k : string) (v : value) (d : record) : record :=
  match d with
  | [] => [(k, v)]
  | (k', v') :: d' => if k' =? k then (k, v) :: d' else (k', v') :: dset k v d'
  end.

(** [d.keys()] *)
Definition keys (d : record) : list string := map fst d.

(** Truthiness of [record.get("is_correct")]. *)
Definition rec_is_correct (d : record) : bool :=
  match dget "is_correct" d with Some (VBool true) => true | _ => false end.

(** The first choice flagged correct, as [_annotate_record_metrics] looks for it. *)
Fixpoint expected_choice (cs : list choice) : option string :=
  match cs with
  | [] => None
  | c :: cs' => if ch_is_correct c then Some (ch_id c) else expected_choice cs'
  end.

Section Annotate.
Context (RT : Runtime).

(** [_annotate_record_metrics(task, response, record)], returning the record. *)
Definition _annotate_record_metrics (t : task) (response : option string)
    (rec : record) : record :=
  match response with
  | None => dset "response_category" (VStr "no_response") rec
  | Some r =>
    if r =? NE_REPOND_PAS then dset "response_category" (VStr "no_response") rec
    else if r =? JE_NE_SAIS_PAS then dset "response_category" (VStr "dont_know") rec
    else match body t with
    | Step1 o =>
        let rec := dset "expected_seen" (VBool (is_familiar o)) rec in
        if r =? "yes" then
          dset "response_category"
               (VStr (if is_familiar o then "hit" else "false_alarm")) rec
        else if r =? "no" then
          dset "response_category"
               (VStr (if is_familiar o then "miss" else "correct_rejection")) rec
        else dset "response_category" (VStr "other") rec
    | Step2Where o _ =>
        let rec := dset "expected_room_id" (v_opt_str (room_id o)) rec in
        let rec := dset "response_room_id" (VStr r) rec in
        if negb (is_familiar o) then
          dset "response_category" (VStr "no_correct_answer") rec
        else if opt_str_eqb (Some r) (room_id o) then
          dset "response_category" (VStr "correct_room") rec
        else dset "response_category" (VStr "wrong_room") rec
    | Step2Spatial o cs =>
        let rec := dset "response_choice_id" (VStr r) rec in
        if negb (is_familiar o) then
          dset "response_category" (VStr "no_correct_answer") rec
        else
          let expected := expected_choice cs in
          let rec := dset "expected_choice_id" (v_opt_str expected) rec in
          if opt_str_eqb (Some r) expected then
            dset "response_category" (VStr "correct_position") rec
          else dset "response_category" (VStr "wrong_position") rec
    | Step3Daynight rm =>
        let rec := dset "expected_timing" (v_opt_str (rm_timing rm)) rec in
        let rec := dset "response_timing" (VStr r) rec in
        if opt_str_eqb (Some r) (rm_timing rm) then
          dset "response_category" (VStr "correct_time") rec
        else dset "response_category" (VStr "wrong_time") rec
    | Step4Order _ expected =>
        let rec := dset "expected_order" (v_opt_nat expected) rec in
        let rec := dset "response_order" (VStr r) rec in
        match expected, int_of_str RT r with
        | Some e, Some response_int =>
            let rec := dset "error_distance"
                            (VInt (Z.abs (response_int - Z.of_nat e))) rec in
            dset "response_category"
                 (VStr (if (response_int =? Z.of_nat e)%Z then "correct_order"
                        else "wrong_order")) rec
        | _, _ => dset "response_category" (VStr "wrong_order") rec
        end
    | Step5 _ e | RappelImmediat _ e =>
        let rec := dset "expected_is_correct" (VBool e) rec in
        dset "response_category"
             (VStr (if rec_is_correct rec then "correct_scene" else "wrong_scene")) rec
    end
  end.

End Annotate.

(** ** Session state *)

(** One entry of [stage_scores]. *)
Record score := mkScore { total : nat; correct : nat }.

(** [stage_scores]: stage label to tally, keys in insertion order. *)
Definition scores := list (string * score).

(** [stage_scores[stage]], when the stage is a key. *)
Fixpoint score_of (stage : string) (sc : scores) : option score :=
  match sc with
  | [] => None
  | (k, s) :: sc' => if k =? stage then Some s else score_of stage sc'
  end.

(** The eight stage labels [__init__] gives a tally. *)
Definition STAGES : list string := ["I"; "IIA"; "IIB"; "III"; "IV"; "V"; "RI"; "RI_END"].

(** [{k: {"total": 0, "correct": 0} for k in ...}] *)
Definition zero_scores (ks : list string) : scores := map (fun k => (k, mkScore 0 0)) ks.

(** [if stage in stage_scores: total += 1; if correct: correct += 1] *)
Fixpoint bump (stage : string) (is_correct : bool) (sc : scores) : scores :=
  match sc with
  | [] => []
  | (k, s) :: sc' =>
      if k =? stage
      then (k, mkScore (S (total s)) (if is_correct then S (correct s) else correct s)) :: sc'
      else (k, s) :: bump stage is_correct sc'
  end.

(** A telemetry message as [VRWebSocketServer._handler] buffers it. *)
Record vr_message := mkMsg {
  received_at : option string;
  received_perf : option Q;
  msg_payload : string
}.

(** A telemetry entry of the saved session. *)
Record vr_entry := mkEntry {
  e_received_at : option string;
  relative_ms : Z;
  e_payload : string
}.

(** The session file [_save_session] writes (the platform description and
    the derived category counts are left out). *)
Record session_file := mkFile {
  f_session_id : string;
  f_subject_id : string;
  f_task_mode : string;
  f_experiment_name : string;
  f_started_at : option string;
  f_ended_at : option string;
  f_scores : scores;
  f_tasks : list record;
  vr_messages : list vr_entry
}.

Section App.
Context {RT : Runtime}.

(** The fields of [ExperimentApp] the session logic reads and writes, with
    the number of clock readings taken so far ([clock]), the state of the
    module-level [random] ([global_rng]), the buffer of the telemetry server
    ([ws_messages]) and the files written to the sessions directory
    ([sessions_dir], oldest first). *)
Record app := mkApp {
  data : catalog;
  experiment_name : string;
  session_id : string;
  subject_id : string;
  task_mode : string;
  session_started_at : option string;
  session_ended_at : option string;
  session_start_perf : option Q;
  running : bool;
  task_queue : list task;
  current_task_index : Z;
  current_task : option task;
  task_started_at_iso : option string;
  task_start_perf : option Q;
  task_duration_ms : Z;
  task_active : bool;
  intermission_active : bool;
  intermission_start_perf : option Q;
  selected_choice_id : option string;
  learning_room_order : list (option string);
  iia_room_order : list (option string);
  records : list record;
  stage_scores : scores;
  clock : nat;
  global_rng : rng RT;
  ws_messages : list vr_message;
  sessions_dir : list session_file
}.

(** Field updates ([self.f = v]). *)
Definition set_data (v : catalog) (st : app) : app :=
  {| data := v; experiment_name := experiment_name st; session_id := session_id st;
     subject_id := subject_id st; task_mode := task_mode st;
     session_started_at := session_started_at st;
     session_ended_at := session_ended_at st;
     session_start_perf := session_start_perf st; running := running st;
     task_queue := task_queue st; current_task_index := current_task_index st;
     current_task := current_task st; task_started_at_iso := task_started_at_iso st;
     task_start_perf := task_start_perf st; task_duration_ms := task_duration_ms st;
     task_active := task_active st; intermission_active := intermission_active st;
     intermission_start_perf := intermission_start_perf st;
     selected_choice_id := selected_choice_id st;
     learning_room_order := learning_room_order st;
     iia_room_order := iia_room_order st; records := records st;
     stage_scores := stage_scores st; clock := clock st; global_rng := global_rng st;
     ws_messages := ws_messages st; sessions_dir := sessions_dir st |}.
Definition set_experiment_name (v : string) (st : app) : app :=
  {| data := data st; experiment_name := v; session_id := session_id st;
     subject_id := subject_id st; task_mode := task_mode st;
     session_started_at := session_started_at st;
     session_ended_at := session_ended_at st;
     session_start_perf := session_start_perf st; running := running st;
     task_queue := task_queue st; current_task_index := current_task_index st;
     current_task := current_task st; task_started_at_iso := task_started_at_iso st;
     task_start_perf := task_start_perf st; task_duration_ms := task_duration_ms st;
     task_active := task_active st; intermission_active := intermission_active st;
     intermission_start_perf := intermission_start_perf st;
     selected_choice_id := selected_choice_id st;
     learning_room_order := learning_room_order st;
     iia_room_order := iia_room_order st; records := records st;
     stage_scores := stage_scores st; clock := clock st; global_rng := global_rng st;
     ws_messages := ws_messages st; sessions_dir := sessions_dir st |}.
Definition set_session_id (v : string) (st : app) : app :=
  {| data := data st; experiment_name := experiment_name st; session_id := v;
     subject_id := subject_id st; task_mode := task_mode st;
     session_started_at := session_started_at st;
     session_ended_at := session_ended_at st;
     session_start_perf := session_start_perf st; running := running st;
     task_queue := task_queue st; current_task_index := current_task_index st;
     current_task := current_task st; task_started_at_iso := task_started_at_iso st;
     task_start_perf := task_start_perf st; task_duration_ms := task_duration_ms st;
     task_active := task_active st; intermission_active := intermission_active st;
     intermission_start_perf := intermission_start_perf st;
     selected_choice_id := selected_choice_id st;
     learning_room_order := learning_room_order st;
     iia_room_order := iia_room_order st; records := records st;
     stage_scores := stage_scores st; clock := clock st; global_rng := global_rng st;
     ws_messages := ws_messages st; sessions_dir := sessions_dir st |}.
Definition set_subject_id (v : string) (st : app) : app :=
  {| data := data st; experiment_name := experiment_name st;
     session_id := session_id st; subject_id := v; task_mode := task_mode st;
     session_started_at := session_started_at st;
     session_ended_at := session_ended_at st;
     session_start_perf := session_start_perf st; running := running st;
     task_queue := task_queue st; current_task_index := current_task_index st;
     current_task := current_task st; task_started_at_iso := task_started_at_iso st;
     task_start_perf := task_start_perf st; task_duration_ms := task_duration_ms st;
     task_active := task_active st; intermission_active := intermission_active st;
     intermission_start_perf := intermission_start_perf st;
     selected_choice_id := selected_choice_id st;
     learning_room_order := learning_room_order st;
     iia_room_order := iia_room_order st; records := records st;
     stage_scores := stage_scores st; clock := clock st; global_rng := global_rng st;
     ws_messages := ws_messages st; sessions_dir := sessions_dir st |}.
Definition set_task_mode (v : string) (st : app) : app :=
  {| data := data st; experiment_name := experiment_name st;
     session_id := session_id st; subject_id := subject_id st; task_mode := v;
     session_started_at := session_started_at st;
     session_ended_at := session_ended_at st;
     session_start_perf := session_start_perf st; running := running st;
     task_queue := task_queue st; current_task_index := current_task_index st;
     current_task := current_task st; task_started_at_iso := task_started_at_iso st;
     task_start_perf := task_start_perf st; task_duration_ms := task_duration_ms st;
     task_active := task_active st; intermission_active := intermission_active st;
     intermission_start_perf := intermission_start_perf st;
     selected_choice_id := selected_choice_id st;
     learning_room_order := learning_room_order st;
     iia_room_order := iia_room_order st; records := records st;
     stage_scores := stage_scores st; clock := clock st; global_rng := global_rng st;
     ws_messages := ws_messages st; sessions_dir := sessions_dir st |}.
Definition set_session_started_at (v : option string) (st : app) : app :=
  {| data := data st; experiment_name := experiment_name st;
     session_id := session_id st; subject_id := subject_id st;
     task_mode := task_mode st; session_started_at := v;
     session_ended_at := session_ended_at st;
     session_start_perf := session_start_perf st; running := running st;
     task_queue := task_queue st; current_task_index := current_task_index st;
     current_task := current_task st; task_started_at_iso := task_started_at_iso st;
     task_start_perf := task_start_perf st; task_duration_ms := task_duration_ms st;
     task_active := task_active st; intermission_active := intermission_active st;
     intermission_start_perf := intermission_start_perf st;
     selected_choice_id := selected_choice_id st;
     learning_room_order := learning_room_order st;
     iia_room_order := iia_room_order st; records := records st;
     stage_scores := stage_scores st; clock := clock st; global_rng := global_rng st;
     ws_messages := ws_messages st; sessions_dir := sessions_dir st |}.
Definition set_session_ended_at (v : option string) (st : app) : app :=
  {| data := data st; experiment_name := experiment_name st;
     session_id := session_id st; subject_id := subject_id st;
     task_mode := task_mode st; session_started_at := session_started_at st;
     session_ended_at := v; session_start_perf := session_start_perf st;
     running := running st; task_queue := task_queue st;
     current_task_index := current_task_index st; current_task := current_task st;
     task_started_at_iso := task_started_at_iso st;
     task_start_perf := task_start_perf st; task_duration_ms := task_duration_ms st;
     task_active := task_active st; intermission_active := intermission_active st;
     intermission_start_perf := intermission_start_perf st;
     selected_choice_id := selected_choice_id st;
     learning_room_order := learning_room_order st;
     iia_room_order := iia_room_order st; records := records st;
     stage_scores := stage_scores st; clock := clock st; global_rng := global_rng st;
     ws_messages := ws_messages st; sessions_dir := sessions_dir st |}.
Definition set_session_start_perf (v : option Q) (st : app) : app :=
  {| data := data st; experiment_name := experiment_name st;
     session_id := session_id st; subject_id := subject_id st;
     task_mode := task_mode st; session_started_at := session_started_at st;
     session_ended_at := session_ended_at st; session_start_perf := v;
     running := running st; task_queue := task_queue st;
     current_task_index := current_task_index st; current_task := current_task st;
     task_started_at_iso := task_started_at_iso st;
     task_start_perf := task_start_perf st; task_duration_ms := task_duration_ms st;
     task_active := task_active st; intermission_active := intermission_active st;
     intermission_start_perf := intermission_start_perf st;
     selected_choice_id := selected_choice_id st;
     learning_room_order := learning_room_order st;
     iia_room_order := iia_room_order st; records := records st;
     stage_scores := stage_scores st; clock := clock st; global_rng := global_rng st;
     ws_messages := ws_messages st; sessions_dir := sessions_dir st |}.
Definition set_running (v : bool) (st : app) : app :=
  {| data := data st; experiment_name := experiment_name st;
     session_id := session_id st; subject_id := subject_id st;
     task_mode := task_mode st; session_started_at := session_started_at st;
     session_ended_at := session_ended_at st;
     session_start_perf := session_start_perf st; running := v;
     task_queue := task_queue st; current_task_index := current_task_index st;
     current_task := current_task st; task_started_at_iso := task_started_at_iso st;
     task_start_perf := task_start_perf st; task_duration_ms := task_duration_ms st;
     task_active := task_active st; intermission_active := intermission_active st;
     intermission_start_perf := intermission_start_perf st;
     selected_choice_id := selected_choice_id st;
     learning_room_order := learning_room_order st;
     iia_room_order := iia_room_order st; records := records st;
     stage_scores := stage_scores st; clock := clock st; global_rng := global_rng st;
     ws_messages := ws_messages st; sessions_dir := sessions_dir st |}.
Definition set_task_queue (v : list task) (st : app) : app :=
  {| data := data st; experiment_name := experiment_name st;
     session_id := session_id st; subject_id := subject_id st;
     task_mode := task_mode st; session_started_at := session_started_at st;
     session_ended_at := session_ended_at st;
     session_start_perf := session_start_perf st; running := running st;
     task_queue := v; current_task_index := current_task_index st;
     current_task := current_task st; task_started_at_iso := task_started_at_iso st;
     task_start_perf := task_start_perf st; task_duration_ms := task_duration_ms st;
     task_active := task_active st; intermission_active := intermission_active st;
     intermission_start_perf := intermission_start_perf st;
     selected_choice_id := selected_choice_id st;
     learning_room_order := learning_room_order st;
     iia_room_order := iia_room_order st; records := records st;
     stage_scores := stage_scores st; clock := clock st; global_rng := global_rng st;
     ws_messages := ws_messages st; sessions_dir := sessions_dir st |}.
Definition set_current_task_index (v : Z) (st : app) : app :=
  {| data := data st; experiment_name := experiment_name st;
     session_id := session_id st; subject_id := subject_id st;
     task_mode := task_mode st; session_started_at := session_started_at st;
     session_ended_at := session_ended_at st;
     session_start_perf := session_start_perf st; running := running st;
     task_queue := task_queue st; current_task_index := v;
     current_task := current_task st; task_started_at_iso := task_started_at_iso st;
     task_start_perf := task_start_perf st; task_duration_ms := task_duration_ms st;
     task_active := task_active st; intermission_active := intermission_active st;
     intermission_start_perf := intermission_start_perf st;
     selected_choice_id := selected_choice_id st;
     learning_room_order := learning_room_order st;
     iia_room_order := iia_room_order st; records := records st;
     stage_scores := stage_scores st; clock := clock st; global_rng := global_rng st;
     ws_messages := ws_messages st; sessions_dir := sessions_dir st |}.
Definition set_current_task (v : option task) (st : app) : app :=
  {| data := data st; experiment_name := experiment_name st;
     session_id := session_id st; subject_id := subject_id st;
     task_mode := task_mode st; session_started_at := session_started_at st;
     session_ended_at := session_ended_at st;
     session_start_perf := session_start_perf st; running := running st;
     task_queue := task_queue st; current_task_index := current_task_index st;
     current_task := v; task_started_at_iso := task_started_at_iso st;
     task_start_perf := task_start_perf st; task_duration_ms := task_duration_ms st;
     task_active := task_active st; intermission_active := intermission_active st;
     intermission_start_perf := intermission_start_perf st;
     selected_choice_id := selected_choice_id st;
     learning_room_order := learning_room_order st;
     iia_room_order := iia_room_order st; records := records st;
     stage_scores := stage_scores st; clock := clock st; global_rng := global_rng st;
     ws_messages := ws_messages st; sessions_dir := sessions_dir st |}.
Definition set_task_started_at_iso (v : option string) (st : app) : app :=
  {| data := data st; experiment_name := experiment_name st;
     session_id := session_id st; subject_id := subject_id st;
     task_mode := task_mode st; session_started_at := session_started_at st;
     session_ended_at := session_ended_at st;
     session_start_perf := session_start_perf st; running := running st;
     task_queue := task_queue st; current_task_index := current_task_index st;
     current_task := current_task st; task_started_at_iso := v;
     task_start_perf := task_start_perf st; task_duration_ms := task_duration_ms st;
     task_active := task_active st; intermission_active := intermission_active st;
     intermission_start_perf := intermission_start_perf st;
     selected_choice_id := selected_choice_id st;
     learning_room_order := learning_room_order st;
     iia_room_order := iia_room_order st; records := records st;
     stage_scores := stage_scores st; clock := clock st; global_rng := global_rng st;
     ws_messages := ws_messages st; sessions_dir := sessions_dir st |}.
Definition set_task_start_perf (v : option Q) (st : app) : app :=
  {| data := data st; experiment_name := experiment_name st;
     session_id := session_id st; subject_id := subject_id st;
     task_mode := task_mode st; session_started_at := session_started_at st;
     session_ended_at := session_ended_at st;
     session_start_perf := session_start_perf st; running := running st;
     task_queue := task_queue st; current_task_index := current_task_index st;
     current_task := current_task st; task_started_at_iso := task_started_at_iso st;
     task_start_perf := v; task_duration_ms := task_duration_ms st;
     task_active := task_active st; intermission_active := intermission_active st;
     intermission_start_perf := intermission_start_perf st;
     selected_choice_id := selected_choice_id st;
     learning_room_order := learning_room_order st;
     iia_room_order := iia_room_order st; records := records st;
     stage_scores := stage_scores st; clock := clock st; global_rng := global_rng st;
     ws_messages := ws_messages st; sessions_dir := sessions_dir st |}.
Definition set_task_duration_ms (v : Z) (st : app) : app :=
  {| data := data st; experiment_name := experiment_name st;
     session_id := session_id st; subject_id := subject_id st;
     task_mode := task_mode st; session_started_at := session_started_at st;
     session_ended_at := session_ended_at st;
     session_start_perf := session_start_perf st; running := running st;
     task_queue := task_queue st; current_task_index := current_task_index st;
     current_task := current_task st; task_started_at_iso := task_started_at_iso st;
     task_start_perf := task_start_perf st; task_duration_ms := v;
     task_active := task_active st; intermission_active := intermission_active st;
     intermission_start_perf := intermission_start_perf st;
     selected_choice_id := selected_choice_id st;
     learning_room_order := learning_room_order st;
     iia_room_order := iia_room_order st; records := records st;
     stage_scores := stage_scores st; clock := clock st; global_rng := global_rng st;
     ws_messages := ws_messages st; sessions_dir := sessions_dir st |}.
Definition set_task_active (v : bool) (st : app) : app :=
  {| data := data st; experiment_name := experiment_name st;
     session_id := session_id st; subject_id := subject_id st;
     task_mode := task_mode st; session_started_at := session_started_at st;
     session_ended_at := session_ended_at st;
     session_start_perf := session_start_perf st; running := running st;
     task_queue := task_queue st; current_task_index := current_task_index st;
     current_task := current_task st; task_started_at_iso := task_started_at_iso st;
     task_start_perf := task_start_perf st; task_duration_ms := task_duration_ms st;
     task_active := v; intermission_active := intermission_active st;
     intermission_start_perf := intermission_start_perf st;
     selected_choice_id := selected_choice_id st;
     learning_room_order := learning_room_order st;
     iia_room_order := iia_room_order st; records := records st;
     stage_scores := stage_scores st; clock := clock st; global_rng := global_rng st;
     ws_messages := ws_messages st; sessions_dir := sessions_dir st |}.
Definition set_intermission_active (v : bool) (st : app) : app :=
  {| data := data st; experiment_name := experiment_name st;
     session_id := session_id st; subject_id := subject_id st;
     task_mode := task_mode st; session_started_at := session_started_at st;
     session_ended_at := session_ended_at st;
     session_start_perf := session_start_perf st; running := running st;
     task_queue := task_queue st; current_task_index := current_task_index st;
     current_task := current_task st; task_started_at_iso := task_started_at_iso st;
     task_start_perf := task_start_perf st; task_duration_ms := task_duration_ms st;
     task_active := task_active st; intermission_active := v;
     intermission_start_perf := intermission_start_perf st;
     selected_choice_id := selected_choice_id st;
     learning_room_order := learning_room_order st;
     iia_room_order := iia_room_order st; records := records st;
     stage_scores := stage_scores st; clock := clock st; global_rng := global_rng st;
     ws_messages := ws_messages st; sessions_dir := sessions_dir st |}.
Definition set_intermission_start_perf (v : option Q) (st : app) : app :=
  {| data := data st; experiment_name := experiment_name st;
     session_id := session_id st; subject_id := subject_id st;
     task_mode := task_mode st; session_started_at := session_started_at st;
     session_ended_at := session_ended_at st;
     session_start_perf := session_start_perf st; running := running st;
     task_queue := task_queue st; current_task_index := current_task_index st;
     current_task := current_task st; task_started_at_iso := task_started_at_iso st;
     task_start_perf := task_start_perf st; task_duration_ms := task_duration_ms st;
     task_active := task_active st; intermission_active := intermission_active st;
     intermission_start_perf := v; selected_choice_id := selected_choice_id st;
     learning_room_order := learning_room_order st;
     iia_room_order := iia_room_order st; records := records st;
     stage_scores := stage_scores st; clock := clock st; global_rng := global_rng st;
     ws_messages := ws_messages st; sessions_dir := sessions_dir st |}.
Definition set_selected_choice_id (v : option string) (st : app) : app :=
  {| data := data st; experiment_name := experiment_name st;
     session_id := session_id st; subject_id := subject_id st;
     task_mode := task_mode st; session_started_at := session_started_at st;
     session_ended_at := session_ended_at st;
     session_start_perf := session_start_perf st; running := running st;
     task_queue := task_queue st; current_task_index := current_task_index st;
     current_task := current_task st; task_started_at_iso := task_started_at_iso st;
     task_start_perf := task_start_perf st; task_duration_ms := task_duration_ms st;
     task_active := task_active st; intermission_active := intermission_active st;
     intermission_start_perf := intermission_start_perf st; selected_choice_id := v;
     learning_room_order := learning_room_order st;
     iia_room_order := iia_room_order st; records := records st;
     stage_scores := stage_scores st; clock := clock st; global_rng := global_rng st;
     ws_messages := ws_messages st; sessions_dir := sessions_dir st |}.
Definition set_learning_room_order (v : list (option string)) (st : app) : app :=
  {| data := data st; experiment_name := experiment_name st;
     session_id := session_id st; subject_id := subject_id st;
     task_mode := task_mode st; session_started_at := session_started_at st;
     session_ended_at := session_ended_at st;
     session_start_perf := session_start_perf st; running := running st;
     task_queue := task_queue st; current_task_index := current_task_index st;
     current_task := current_task st; task_started_at_iso := task_started_at_iso st;
     task_start_perf := task_start_perf st; task_duration_ms := task_duration_ms st;
     task_active := task_active st; intermission_active := intermission_active st;
     intermission_start_perf := intermission_start_perf st;
     selected_choice_id := selected_choice_id st; learning_room_order := v;
     iia_room_order := iia_room_order st; records := records st;
     stage_scores := stage_scores st; clock := clock st; global_rng := global_rng st;
     ws_messages := ws_messages st; sessions_dir := sessions_dir st |}.
Definition set_iia_room_order (v : list (option string)) (st : app) : app :=
  {| data := data st; experiment_name := experiment_name st;
     session_id := session_id st; subject_id := subject_id st;
     task_mode := task_mode st; session_started_at := session_started_at st;
     session_ended_at := session_ended_at st;
     session_start_perf := session_start_perf st; running := running st;
     task_queue := task_queue st; current_task_index := current_task_index st;
     current_task := current_task st; task_started_at_iso := task_started_at_iso st;
     task_start_perf := task_start_perf st; task_duration_ms := task_duration_ms st;
     task_active := task_active st; intermission_active := intermission_active st;
     intermission_start_perf := intermission_start_perf st;
     selected_choice_id := selected_choice_id st;
     learning_room_order := learning_room_order st; iia_room_order := v;
     records := records st; stage_scores := stage_scores st; clock := clock st;
     global_rng := global_rng st; ws_messages := ws_messages st;
     sessions_dir := sessions_dir st |}.
Definition set_records (v : list record) (st : app) : app :=
  {| data := data st; experiment_name := experiment_name st;
     session_id := session_id st; subject_id := subject_id st;
     task_mode := task_mode st; session_started_at := session_started_at st;
     session_ended_at := session_ended_at st;
     session_start_perf := session_start_perf st; running := running st;
     task_queue := task_queue st; current_task_index := current_task_index st;
     current_task := current_task st; task_started_at_iso := task_started_at_iso st;
     task_start_perf := task_start_perf st; task_duration_ms := task_duration_ms st;
     task_active := task_active st; intermission_active := intermission_active st;
     intermission_start_perf := intermission_start_perf st;
     selected_choice_id := selected_choice_id st;
     learning_room_order := learning_room_order st;
     iia_room_order := iia_room_order st; records := v;
     stage_scores := stage_scores st; clock := clock st; global_rng := global_rng st;
     ws_messages := ws_messages st; sessions_dir := sessions_dir st |}.
Definition set_stage_scores (v : scores) (st : app) : app :=
  {| data := data st; experiment_name := experiment_name st;
     session_id := session_id st; subject_id := subject_id st;
     task_mode := task_mode st; session_started_at := session_started_at st;
     session_ended_at := session_ended_at st;
     session_start_perf := session_start_perf st; running := running st;
     task_queue := task_queue st; current_task_index := current_task_index st;
     current_task := current_task st; task_started_at_iso := task_started_at_iso st;
     task_start_perf := task_start_perf st; task_duration_ms := task_duration_ms st;
     task_active := task_active st; intermission_active := intermission_active st;
     intermission_start_perf := intermission_start_perf st;
     selected_choice_id := selected_choice_id st;
     learning_room_order := learning_room_order st;
     iia_room_order := iia_room_order st; records := records st; stage_scores := v;
     clock := clock st; global_rng := global_rng st; ws_messages := ws_messages st;
     sessions_dir := sessions_dir st |}.
Definition set_clock (v : nat) (st : app) : app :=
  {| data := data st; experiment_name := experiment_name st;
     session_id := session_id st; subject_id := subject_id st;
     task_mode := task_mode st; session_started_at := session_started_at st;
     session_ended_at := session_ended_at st;
     session_start_perf := session_start_perf st; running := running st;
     task_queue := task_queue st; current_task_index := current_task_index st;
     current_task := current_task st; task_started_at_iso := task_started_at_iso st;
     task_start_perf := task_start_perf st; task_duration_ms := task_duration_ms st;
     task_active := task_active st; intermission_active := intermission_active st;
     intermission_start_perf := intermission_start_perf st;
     selected_choice_id := selected_choice_id st;
     learning_room_order := learning_room_order st;
     iia_room_order := iia_room_order st; records := records st;
     stage_scores := stage_scores st; clock := v; global_rng := global_rng st;
     ws_messages := ws_messages st; sessions_dir := sessions_dir st |}.
Definition set_global_rng (v : rng RT) (st : app) : app :=
  {| data := data st; experiment_name := experiment_name st;
     session_id := session_id st; subject_id := subject_id st;
     task_mode := task_mode st; session_started_at := session_started_at st;
     session_ended_at := session_ended_at st;
     session_start_perf := session_start_perf st; running := running st;
     task_queue := task_queue st; current_task_index := current_task_index st;
     current_task := current_task st; task_started_at_iso := task_started_at_iso st;
     task_start_perf := task_start_perf st; task_duration_ms := task_duration_ms st;
     task_active := task_active st; intermission_active := intermission_active st;
     intermission_start_perf := intermission_start_perf st;
     selected_choice_id := selected_choice_id st;
     learning_room_order := learning_room_order st;
     iia_room_order := iia_room_order st; records := records st;
     stage_scores := stage_scores st; clock := clock st; global_rng := v;
     ws_messages := ws_messages st; sessions_dir := sessions_dir st |}.
Definition set_ws_messages (v : list vr_message) (st : app) : app :=
  {| data := data st; experiment_name := experiment_name st;
     session_id := session_id st; subject_id := subject_id st;
     task_mode := task_mode st; session_started_at := session_started_at st;
     session_ended_at := session_ended_at st;
     session_start_perf := session_start_perf st; running := running st;
     task_queue := task_queue st; current_task_index := current_task_index st;
     current_task := current_task st; task_started_at_iso := task_started_at_iso st;
     task_start_perf := task_start_perf st; task_duration_ms := task_duration_ms st;
     task_active := task_active st; intermission_active := intermission_active st;
     intermission_start_perf := intermission_start_perf st;
     selected_choice_id := selected_choice_id st;
     learning_room_order := learning_room_order st;
     iia_room_order := iia_room_order st; records := records st;
     stage_scores := stage_scores st; clock := clock st; global_rng := global_rng st;
     ws_messages := v; sessions_dir := sessions_dir st |}.
Definition set_sessions_dir (v : list session_file) (st : app) : app :=
  {| data := data st; experiment_name := experiment_name st;
     session_id := session_id st; subject_id := subject_id st;
     task_mode := task_mode st; session_started_at := session_started_at st;
     session_ended_at := session_ended_at st;
     session_start_perf := session_start_perf st; running := running st;
     task_queue := task_queue st; current_task_index := current_task_index st;
     current_task := current_task st; task_started_at_iso := task_started_at_iso st;
     task_start_perf := task_start_perf st; task_duration_ms := task_duration_ms st;
     task_active := task_active st; intermission_active := intermission_active st;
     intermission_start_perf := intermission_start_perf st;
     selected_choice_id := selected_choice_id st;
     learning_room_order := learning_room_order st;
     iia_room_order := iia_room_order st; records := records st;
     stage_scores := stage_scores st; clock := clock st; global_rng := global_rng st;
     ws_messages := ws_messages st; sessions_dir := v |}.

(** The state [__init__] leaves, given the state of the module-level [random]. *)
Definition init_app (g0 : rng RT) : app :=
  {| data := empty_catalog; experiment_name := ""; session_id := ""; subject_id := "";
     task_mode := "recall"; session_started_at := None; session_ended_at := None;
     session_start_perf := None; running := false; task_queue := [];
     current_task_index := (-1)%Z; current_task := None; task_started_at_iso := None;
     task_start_perf := None; task_duration_ms := 0%Z; task_active := false;
     intermission_active := false; intermission_start_perf := None;
     selected_choice_id := None; learning_room_order := []; iia_room_order := [];
     records := []; stage_scores := zero_scores STAGES; clock := 0%nat;
     global_rng := g0; ws_messages := []; sessions_dir := [] |}.

(** [time.perf_counter()] and [now_iso()]: the next reading of the clock. *)
Definition read_perf (st : app) : Q * app :=
  (perf_counter RT (clock st), set_clock (S (clock st)) st).
Definition read_iso (st : app) : string * app :=
  (now_iso RT (clock st), set_clock (S (clock st)) st).

(** [_get_rng()], with the module constant [RANDOM_MODE] as a parameter. *)
Definition _get_rng (random_mode : string) (st : app) : rng RT :=
  if random_mode =? "per_session" then
    Random RT (experiment_name st ++ "-" ++ subject_id st ++ "-" ++ session_id st)%string
  else Random RT RANDOM_SEED.

(** [_build_tasks()]: the queue, and [self] with the two room orders stored. *)
Definition _build_tasks (random_mode : string) (st : app) : list task * app :=
  let b := build_from RT (data st) (task_mode st)
             (learning_room_order st) (iia_room_order st) (_get_rng random_mode st) in
  (b_tasks b,
   set_iia_room_order (b_iia_room_order b)
     (set_learning_room_order (b_learning_room_order b) st)).

(** [lookup = {r.get("id"): r for r in rooms}; lookup.get(rid)]: the last
    room carrying the id. *)
Fixpoint lookup_room (rid : string) (rs : list room) : option room :=
  match rs with
  | [] => None
  | r :: rs' =>
      match lookup_room rid rs' with
      | Some r' => Some r'
      | None => if opt_str_eqb (rm_id r) (Some rid) then Some r else None
      end
  end.

(** [_rooms_by_ids(room_ids, rooms)] *)
Definition _rooms_by_ids (ids : list string) (rs : list room) : list room :=
  flat_map (fun rid => match lookup_room rid rs with Some r => [r] | None => [] end) ids.

(** [for room in rooms: if room not in ordered: ordered.append(room)] *)
Definition append_missing (ordered rs : list room) : list room :=
  fold_left (fun acc r => if room_in r acc then acc else acc ++ [r]) rs ordered.

(** [iib_positions.get(oid, {})], read through [.get] on each of its keys. *)
Fixpoint positions_of (oid : option string) (tbl : list (string * positions)) : positions :=
  match tbl with
  | [] => mkPositions None None None
  | (k, p) :: tbl' => if opt_str_eqb oid (Some k) then p else positions_of oid tbl'
  end.

(** The choice set of the spatial-position follow-up, before it is shuffled. *)
Definition iib_choices (o : obj) (pos : positions) : list choice :=
  if is_familiar o then
    [mkChoice "good" (good pos) true; mkChoice "bad" (bad pos) false]
  else
    [mkChoice "bad1" (bad pos) false; mkChoice "bad2" (alt_bad pos) false].

(** The two follow-up tasks spliced in after a "yes" at Stage I. *)
Definition step2_where_task (o : obj) (ordered_rooms : list room) : task :=
  mkTask (Some ("step2_where_" ++ str_opt (obj_id o))%string) "IIA"
         (Step2Where o ordered_rooms) STEP2_DURATION_MS.
Definition step2_spatial_task (o : obj) (cs : list choice) : task :=
  mkTask (Some ("step2_spatial_" ++ str_opt (obj_id o))%string) "IIB"
         (Step2Spatial o cs) STEP2_DURATION_MS.

(** The block under "Inject Etape IIA / IIB tasks if needed", for a Stage-I
    task about [o]. *)
Definition inject_followups (o : obj) (st : app) : app :=
  let rs := rooms (data st) in
  let ordered_rooms := append_missing (_rooms_by_ids ROOM_GRID_ORDER rs) rs in
  let pos := positions_of (obj_id o) (iib_positions (data st)) in
  let (cs, g) := shuffle RT (iib_choices o pos) (global_rng st) in
  let st := set_global_rng g st in
  let insert_at := (current_task_index st + 1)%Z in
  set_task_queue
    (slice_insert (task_queue st) insert_at
       [step2_where_task o ordered_rooms; step2_spatial_task o cs]) st.

(** The keys a record copies from its task. *)
Definition copy_task_keys (t : task) (rec : record) : record :=
  match body t with
  | Step1 o | Step2Where o _ => dset "object" (VObject o) rec
  | Step2Spatial o cs => dset "choices" (VChoices cs) (dset "object" (VObject o) rec)
  | Step3Daynight r => dset "room" (VRoom r) rec
  | Step4Order r co => dset "correct_order" (v_opt_nat co) (dset "room" (VRoom r) rec)
  | Step5 img e | RappelImmediat img e =>
      dset "expected_is_correct" (VBool e) (dset "image" (v_opt_str img) rec)
  end.

(** [_start_intermission()] *)
Definition _start_intermission (st : app) : app :=
  let st := set_intermission_active true st in
  let (now, st) := read_perf st in
  set_intermission_start_perf (Some now) st.

(** The value recorded as the response: the selected choice, or the
    no-response sentinel on a timeout without one. *)
Definition response_value_of (timeout : bool) (st : app) : option string :=
  match selected_choice_id st with
  | None => if timeout then Some NE_REPOND_PAS else None
  | Some c => Some c
  end.

(** [k in d] *)
Definition has_key (k : string) (d : record) : bool :=
  match dget k d with Some _ => true | None => false end.

(** The response record [_finalize_current_task] appends for the task [t],
    [elapsed_ms] after its start (the lines from [response_duration_ms = ...]
    to the call of [_annotate_record_metrics]). *)
Definition response_record (timeout : bool) (t : task) (elapsed_ms : Q)
    (ended_at : string) (st : app) : record :=
  let response_duration_ms :=
    py_int (py_max 0 (py_min elapsed_ms (py_float (task_duration_ms st)))) in
  let actual_elapsed_ms := py_int (py_max 0 elapsed_ms) in
  let response_value := response_value_of timeout st in
  let rec : record :=
    [("task_id", v_opt_str (task_id t)); ("stage", VStr (stage t));
     ("kind", VStr (kind t)); ("started_at", v_opt_str (task_started_at_iso st));
     ("ended_at", VStr ended_at); ("duration_ms", VInt (task_duration_ms st));
     ("actual_elapsed_ms", VInt actual_elapsed_ms);
     ("response", v_opt_str response_value); ("timeout", VBool timeout)] in
  let rec :=
    match _evaluate_correctness t response_value timeout with
    | Some c => dset "is_correct" (VBool c) rec
    | None => rec
    end in
  let rec := copy_task_keys t rec in
  _annotate_record_metrics RT t response_value rec.

(** [_finalize_current_task(timeout, force)] *)
Definition _finalize_current_task (timeout force : bool) (st : app) : app :=
  if negb (task_active st) && negb force then st
  else match current_task st, task_start_perf st with
  | Some t, Some start =>
      let (end_perf, st) := read_perf st in
      let elapsed_ms := ((end_perf - start) * 1000)%Q in
      let response_value := response_value_of timeout st in
      let (ended_at, st) := read_iso st in
      let rec := response_record timeout t elapsed_ms ended_at st in
      let st :=
        match _evaluate_correctness t response_value timeout with
        | Some c => set_stage_scores (bump (stage t) c (stage_scores st)) st
        | None => st
        end in
      let st := set_records (records st ++ [rec]) st in
      let st :=
        match body t with
        | Step1 o =>
            if opt_str_eqb response_value (Some "yes") then inject_followups o st
            else st
        | _ => st
        end in
      let st := set_task_active false st in
      let st := set_task_start_perf None st in
      let st := set_task_started_at_iso None st in
      let st := set_selected_choice_id None st in
      _start_intermission st
  | _, _ => st
  end.

(** [_on_choice(choice_id)] *)
Definition _on_choice (choice_id : string) (st : app) : app :=
  if negb (task_active st) then st
  else _finalize_current_task false true (set_selected_choice_id (Some choice_id) st).

(** One telemetry entry of the saved session: the receipt time as a
    millisecond offset from [start_perf]. *)
Definition serialize_vr (start_perf : Q) (m : vr_message) : vr_entry :=
  let rp := match received_perf m with Some p => p | None => start_perf end in
  let relative_ms := py_int (py_max 0 ((rp - start_perf) * 1000)%Q) in
  mkEntry (received_at m) relative_ms (msg_payload m).

(** [_save_session(vr_msgs)]: the file is appended to the sessions
    directory (the write is taken to succeed; the reports derived from the
    directory are outside the model). *)
Definition _save_session (vr_msgs : list vr_message) (st : app) : app :=
  let (start_perf, st) :=
    match session_start_perf st with
    | Some q => if Qeq_bool q 0 then read_perf st else (q, st)
    | None => read_perf st
    end in
  let vr_serialized := map (serialize_vr start_perf) vr_msgs in
  let out :=
    mkFile (session_id st) (subject_id st) (task_mode st) (experiment_name st)
           (session_started_at st) (session_ended_at st) (stage_scores st)
           (records st) vr_serialized in
  (* the file name reads [self.session_started_at or now_iso()] *)
  let st := if truthy (session_started_at st) then st else snd (read_iso st) in
  set_sessions_dir (sessions_dir st ++ [out]) st.

(** [on_stop()]; [drain_messages()] hands over the buffer and clears it. *)
Definition on_stop (st : app) : app :=
  let st := _finalize_current_task true false st in
  if negb (running st) then st
  else
    let st := set_running false st in
    let st := set_task_active false st in
    let st := set_intermission_active false st in
    let (now, st) := read_iso st in
    let st := set_session_ended_at (Some now) st in
    let vr_msgs := ws_messages st in
    let st := set_ws_messages [] st in
    _save_session vr_msgs st.

(** [q[i]]; [None] stands for [IndexError]. *)
Definition py_index {A} (q : list A) (i : Z) : option A :=
  if (i <? 0)%Z then
    if (Z.of_nat (List.length q) + i <? 0)%Z then None
    else nth_error q (Z.to_nat (Z.of_nat (List.length q) + i))
  else nth_error q (Z.to_nat i).

(** [_show_task(task)], without the rendering. *)
Definition _show_task (t : task) (st : app) : app :=
  let st := set_task_active false st in
  let st := set_intermission_active false st in
  let (iso, st) := read_iso st in
  let st := set_task_started_at_iso (Some iso) st in
  let (now, st) := read_perf st in
  let st := set_task_start_perf (Some now) st in
  let st := set_task_duration_ms (duration_ms t) st in
  let st := set_task_active true st in
  set_selected_choice_id None st.

(** [_go_to_next_task()] *)
Definition _go_to_next_task (st : app) : app :=
  if negb (running st) then st
  else
    let st := set_current_task_index (current_task_index st + 1)%Z st in
    if (Z.of_nat (List.length (task_queue st)) <=? current_task_index st)%Z then on_stop st
    else match py_index (task_queue st) (current_task_index st) with
         | Some t => _show_task t (set_current_task (Some t) st)
         | None => st
         end.

(** [on_start(_)]: [subject] is the stripped subject field, [selector] the
    task selector's value, [loaded] what [_load_v2_assets()] returns and
    [uuid] the fresh [uuid.uuid4()]. *)
Definition on_start (subject : string) (selector : option string)
    (loaded : catalog) (uuid : string) (st : app) : app :=
  if running st then st
  else if subject =? "" then st
  else
    let st := set_subject_id subject st in
    let st := set_task_mode (if truthy selector then str_opt selector else "recall") st in
    let st := set_data loaded st in
    let st := set_experiment_name (cat_experiment_name loaded) st in
    let (q, st) := _build_tasks RANDOM_MODE st in
    let st := set_task_queue q st in
    match q with
    | [] => st
    | _ :: _ =>
        let st := set_session_id uuid st in
        let (iso, st) := read_iso st in
        let st := set_session_started_at (Some iso) st in
        let st := set_session_ended_at None st in
        let (now, st) := read_perf st in
        let st := set_session_start_perf (Some now) st in
        let st := set_current_task_index (-1)%Z st in
        let st := set_records [] st in
        let st := set_stage_scores (zero_scores (map fst (stage_scores st))) st in
        let st := set_running true st in
        let st := set_task_active false st in
        let st := set_intermission_active false st in
        _go_to_next_task st
    end.

(** [_timer_tick()] *)
Definition _timer_tick (st : app) : app :=
  if negb (running st) then st
  else match (if intermission_active st then intermission_start_perf st else None) with
  | Some start =>
      let (now, st) := read_perf st in
      let elapsed_ms := ((now - start) * 1000)%Q in
      if Qle_bool (py_float INTER_DELAY_MS) elapsed_ms then
        let st := set_intermission_active false st in
        let st := set_intermission_start_perf None st in
        _go_to_next_task st
      else st
  | None =>
      match (if task_active st then task_start_perf st else None) with
      | Some start =>
          let (now, st) := read_perf st in
          let elapsed_ms := ((now - start) * 1000)%Q in
          if Qle_bool (py_float (task_duration_ms st)) elapsed_ms
          then _finalize_current_task true true st
          else st
      | None => st
      end
  end.

(** [_jump_to_question(index)] *)
Definition _jump_to_question (index : Z) (st : app) : app :=
  if negb (running st) || (index <? 0)%Z
     || (Z.of_nat (List.length (task_queue st)) <=? index)%Z
  then st
  else
    let st := if task_active st then _finalize_current_task true true st else st in
    let st := set_current_task_index (index - 1)%Z st in
    let st := set_intermission_active false st in
    let st := set_intermission_start_perf None st in
    _go_to_next_task st.

(** [VRWebSocketServer._handler], for one message: both clocks are read and
    the entry is appended to the buffer. *)
Definition ws_handler (message : string) (st : app) : app :=
  let (received_perf, st) := read_perf st in
  let (received_at, st) := read_iso st in
  set_ws_messages (ws_messages st ++ [mkMsg (Some received_at) (Some received_perf) message]) st.

(** ** Runs of the application *)

(** What can happen to the application: the operator's commands, the
    periodic tick and a telemetry message coming in. *)
Inductive event :=
| EvStart (subject : string) (selector : option string) (loaded : catalog) (uuid : string)
| EvStop
| EvTick
| EvChoice (choice_id : string)
| EvJump (index : Z)
| EvMessage (message : string).

Definition step (st : app) (e : event) : app :=
  match e with
  | EvStart subject selector loaded uuid => on_start subject selector loaded uuid st
  | EvStop => on_stop st
  | EvTick => _timer_tick st
  | EvChoice c => _on_choice c st
  | EvJump i => _jump_to_question i st
  | EvMessage m => ws_handler m st
  end.

(** The state after the events [es], from [st] on. *)
Definition run (es : list event) (st : app) : app := fold_left step es st.

(** The states a run from a freshly constructed application reaches. *)
Definition reachable (st : app) : Prop :=
  exists g0 es, st = run es (init_app g0).

End App.
Arguments app RT : clear implicits.
Arguments init_app RT g0 : clear implicits.

(** ** A concrete runtime, for running the model on examples *)

Module Demo.

(** A linear congruential source. *)
Definition lcg_next (g : N) : N := ((g * 1103515245 + 12345) mod 2147483648)%N.

Definition demo_randbelow (n : nat) (g : N) : nat * N :=
  (N.to_nat (lcg_next g mod N.of_nat n), lcg_next g).

Lemma demo_randbelow_lt n g : (fst (demo_randbelow (S n) g) < S n)%nat.
Proof.
  unfold demo_randbelow; cbn [fst].
  assert (H : (lcg_next g mod N.of_nat (S n) < N.of_nat (S n))%N)
    by (apply N.mod_lt; lia).
  lia.
Qed.

(** The seed of a string: the sum of its character codes. *)
Fixpoint seed_of (s : string) : N :=
  match s with
  | EmptyString => 0%N
  | String c s' => (N_of_ascii c + seed_of s')%N
  end.

(** Decimal integers, as the number buttons send them. *)
Definition demo_int (s : string) : option Z :=
  option_map Z.of_int (NilZero.int_of_string s).

(** A runtime whose clock readings are [ticks k] seconds. *)
Definition runtime (ticks : nat -> Q) : Runtime :=
  {| rng := N; Random := seed_of; randbelow := demo_randbelow;
     randbelow_lt := demo_randbelow_lt; perf_counter := ticks;
     now_iso := fun k => ("t" ++ str_nat k)%string; int_of_str := demo_int |}.

(** One reading per second. *)
Definition RT1 : Runtime := runtime (fun k => inject_Z (Z.of_nat k)).

(** A source whose every draw is the largest value allowed, so that a
    shuffle leaves the list as it is. *)
Definition still_randbelow (n : nat) (g : unit) : nat * unit := (Nat.pred n, g).

Lemma still_randbelow_lt n g : (fst (still_randbelow (S n) g) < S n)%nat.
Proof. simpl. lia. Qed.

Definition STILL : Runtime :=
  {| rng := unit; Random := fun _ => tt; randbelow := still_randbelow;
     randbelow_lt := still_randbelow_lt;
     perf_counter := fun k => inject_Z (Z.of_nat k);
     now_iso := fun k => ("t" ++ str_nat k)%string; int_of_str := demo_int |}.

Definition room_n (n : nat) : room :=
  mkRoom (Some ("room" ++ str_nat n)%string) (Some ("Salle " ++ str_nat n)%string) None
         (Some (if (n <=? 5)%nat then "jour" else "nuit")).

Definition familiar_n (n : nat) : obj :=
  mkObj (Some ("OF" ++ str_nat n)%string) (Some ("Objet familier " ++ str_nat n)%string)
        None true (Some ("room" ++ str_nat n)%string)
        (Some (if (n <=? 5)%nat then "jour" else "nuit")).

Definition new_n (n : nat) : obj :=
  mkObj (Some ("NO" ++ str_nat n)%string) (Some ("Nouvel objet " ++ str_nat n)%string)
        None false None None.

Definition trial_n (prefix : string) (c : bool) (n : nat) : trial :=
  mkTrial (Some (prefix ++ str_nat n)%string) (Some ("img" ++ str_nat n)%string) c.

(** A catalog of the shape [_load_v2_assets] produces, with [k] rooms,
    [k] familiar and [k] new objects and [m] scenes of each truth value. *)
Definition demo_catalog (k m : nat) : catalog :=
  let ns := seq 1 k in
  let ms := seq 1 m in
  mkCatalog "HARMORYC_V2" (map room_n ns) (map familiar_n ns) (map new_n ns)
    (map (trial_n "ri_correct_" true) ms ++ map (trial_n "ri_incorrect_" false) ms)
    (map (trial_n "correct_" true) ms ++ map (trial_n "incorrect_" false) ms)
    (map (fun n => (("OF" ++ str_nat n)%string,
                    mkPositions (Some "ok") (Some "wrong") (Some "wrong"))) ns
     ++ map (fun n => (("NO" ++ str_nat n)%string,
                       mkPositions None (Some "w1") (Some "w2"))) ns).

End Demo.

(** ** Notions the properties are stated with *)

(** The two ground-truth subsets of a pool. *)
Definition correct_of (trials : list trial) : list trial :=
  filter (fun t => tr_is_correct t) trials.

Definition incorrect_of (trials : list trial) : list trial :=
  filter (fun t => negb (tr_is_correct t)) trials.

(** The keys of a record that neither the copy from the task nor the
    annotation writes. *)
Definition BASE_KEYS : list string :=
  ["stage"; "is_correct"; "duration_ms"; "actual_elapsed_ms"; "response_duration_ms";
   "response_duration"].

(** A record counts for stage [k]: it carries that stage and a correctness
    that is not null. *)
Definition scored (k : string) (r : record) : bool :=
  match dget "stage" r, dget "is_correct" r with
  | Some (VStr s), Some (VBool _) => s =? k
  | _, _ => false
  end.

(** A record counts as correct for stage [k]. *)
Definition scored_correct (k : string) (r : record) : bool :=
  match dget "stage" r, dget "is_correct" r with
  | Some (VStr s), Some (VBool true) => s =? k
  | _, _ => false
  end.

(** How many elements of [l] satisfy [f]. *)
Definition count {A} (f : A -> bool) (l : list A) : nat := List.length (filter f l).

Section Notions.
Context {RT : Runtime}.

(** The successive states of [rooms_iia] when the loop runs [n] times
    without leaving early. *)
Fixpoint reshuffles (n : nat) (rooms_iia : list room) (rand : rng RT) : list (list room) :=
  match n with
  | O => []
  | S n' =>
      let (l, rand) := shuffle RT rooms_iia rand in
      l :: reshuffles n' l rand
  end.

(** Every one of the [n] reshuffles reproduces the learning order. *)
Definition all_reproduce (n : nat) (rms : list room)
    (learning : list (option string)) (rand : rng RT) : bool :=
  forallb (fun l => ids_eqb (room_ids l) learning) (reshuffles n rms rand).

(** The start marker [_save_session] measures from. *)
Definition start_marker (st : app RT) : Q :=
  match session_start_perf st with
  | Some q => if Qeq_bool q 0 then perf_counter RT (clock st) else q
  | None => perf_counter RT (clock st)
  end.

(** The task a call of [_finalize_current_task] finalizes, when it gets past
    its two guards. *)
Definition finalizes (force : bool) (st : app RT) : option task :=
  if negb (task_active st) && negb force then None
  else match current_task st, task_start_perf st with
       | Some t, Some _ => Some t
       | _, _ => None
       end.

(** The time the finalized task has been shown for, in milliseconds. *)
Definition elapsed_ms_of (st : app RT) : Q :=
  match task_start_perf st with
  | Some start => ((perf_counter RT (clock st) - start) * 1000)%Q
  | None => 0
  end.

(** The record a finalization appends. *)
Definition record_of (timeout : bool) (t : task) (st : app RT) : record :=
  response_record timeout t (elapsed_ms_of st) (now_iso RT (S (clock st))) st.

(** The choices of the spatial-position follow-up, as shuffled. *)
Definition shuffled_choices (o : obj) (st : app RT) : list choice :=
  fst (shuffle RT (iib_choices o (positions_of (obj_id o) (iib_positions (data st))))
         (global_rng st)).

(** The rooms of the room-locate follow-up: the grid order, then the rest. *)
Definition ordered_rooms (st : app RT) : list room :=
  append_missing (_rooms_by_ids ROOM_GRID_ORDER (rooms (data st))) (rooms (data st)).

(** The queue after a finalization of [t]. *)
Definition queue_after (timeout : bool) (t : task) (st : app RT) : list task :=
  match body t with
  | Step1 o =>
      if opt_str_eqb (response_value_of timeout st) (Some "yes") then
        slice_insert (task_queue st) (current_task_index st + 1)%Z
          [step2_where_task o (ordered_rooms st);
           step2_spatial_task o (shuffled_choices o st)]
      else task_queue st
  | _ => task_queue st
  end.

(** The activity fields agree: a task is active only in a running session,
    outside the intermission, with its start marker set, and then it is the
    task under the cursor. *)
Definition wf (st : app RT) : Prop :=
  (running st = false -> task_active st = false)
  /\ (intermission_active st = true -> task_active st = false)
  /\ (task_active st = false -> task_start_perf st = None)
  /\ (task_active st = true ->
        exists t start,
          current_task st = Some t /\ task_start_perf st = Some start
          /\ (0 <= current_task_index st)%Z
          /\ nth_error (task_queue st) (Z.to_nat (current_task_index st)) = Some t)
  /\ (-1 <= current_task_index st)%Z.

(** The tallies agree with the records. *)
Definition tally (st : app RT) : Prop :=
  map fst (stage_scores st) = STAGES
  /\ forall k s, score_of k (stage_scores st) = Some s ->
       total s = count (scored k) (records st)
       /\ correct s = count (scored_correct k) (records st).

Definition inv (st : app RT) : Prop := wf st /\ tally st.

End Notions.

(** ** A small session, for running the model *)

(** A session over two rooms, two familiar and two new objects. *)
Definition demo_start : event :=
  EvStart "S1" (Some "recall") (Demo.demo_catalog 2 1) "uuid1".

(** The first task of that session, a Stage-I task about the new object NO1. *)
Definition demo_task : task :=
  mkTask (Some "step1_NO1_1") "I" (Step1 (Demo.new_n 1)) STEP1_DURATION_MS.

(** The first task is on screen. *)
Definition demo_shown : app Demo.RT1 := run [demo_start] (init_app Demo.RT1 7%N).

(** The "yes" button has been pressed: [_on_choice] has stored the choice
    and is about to finalize. *)
Definition demo_yes : app Demo.RT1 := set_selected_choice_id (Some "yes") demo_shown.

(** Nine ticks after the task was shown, the tenth has just read the clock
    and found the deadline passed. *)
Definition demo_deadline : app Demo.RT1 :=
  let before := run (demo_start :: repeat EvTick 9) (init_app Demo.RT1 7%N) in
  set_clock (S (clock before)) before.

(** Ten ticks after the task was shown: it has timed out. *)
Definition demo_timed_out : app Demo.RT1 :=
  run (demo_start :: repeat EvTick 10) (init_app Demo.RT1 7%N).

(** * Properties *)

(** ** Shuffling permutes *)

Lemma list_update_cons_perm {A} (t : list A) j a b :
  nth_error t j = Some b -> Permutation (b :: list_update t j a) (a :: t).
Proof.
  revert j; induction t as [|h t IH]; intros [|j] H; simpl in *; try discriminate.
  - injection H as ->. apply perm_swap.
  - rewrite perm_swap. rewrite (IH _ H). apply perm_swap.
Qed.

Lemma list_update_same {A} (l : list A) i a :
  nth_error l i = Some a -> list_update l i a = l.
Proof.
  revert i; induction l as [|h t IH]; intros [|i] H; simpl in *; try discriminate.
  - now injection H as ->.
  - now rewrite IH.
Qed.

Lemma swap_perm {A} (l : list A) i j : Permutation (swap l i j) l.
Proof.
  unfold swap.
  destruct (nth_error l i) as [a|] eqn:Hi; [|reflexivity].
  destruct (nth_error l j) as [b|] eqn:Hj; [|reflexivity].
  revert i j Hi Hj; induction l as [|h t IH]; intros [|i] [|j] Hi Hj;
    simpl in *; try discriminate.
  - inversion Hi; inversion Hj; subst. reflexivity.
  - injection Hi as ->. now apply list_update_cons_perm.
  - injection Hj as ->. now apply list_update_cons_perm.
  - constructor. now apply IH.
Qed.

Section ShuffleFacts.
Context (RT : Runtime) {A : Type}.

Lemma shuffle_down_perm i (x : list A) g :
  Permutation (fst (shuffle_down RT i x g)) x.
Proof.
  revert x g; induction i as [|i IH]; intros x g; simpl; [reflexivity|].
  destruct (randbelow RT (S (S i)) g) as [j g'].
  rewrite IH. apply swap_perm.
Qed.

Lemma shuffle_perm (x : list A) g : Permutation (fst (shuffle RT x g)) x.
Proof. apply shuffle_down_perm. Qed.

Lemma shuffle_length (x : list A) g :
  List.length (fst (shuffle RT x g)) = List.length x.
Proof. apply Permutation_length, shuffle_perm. Qed.

Lemma shuffle_Forall (P : A -> Prop) (x : list A) g :
  Forall P x -> Forall P (fst (shuffle RT x g)).
Proof.
  intros H. eapply Permutation_Forall; [|exact H].
  symmetry; apply shuffle_perm.
Qed.

Lemma shuffle_nil g : fst (shuffle RT (@nil A) g) = [].
Proof. reflexivity. Qed.

Lemma shuffle_singleton (a : A) g : fst (shuffle RT [a] g) = [a].
Proof. reflexivity. Qed.

End ShuffleFacts.

(** ** Lists *)

Lemma filter_partition_perm {A} (f : A -> bool) (l : list A) :
  Permutation (filter f l ++ filter (fun x => negb (f x)) l) l.
Proof.
  induction l as [|a l IH]; simpl; [reflexivity|].
  destruct (f a); simpl.
  - now constructor.
  - rewrite <- Permutation_middle. now constructor.
Qed.

Lemma filter_all {A} (f : A -> bool) (l : list A) :
  Forall (fun x => f x = true) l -> filter f l = l.
Proof.
  induction 1 as [|a l Ha _ IH]; simpl; [reflexivity|].
  now rewrite Ha, IH.
Qed.

Lemma filter_none {A} (f : A -> bool) (l : list A) :
  Forall (fun x => f x = false) l -> filter f l = [].
Proof.
  induction 1 as [|a l Ha _ IH]; simpl; [reflexivity|].
  now rewrite Ha.
Qed.

Lemma Forall_filter_true {A} (f : A -> bool) (l : list A) :
  Forall (fun x => f x = true) (filter f l).
Proof.
  apply Forall_forall. intros x Hx. now apply filter_In in Hx.
Qed.

Lemma Forall_firstn {A} (P : A -> Prop) n (l : list A) :
  Forall P l -> Forall P (firstn n l).
Proof.
  intros H; revert n; induction H as [|a l Ha _ IH]; intros [|n]; simpl;
    constructor; auto.
Qed.

(** ** Balanced sampling *)

Section BalancedFacts.
Context (RT : Runtime).

Lemma pick_balanced_unfold trials rand n :
  let c := fst (shuffle RT (correct_of trials) rand) in
  let r1 := snd (shuffle RT (correct_of trials) rand) in
  let i := fst (shuffle RT (incorrect_of trials) r1) in
  fst (_pick_balanced_trials RT trials rand n) =
    if (n <=? List.length c)%nat && (n <=? List.length i)%nat
    then firstn n c ++ firstn n i else c ++ i.
Proof.
  unfold _pick_balanced_trials, correct_of, incorrect_of. simpl.
  destruct (shuffle RT (filter _ trials) rand) as [c r1]; simpl.
  destruct (shuffle RT (filter _ trials) r1) as [i r2]; simpl.
  now destruct (_ && _).
Qed.

Lemma pick_balanced_enough trials rand n :
  (n <= List.length (correct_of trials))%nat ->
  (n <= List.length (incorrect_of trials))%nat ->
  let res := fst (_pick_balanced_trials RT trials rand n) in
  List.length (correct_of res) = n /\ List.length (incorrect_of res) = n
  /\ List.length res = (n + n)%nat
  /\ exists rest, Permutation (res ++ rest) trials.
Proof.
  intros Hc Hi res. subst res. rewrite pick_balanced_unfold.
  set (c := fst (shuffle RT (correct_of trials) rand)).
  set (r1 := snd (shuffle RT (correct_of trials) rand)).
  set (i := fst (shuffle RT (incorrect_of trials) r1)).
  assert (Pc : Permutation c (correct_of trials)) by apply shuffle_perm.
  assert (Pi : Permutation i (incorrect_of trials)) by apply shuffle_perm.
  assert (Lc : List.length c = List.length (correct_of trials))
    by now apply Permutation_length.
  assert (Li : List.length i = List.length (incorrect_of trials))
    by now apply Permutation_length.
  assert (Fc : Forall (fun t => tr_is_correct t = true) c).
  { eapply Permutation_Forall; [symmetry; exact Pc|]. apply Forall_filter_true. }
  assert (Fi : Forall (fun t => negb (tr_is_correct t) = true) i).
  { eapply Permutation_Forall; [symmetry; exact Pi|].
    apply (Forall_filter_true (fun t => negb (tr_is_correct t))). }
  assert (Fi' : Forall (fun t => tr_is_correct t = false) i).
  { eapply Forall_impl; [|exact Fi]. intros t Ht; simpl in Ht.
    now apply negb_true_iff in Ht. }
  assert (Fc' : Forall (fun t => negb (tr_is_correct t) = false) c).
  { eapply Forall_impl; [|exact Fc]. intros t Ht; simpl in Ht. now rewrite Ht. }
  replace ((n <=? List.length c)%nat) with true by (symmetry; apply Nat.leb_le; lia).
  replace ((n <=? List.length i)%nat) with true by (symmetry; apply Nat.leb_le; lia).
  simpl. unfold correct_of, incorrect_of. rewrite !filter_app.
  assert (E1 : filter (fun t => tr_is_correct t) (firstn n c) = firstn n c).
  { apply filter_all. apply Forall_firstn. exact Fc. }
  assert (E2 : filter (fun t => tr_is_correct t) (firstn n i) = []).
  { apply filter_none. apply Forall_firstn. exact Fi'. }
  assert (E3 : filter (fun t => negb (tr_is_correct t)) (firstn n c) = []).
  { apply filter_none. apply Forall_firstn. exact Fc'. }
  assert (E4 : filter (fun t => negb (tr_is_correct t)) (firstn n i) = firstn n i).
  { apply filter_all. apply Forall_firstn. exact Fi. }
  rewrite E1, E2, E3, E4.
  rewrite app_nil_r, app_nil_l, length_app, !length_firstn.
  repeat split; try lia.
  exists (skipn n c ++ skipn n i).
  rewrite <- (filter_partition_perm (fun t => tr_is_correct t) trials).
  fold (correct_of trials) (incorrect_of trials). rewrite <- Pc, <- Pi.
  transitivity ((firstn n c ++ skipn n c) ++ (firstn n i ++ skipn n i));
    [|now rewrite !firstn_skipn].
  rewrite <- !app_assoc. apply Permutation_app_head.
  rewrite !app_assoc. apply Permutation_app_tail. apply Permutation_app_comm.
Qed.

Lemma pick_balanced_short trials rand n :
  (List.length (correct_of trials) < n)%nat
  \/ (List.length (incorrect_of trials) < n)%nat ->
  let c := fst (shuffle RT (correct_of trials) rand) in
  let i := fst (shuffle RT (incorrect_of trials)
                  (snd (shuffle RT (correct_of trials) rand))) in
  fst (_pick_balanced_trials RT trials rand n) = c ++ i
  /\ Permutation (fst (_pick_balanced_trials RT trials rand n)) trials.
Proof.
  intros H c i. rewrite pick_balanced_unfold. fold c i.
  assert (Pc : Permutation c (correct_of trials)) by apply shuffle_perm.
  assert (Pi : Permutation i (incorrect_of trials)) by apply shuffle_perm.
  assert (E : (n <=? List.length c)%nat && (n <=? List.length i)%nat = false).
  { rewrite (Permutation_length Pc), (Permutation_length Pi).
    apply andb_false_iff. destruct H; [left|right]; apply Nat.leb_gt; lia. }
  rewrite E. split; [reflexivity|].
  rewrite Pc, Pi. apply filter_partition_perm.
Qed.

(** C3. Balanced sampling with the default target of 5: when the pool holds at
    least 5 ground-truth-correct and at least 5 ground-truth-incorrect trials,
    the result holds exactly 5 of each (10 trials, all drawn from the pool
    without repetition); when either subset is shorter than 5, the result is
    the two shuffled subsets whole, one after the other, that is, every trial
    of the pool. *)
Theorem pick_balanced_trials_default (trials : list trial) (rand : rng RT) :
  let res := fst (_pick_balanced_trials RT trials rand 5) in
  ((5 <= List.length (correct_of trials))%nat ->
   (5 <= List.length (incorrect_of trials))%nat ->
   List.length (correct_of res) = 5%nat /\ List.length (incorrect_of res) = 5%nat
   /\ List.length res = 10%nat
   /\ exists rest, Permutation (res ++ rest) trials)
  /\
  ((List.length (correct_of trials) < 5)%nat
   \/ (List.length (incorrect_of trials) < 5)%nat ->
   res = fst (shuffle RT (correct_of trials) rand)
         ++ fst (shuffle RT (incorrect_of trials)
                   (snd (shuffle RT (correct_of trials) rand)))
   /\ Permutation res trials).
Proof.
  intros res; split.
  - intros Hc Hi. exact (pick_balanced_enough trials rand 5 Hc Hi).
  - intros H. exact (pick_balanced_short trials rand 5 H).
Qed.

End BalancedFacts.

Lemma pick_balanced_trials_default_witness :
  let full := rappel_immediat_trials (Demo.demo_catalog 0 6) in
  let short := rappel_immediat_trials (Demo.demo_catalog 0 2) in
  (List.length (correct_of (fst (_pick_balanced_trials Demo.RT1 full 3%N 5))) = 5%nat
   /\ List.length (incorrect_of (fst (_pick_balanced_trials Demo.RT1 full 3%N 5))) = 5%nat)
  /\ Permutation (fst (_pick_balanced_trials Demo.RT1 short 3%N 5)) short.
Proof.
  split.
  - destruct (pick_balanced_trials_default Demo.RT1
                (rappel_immediat_trials (Demo.demo_catalog 0 6)) 3%N) as [H _].
    destruct H as (H1 & H2 & _); [vm_compute; lia | vm_compute; lia |].
    split; assumption.
  - destruct (pick_balanced_trials_default Demo.RT1
                (rappel_immediat_trials (Demo.demo_catalog 0 2)) 3%N) as [_ H].
    destruct H as [_ H]; [left; vm_compute; lia | exact H].
Defined.

(** ** The two room orders *)

Lemma opt_str_eqb_eq a b : opt_str_eqb a b = true <-> a = b.
Proof.
  destruct a as [x|], b as [y|]; simpl; split; intros H;
    try discriminate; try reflexivity.
  - apply String.eqb_eq in H. now subst.
  - injection H as ->. apply String.eqb_refl.
Qed.

Lemma ids_eqb_eq xs ys : ids_eqb xs ys = true <-> xs = ys.
Proof.
  revert ys; induction xs as [|x xs IH]; intros [|y ys]; simpl; split; intros H;
    try discriminate; try reflexivity.
  - apply andb_true_iff in H as [H1 H2].
    apply opt_str_eqb_eq in H1. apply IH in H2. now subst.
  - injection H as -> ->. apply andb_true_iff. split.
    + now apply opt_str_eqb_eq.
    + now apply IH.
Qed.

Lemma ids_eqb_neq xs ys : ids_eqb xs ys = false <-> xs <> ys.
Proof.
  split.
  - intros H E. apply ids_eqb_eq in E. congruence.
  - intros H. destruct (ids_eqb xs ys) eqn:E; [|reflexivity].
    apply ids_eqb_eq in E. contradiction.
Qed.

(** A list that equals its rotation by one holds a single value. *)
Lemma rotate1_fixed {A} (l : list A) :
  rotate1 l = l -> forall x y, In x l -> In y l -> x = y.
Proof.
  destruct l as [|a l]; [intros _ x y []|].
  unfold rotate1; simpl. intros H.
  assert (Hall : forall z, In z l -> z = a).
  { clear -H. revert H. induction l as [|b l IH]; intros H z Hz; [destruct Hz|].
    simpl in H. injection H as Hb Hl. subst b.
    destruct Hz as [<-|Hz]; [reflexivity|]. now apply IH. }
  intros x y [<-|Hx] [<-|Hy]; auto.
  - symmetry; auto.
  - rewrite (Hall _ Hx), (Hall _ Hy); reflexivity.
Qed.

Lemma rotate1_map {A B} (f : A -> B) (l : list A) :
  map f (rotate1 l) = rotate1 (map f l).
Proof. unfold rotate1. now rewrite map_app, skipn_map, firstn_map. Qed.

Lemma rotate1_perm {A} (l : list A) : Permutation (rotate1 l) l.
Proof.
  unfold rotate1. rewrite Permutation_app_comm. now rewrite firstn_skipn.
Qed.

Lemma last_cons_default {A} (x d : A) (ls : list A) :
  last (x :: ls) d = last ls x.
Proof.
  revert x d; induction ls as [|y ls IH]; intros x d; [reflexivity|].
  change (last (x :: y :: ls) d) with (last (y :: ls) d).
  now rewrite !IH.
Qed.

Section RoomOrderFacts.
Context (RT : Runtime).

Lemma reshuffle_iia_perm n l learning rand :
  Permutation (fst (reshuffle_iia RT n l learning rand)) l.
Proof.
  revert l rand; induction n as [|n IH]; intros l rand; simpl; [reflexivity|].
  pose proof (shuffle_perm RT l rand) as P.
  destruct (shuffle RT l rand) as [l' rand']; simpl in P.
  destruct (negb _); simpl; [exact P|].
  now rewrite IH.
Qed.

Lemma reshuffle_iia_spec n l learning (rand : rng RT) :
  let res := fst (reshuffle_iia RT n l learning rand) in
  if all_reproduce n l learning rand
  then res = last (reshuffles n l rand) l
  else ids_eqb (room_ids res) learning = false.
Proof.
  unfold all_reproduce.
  revert l rand; induction n as [|n IH]; intros l rand; simpl; [reflexivity|].
  destruct (shuffle RT l rand) as [l' rand']; simpl.
  destruct (ids_eqb (room_ids l') learning) eqn:E; simpl; [|exact E].
  specialize (IH l' rand'). simpl in IH.
  destruct (forallb _ (reshuffles n l' rand')) eqn:F; [|exact IH].
  rewrite IH. symmetry. apply last_cons_default.
Qed.

Lemma all_reproduce_last n l learning (rand : rng RT) :
  all_reproduce (S n) l learning rand = true ->
  room_ids (last (reshuffles (S n) l rand) l) = learning.
Proof.
  unfold all_reproduce. intros H.
  apply ids_eqb_eq.
  rewrite forallb_forall in H. apply H.
  simpl. destruct (shuffle RT l rand) as [l' rand'].
  rewrite last_cons_default.
  generalize (reshuffles n l' rand'). intros ls.
  revert l'. induction ls as [|x ls IH]; intros l'; [now left|].
  right. rewrite last_cons_default. apply IH.
Qed.

Lemma filter_truthy_all (ids : list (option string)) :
  Forall (fun i => truthy i = true) ids -> filter truthy ids = ids.
Proof. apply filter_all. Qed.

Lemma room_ids_truthy_all rs :
  Forall (fun r => truthy (rm_id r) = true) rs -> room_ids_truthy rs = room_ids rs.
Proof.
  intros H. unfold room_ids_truthy, room_ids. apply filter_truthy_all.
  now apply Forall_map.
Qed.

(** The two orders [room_orders] computes, spelled out. *)
Lemma room_orders_unfold rms rand :
  let learning := room_ids_truthy (fst (shuffle RT rms rand)) in
  let rand1 := snd (shuffle RT rms rand) in
  let rooms_iia := fst (reshuffle_iia RT 5 rms learning rand1) in
  fst (room_orders RT rms rand) =
    (learning,
     room_ids_truthy
       (if ids_eqb (room_ids rooms_iia) learning
           && negb (match rooms_iia with [] => true | _ => false end)
        then rotate1 rooms_iia else rooms_iia)).
Proof.
  unfold room_orders. cbv zeta.
  destruct (shuffle RT rms rand) as [l rand1]; cbn [fst snd].
  destruct (reshuffle_iia RT 5 rms (room_ids_truthy l) rand1) as [ri rand2];
    reflexivity.
Qed.

(** When every room has a usable id and two rooms differ in their id, the
    two orders differ. *)
Lemma room_orders_differ rms rand :
  Forall (fun r => truthy (rm_id r) = true) rms ->
  (exists r1 r2, In r1 rms /\ In r2 rms /\ rm_id r1 <> rm_id r2) ->
  snd (fst (room_orders RT rms rand)) <> fst (fst (room_orders RT rms rand)).
Proof.
  intros Htruthy (r1 & r2 & H1 & H2 & Hne).
  rewrite room_orders_unfold. cbn [fst snd].
  set (learning := room_ids_truthy (fst (shuffle RT rms rand))).
  set (rand1 := snd (shuffle RT rms rand)).
  set (ri := fst (reshuffle_iia RT 5 rms learning rand1)).
  assert (Pri : Permutation ri rms) by apply reshuffle_iia_perm.
  assert (Tri : Forall (fun r => truthy (rm_id r) = true) ri).
  { eapply Permutation_Forall; [symmetry; exact Pri | exact Htruthy]. }
  destruct (ids_eqb (room_ids ri) learning) eqn:E; simpl.
  - apply ids_eqb_eq in E.
    assert (Hri : ri <> []).
    { intros Hnil. rewrite Hnil in Pri. apply Permutation_nil in Pri.
      subst rms. destruct H1. }
    destruct ri as [|r ri'] eqn:Eri; [contradiction|]. simpl negb. cbv iota.
    rewrite <- Eri in *.
    rewrite room_ids_truthy_all.
    2:{ eapply Permutation_Forall; [symmetry; apply rotate1_perm | exact Tri]. }
    unfold room_ids at 1. rewrite rotate1_map. fold (room_ids ri).
    rewrite E. intros Hrot.
    apply Hne. apply (rotate1_fixed learning Hrot).
    + rewrite <- E. unfold room_ids. apply in_map.
      eapply Permutation_in; [symmetry; exact Pri | exact H1].
    + rewrite <- E. unfold room_ids. apply in_map.
      eapply Permutation_in; [symmetry; exact Pri | exact H2].
  - rewrite room_ids_truthy_all by exact Tri.
    now apply ids_eqb_neq.
Qed.

(** When the five reshuffles all reproduce the learning order, the
    secondary order is the learning order rotated by one position. *)
Lemma room_orders_fallback rms rand :
  let learning := fst (fst (room_orders RT rms rand)) in
  all_reproduce 5 rms learning (snd (shuffle RT rms rand)) = true ->
  snd (fst (room_orders RT rms rand)) = rotate1 learning.
Proof.
  intros learning. subst learning.
  rewrite room_orders_unfold. cbn [fst snd].
  set (learning := room_ids_truthy (fst (shuffle RT rms rand))).
  set (rand1 := snd (shuffle RT rms rand)).
  intros Hall.
  pose proof (reshuffle_iia_spec 5 rms learning rand1) as S.
  rewrite Hall in S. cbv zeta in S.
  pose proof (all_reproduce_last 4 rms learning rand1 Hall) as L.
  rewrite <- S in L.
  set (ri := fst (reshuffle_iia RT 5 rms learning rand1)) in *.
  assert (E : ids_eqb (room_ids ri) learning = true) by now apply ids_eqb_eq.
  rewrite E.
  assert (T : Forall (fun i => truthy i = true) (room_ids ri)).
  { rewrite L. apply (Forall_filter_true truthy). }
  destruct ri as [|r ri'] eqn:Eri.
  - simpl. rewrite <- L. reflexivity.
  - simpl negb. cbv iota. simpl andb. cbv iota. rewrite <- Eri in *.
    unfold room_ids_truthy. rewrite rotate1_map.
    fold (room_ids ri). rewrite filter_truthy_all.
    + now rewrite L.
    + eapply Permutation_Forall; [symmetry; apply rotate1_perm | exact T].
Qed.

End RoomOrderFacts.

(** ** The queue builder *)

Section BuildFacts.
Context (RT : Runtime).

Lemma get_rng_fixed (st : app RT) : _get_rng RANDOM_MODE st = Random RT RANDOM_SEED.
Proof. reflexivity. Qed.

(** The queue does not depend on the room orders a previous build left. *)
Lemma build_from_tasks data mode l1 i1 l2 i2 rand :
  b_tasks (build_from RT data mode l1 i1 rand)
  = b_tasks (build_from RT data mode l2 i2 rand).
Proof.
  unfold build_from. destruct (mode =? "rappel_immediat").
  - destruct (_pick_balanced_trials RT _ rand 5) as [b r].
    destruct (shuffle RT b r); reflexivity.
  - reflexivity.
Qed.

(** In the full battery the two orders stored are those of [room_orders]. *)
Lemma build_tasks_orders (st : app RT) random_mode :
  (task_mode st =? "rappel_immediat") = false ->
  let st' := snd (_build_tasks random_mode st) in
  let o := fst (room_orders RT (rooms (data st)) (_get_rng random_mode st)) in
  learning_room_order st' = fst o /\ iia_room_order st' = snd o.
Proof.
  intros Hmode. unfold _build_tasks, build_from. rewrite Hmode. cbv zeta.
  destruct (room_orders RT (rooms (data st)) (_get_rng random_mode st))
    as [[learning iia] r0].
  destruct (shuffle RT (familiar_objects (data st) ++ new_objects (data st)) r0)
    as [s1 r1].
  destruct (shuffle RT (rooms (data st)) r1) as [s3 r2].
  destruct (_pick_balanced_trials RT (step5_trials (data st)) r2 5) as [s5 r3].
  destruct (shuffle RT s5 r3) as [s5' r4].
  destruct (_pick_balanced_trials RT (rappel_immediat_trials (data st)) r4 5)
    as [ri r5].
  destruct (shuffle RT ri r5) as [ri' r6].
  split; reflexivity.
Qed.

(** C2. In the fixed-seed mode, two builds over the same catalog in the same
    task mode return the same queue (same tasks, same fields, same order),
    whatever else the two application states hold (subject, session id,
    experiment name, the orders of an earlier session). *)
Theorem build_tasks_deterministic (st1 st2 : app RT) :
  data st1 = data st2 ->
  task_mode st1 = task_mode st2 ->
  fst (_build_tasks RANDOM_MODE st1) = fst (_build_tasks RANDOM_MODE st2).
Proof.
  intros Hd Hm. unfold _build_tasks. cbn [fst].
  rewrite !get_rng_fixed, Hd, Hm. apply build_from_tasks.
Qed.

(** C4, as the code has it. In the full battery, for every seed: when every
    room has a non-empty id and two rooms of the catalog differ in their id,
    the secondary (IIA) order differs from the learning order as a sequence
    of room ids; and when the five reshuffles all reproduce the learning
    order, the secondary order is the learning order rotated by one
    position. *)
Theorem build_tasks_room_orders (st : app RT) (random_mode : string) :
  (task_mode st =? "rappel_immediat") = false ->
  let st' := snd (_build_tasks random_mode st) in
  let rms := rooms (data st) in
  let rand := _get_rng random_mode st in
  (Forall (fun r => truthy (rm_id r) = true) rms ->
   (exists r1 r2, In r1 rms /\ In r2 rms /\ rm_id r1 <> rm_id r2) ->
   iia_room_order st' <> learning_room_order st')
  /\
  (all_reproduce 5 rms (learning_room_order st') (snd (shuffle RT rms rand)) = true ->
   iia_room_order st' = rotate1 (learning_room_order st')).
Proof.
  intros Hmode st' rms rand.
  destruct (build_tasks_orders st random_mode Hmode) as [HL HI].
  fold st' in HL, HI. rewrite HL, HI. split.
  - intros Ht Hd. now apply room_orders_differ.
  - intros Hall. now apply room_orders_fallback.
Qed.

End BuildFacts.

Lemma build_tasks_deterministic_witness :
  let st1 := init_app Demo.RT1 1%N in
  let st2 :=
    set_session_id "6f1c" (set_subject_id "S42"
      (set_learning_room_order [Some "room2"] (init_app Demo.RT1 99%N))) in
  fst (_build_tasks RANDOM_MODE (set_data (Demo.demo_catalog 3 1) st1))
  = fst (_build_tasks RANDOM_MODE (set_data (Demo.demo_catalog 3 1) st2)).
Proof.
  apply (build_tasks_deterministic Demo.RT1); reflexivity.
Defined.

Lemma build_tasks_room_orders_witness :
  (let st := set_data (Demo.demo_catalog 3 1) (init_app Demo.RT1 1%N) in
   let st' := snd (_build_tasks RANDOM_MODE st) in
   iia_room_order st' <> learning_room_order st')
  /\
  (let st := set_data (Demo.demo_catalog 3 1) (init_app Demo.STILL tt) in
   let st' := snd (_build_tasks RANDOM_MODE st) in
   iia_room_order st' = rotate1 (learning_room_order st')).
Proof.
  split.
  - apply (build_tasks_room_orders Demo.RT1
             (set_data (Demo.demo_catalog 3 1) (init_app Demo.RT1 1%N)) RANDOM_MODE).
    + reflexivity.
    + repeat constructor.
    + exists (Demo.room_n 1), (Demo.room_n 2).
      split; [left; reflexivity|]. split; [right; left; reflexivity|].
      discriminate.
  - apply (build_tasks_room_orders Demo.STILL
             (set_data (Demo.demo_catalog 3 1) (init_app Demo.STILL tt)) RANDOM_MODE).
    + reflexivity.
    + reflexivity.
Defined.

(** With a single room in the catalog the two orders coincide. *)
Lemma single_room_orders_coincide :
  let st := set_data (Demo.demo_catalog 1 1) (init_app Demo.RT1 1%N) in
  let st' := snd (_build_tasks RANDOM_MODE st) in
  (task_mode st =? "rappel_immediat") = false
  /\ learning_room_order st' = [Some "room1"]
  /\ iia_room_order st' = learning_room_order st'.
Proof. vm_compute. repeat split. Qed.

(** ** The response evaluator *)

Lemma is_sentinel_spec r :
  is_sentinel r = true <-> r = JE_NE_SAIS_PAS \/ r = NE_REPOND_PAS.
Proof.
  unfold is_sentinel. rewrite orb_true_iff, !String.eqb_eq. reflexivity.
Qed.

(** A room-locate task about a novel object is scored false, not null. *)
Lemma unfamiliar_room_locate_scored_false :
  let t := step2_where_task (Demo.new_n 1) [Demo.room_n 1] in
  kind t = "step2_where"
  /\ is_familiar (Demo.new_n 1) = false
  /\ _evaluate_correctness t (Some "room1") false = Some false
  /\ _evaluate_correctness t (Some "room1") false <> None.
Proof. repeat split. discriminate. Qed.

(** C5, as the code has it. For a room-locate task the evaluation is never
    null; it is true exactly when the object is familiar and the response is
    a room id (not a sentinel, not missing) equal to the object's true room
    id; and when the object is not familiar it is false whatever the
    response. *)
Theorem evaluate_room_locate (t : task) (o : obj) (grid : list room)
    (response : option string) (timeout : bool) :
  body t = Step2Where o grid ->
  (_evaluate_correctness t response timeout = Some true
   <-> is_familiar o = true
       /\ exists r, response = Some r /\ is_sentinel r = false /\ room_id o = Some r)
  /\ (is_familiar o = false -> _evaluate_correctness t response timeout = Some false)
  /\ _evaluate_correctness t response timeout <> None.
Proof.
  intros Hb. unfold _evaluate_correctness, no_correct_answer. rewrite Hb.
  destruct response as [r|].
  - destruct (is_sentinel r) eqn:Hs.
    + split; [split|split].
      * discriminate.
      * intros (_ & r' & E & Hs' & _). injection E as <-. congruence.
      * reflexivity.
      * discriminate.
    + destruct (is_familiar o) eqn:Hf; cbn [negb].
      * split; [split|split].
        -- intros H. injection H as H'.
           change (opt_str_eqb (Some r) (room_id o) = true) in H'.
           apply opt_str_eqb_eq in H'.
           split; [reflexivity|]. exists r. auto.
        -- intros (_ & r' & E & _ & Hr). injection E as <-.
           f_equal. now apply opt_str_eqb_eq.
        -- discriminate.
        -- discriminate.
      * split; [split|split].
        -- discriminate.
        -- intros (H & _). discriminate.
        -- reflexivity.
        -- discriminate.
  - split; [split|split].
    + discriminate.
    + intros (_ & r & E & _). discriminate.
    + reflexivity.
    + discriminate.
Qed.

Lemma evaluate_room_locate_witness :
  let t := step2_where_task (Demo.familiar_n 3) [Demo.room_n 3] in
  (_evaluate_correctness t (Some "room3") false = Some true
   <-> is_familiar (Demo.familiar_n 3) = true
       /\ exists r, Some "room3" = Some r /\ is_sentinel r = false
                    /\ room_id (Demo.familiar_n 3) = Some r)
  /\ _evaluate_correctness t (Some "room3") false = Some true.
Proof.
  split.
  - apply (evaluate_room_locate
             (step2_where_task (Demo.familiar_n 3) [Demo.room_n 3])
             (Demo.familiar_n 3) [Demo.room_n 3] (Some "room3") false).
    reflexivity.
  - reflexivity.
Defined.

(** A room-locate task about a novel object has no correct answer: the
    annotation files any response to it under "no_correct_answer".  Yet both
    sentinels are scored false on it, not null. *)
Lemma novel_room_locate_sentinel_scored_false :
  let t := step2_where_task (Demo.new_n 1) [Demo.room_n 1] in
  kind t = "step2_where"
  /\ is_familiar (Demo.new_n 1) = false
  /\ dget "response_category" (_annotate_record_metrics Demo.RT1 t (Some "room1") [])
     = Some (VStr "no_correct_answer")
  /\ _evaluate_correctness t (Some JE_NE_SAIS_PAS) false = Some false
  /\ _evaluate_correctness t (Some NE_REPOND_PAS) true = Some false
  /\ _evaluate_correctness t (Some JE_NE_SAIS_PAS) false <> None
  /\ _evaluate_correctness t (Some NE_REPOND_PAS) true <> None.
Proof. repeat split; discriminate. Qed.

(** C6, as the code has it. For the "don't know" and the no-response
    sentinels the evaluation is false, never null, for every task but one
    kind: the spatial-position task of an object that is not familiar, where
    it is null. The room-locate task of an object that is not familiar is no
    exception: the sentinels are scored false on it. *)
Theorem evaluate_sentinel (t : task) (r : string) (timeout : bool) :
  r = JE_NE_SAIS_PAS \/ r = NE_REPOND_PAS ->
  _evaluate_correctness t (Some r) timeout
  = match body t with
    | Step2Spatial o _ => if is_familiar o then Some false else None
    | _ => Some false
    end.
Proof.
  intros H. apply is_sentinel_spec in H.
  unfold _evaluate_correctness, no_correct_answer. rewrite H.
  destruct (body t) as [o|o grid|o cs|rm|rm n|sc e|sc e]; try reflexivity.
  now destruct (is_familiar o).
Qed.

Lemma evaluate_sentinel_witness :
  _evaluate_correctness
    (mkTask (Some "step3_room5") "III" (Step3Daynight (Demo.room_n 5)) STEP3_DURATION_MS)
    (Some NE_REPOND_PAS) true = Some false
  /\ _evaluate_correctness (step2_spatial_task (Demo.new_n 2) [])
       (Some JE_NE_SAIS_PAS) false = None
  /\ _evaluate_correctness (step2_where_task (Demo.new_n 2) [Demo.room_n 2])
       (Some NE_REPOND_PAS) true = Some false.
Proof.
  split; [|split].
  - apply (evaluate_sentinel
             (mkTask (Some "step3_room5") "III" (Step3Daynight (Demo.room_n 5))
                     STEP3_DURATION_MS) NE_REPOND_PAS true).
    right; reflexivity.
  - apply (evaluate_sentinel (step2_spatial_task (Demo.new_n 2) [])
             JE_NE_SAIS_PAS false).
    left; reflexivity.
  - apply (evaluate_sentinel (step2_where_task (Demo.new_n 2) [Demo.room_n 2])
             NE_REPOND_PAS true).
    right; reflexivity.
Defined.

(** ** Telemetry offsets *)






Section TelemetryFacts.
Context {RT : Runtime}.


End TelemetryFacts.

(** ** Response records *)

Lemma dget_dset_ne k k' v d :
  (k =? k') = false -> dget k' (dset k v d) = dget k' d.
Proof.
  intros Hne. induction d as [|[k0 v0] d IH]; simpl.
  - now rewrite Hne.
  - destruct (k0 =? k) eqn:E; simpl.
    + apply String.eqb_eq in E. subst k0. now rewrite Hne.
    + destruct (k0 =? k'); [reflexivity | exact IH].
Qed.

Lemma dget_dset_eq k v d : dget k (dset k v d) = Some v.
Proof.
  induction d as [|[k0 v0] d IH]; simpl.
  - now rewrite String.eqb_refl.
  - destruct (k0 =? k) eqn:E; simpl.
    + now rewrite String.eqb_refl.
    + now rewrite E.
Qed.

Ltac dget_through :=
  repeat (rewrite dget_dset_ne by reflexivity); try reflexivity.

Ltac each_base_key H :=
  simpl in H;
  repeat match type of H with
    | _ \/ _ => destruct H as [H|H]
    end; [subst .. | destruct H].

Lemma copy_task_keys_dget k t rec :
  In k BASE_KEYS -> dget k (copy_task_keys t rec) = dget k rec.
Proof.
  intros H. unfold copy_task_keys.
  each_base_key H; destruct (body t); dget_through.
Qed.

Section RecordFacts.
Context {RT : Runtime}.

Lemma annotate_dget k t response rec :
  In k BASE_KEYS -> dget k (_annotate_record_metrics RT t response rec) = dget k rec.
Proof.
  intros H. unfold _annotate_record_metrics.
  each_base_key H;
    (destruct response as [r|]; [|dget_through];
     destruct (r =? NE_REPOND_PAS); [dget_through|];
     destruct (r =? JE_NE_SAIS_PAS); [dget_through|];
     destruct (body t) as [o|o g|o cs|rm|rm [e|]|img e|img e];
     repeat match goal with
       | |- context [if ?b then _ else _] => destruct b
       | |- context [match int_of_str RT ?x with _ => _ end] =>
           destruct (int_of_str RT x)
       end;
     dget_through).
Qed.

(** What a record holds under the keys [_finalize_current_task] itself
    writes. *)
Lemma record_base_key k timeout t elapsed ended_at (st : app RT) :
  In k BASE_KEYS ->
  dget k (response_record timeout t elapsed ended_at st)
  = dget k
      (match _evaluate_correctness t (response_value_of timeout st) timeout with
       | Some c => [("stage", VStr (stage t)); ("duration_ms", VInt (task_duration_ms st));
                    ("actual_elapsed_ms", VInt (py_int (py_max 0 elapsed)));
                    ("is_correct", VBool c)]
       | None => [("stage", VStr (stage t)); ("duration_ms", VInt (task_duration_ms st));
                  ("actual_elapsed_ms", VInt (py_int (py_max 0 elapsed)))]
       end).
Proof.
  intros H. unfold response_record.
  rewrite annotate_dget, copy_task_keys_dget by exact H.
  destruct (_evaluate_correctness t (response_value_of timeout st) timeout);
    each_base_key H; reflexivity.
Qed.

Lemma record_stage timeout t elapsed ended_at (st : app RT) :
  dget "stage" (response_record timeout t elapsed ended_at st) = Some (VStr (stage t)).
Proof.
  rewrite record_base_key by (simpl; auto).
  now destruct (_evaluate_correctness t _ timeout).
Qed.

Lemma record_is_correct timeout t elapsed ended_at (st : app RT) :
  dget "is_correct" (response_record timeout t elapsed ended_at st)
  = option_map VBool (_evaluate_correctness t (response_value_of timeout st) timeout).
Proof.
  rewrite record_base_key by (simpl; auto).
  now destruct (_evaluate_correctness t _ timeout).
Qed.

Lemma record_duration_ms timeout t elapsed ended_at (st : app RT) :
  dget "duration_ms" (response_record timeout t elapsed ended_at st)
  = Some (VInt (task_duration_ms st)).
Proof.
  rewrite record_base_key by (simpl; auto).
  now destruct (_evaluate_correctness t _ timeout).
Qed.

Lemma record_actual_elapsed_ms timeout t elapsed ended_at (st : app RT) :
  dget "actual_elapsed_ms" (response_record timeout t elapsed ended_at st)
  = Some (VInt (py_int (py_max 0 elapsed))).
Proof.
  rewrite record_base_key by (simpl; auto).
  now destruct (_evaluate_correctness t _ timeout).
Qed.

(** No record holds the clamped elapsed time, under either name. *)
Lemma record_no_response_duration timeout t elapsed ended_at (st : app RT) :
  has_key "response_duration_ms" (response_record timeout t elapsed ended_at st) = false
  /\ has_key "response_duration" (response_record timeout t elapsed ended_at st) = false.
Proof.
  unfold has_key. rewrite !record_base_key by (simpl; auto 10).
  now destruct (_evaluate_correctness t _ timeout).
Qed.

End RecordFacts.

(** ** One finalization *)

(** Reduce field reads of updated states. *)
Ltac app_simpl :=
  cbn [data experiment_name session_id subject_id task_mode session_started_at
       session_ended_at session_start_perf running task_queue current_task_index
       current_task task_started_at_iso task_start_perf task_duration_ms task_active
       intermission_active intermission_start_perf selected_choice_id learning_room_order
       iia_room_order records stage_scores clock global_rng ws_messages sessions_dir
       set_data set_experiment_name set_session_id set_subject_id set_task_mode
       set_session_started_at set_session_ended_at set_session_start_perf set_running
       set_task_queue set_current_task_index set_current_task set_task_started_at_iso
       set_task_start_perf set_task_duration_ms set_task_active set_intermission_active
       set_intermission_start_perf set_selected_choice_id set_learning_room_order
       set_iia_room_order set_records set_stage_scores set_clock set_global_rng
       set_ws_messages set_sessions_dir read_perf read_iso fst snd].
Ltac app_simpl_in H :=
  cbn [data experiment_name session_id subject_id task_mode session_started_at
       session_ended_at session_start_perf running task_queue current_task_index
       current_task task_started_at_iso task_start_perf task_duration_ms task_active
       intermission_active intermission_start_perf selected_choice_id learning_room_order
       iia_room_order records stage_scores clock global_rng ws_messages sessions_dir
       set_data set_experiment_name set_session_id set_subject_id set_task_mode
       set_session_started_at set_session_ended_at set_session_start_perf set_running
       set_task_queue set_current_task_index set_current_task set_task_started_at_iso
       set_task_start_perf set_task_duration_ms set_task_active set_intermission_active
       set_intermission_start_perf set_selected_choice_id set_learning_room_order
       set_iia_room_order set_records set_stage_scores set_clock set_global_rng
       set_ws_messages set_sessions_dir read_perf read_iso fst snd] in H.

Section FinalizeFacts.
Context {RT : Runtime}.

Lemma finalizes_none timeout force (st : app RT) :
  finalizes force st = None -> _finalize_current_task timeout force st = st.
Proof.
  unfold finalizes, _finalize_current_task.
  destruct (negb (task_active st) && negb force); [reflexivity|].
  destruct (current_task st); [|reflexivity].
  destruct (task_start_perf st); [discriminate | reflexivity].
Qed.

Lemma finalizes_some timeout force (st : app RT) t :
  finalizes force st = Some t ->
  let st' := _finalize_current_task timeout force st in
  records st' = records st ++ [record_of timeout t st]
  /\ stage_scores st' =
       match _evaluate_correctness t (response_value_of timeout st) timeout with
       | Some c => bump (stage t) c (stage_scores st)
       | None => stage_scores st
       end
  /\ task_queue st' = queue_after timeout t st
  /\ task_active st' = false
  /\ task_start_perf st' = None
  /\ intermission_active st' = true
  /\ current_task st' = Some t
  /\ current_task_index st' = current_task_index st
  /\ running st' = running st
  /\ sessions_dir st' = sessions_dir st
  /\ ws_messages st' = ws_messages st
  /\ data st' = data st.
Proof.
  unfold finalizes, _finalize_current_task, record_of, queue_after, elapsed_ms_of,
    shuffled_choices, ordered_rooms.
  destruct (negb (task_active st) && negb force); [discriminate|].
  destruct (current_task st) as [t0|] eqn:Ec; [|discriminate].
  destruct (task_start_perf st) as [start|]; [|discriminate].
  intros H; injection H as ->. cbv zeta.
  unfold _start_intermission, inject_followups, response_value_of.
  app_simpl.
  set (rv := match selected_choice_id st with
             | Some c => Some c
             | None => if timeout then Some NE_REPOND_PAS else None
             end).
  assert (R : forall n m e a,
             response_record timeout t e a (set_clock n (set_clock m st))
             = response_record timeout t e a st) by reflexivity.
  destruct (_evaluate_correctness t rv timeout) eqn:E;
    destruct (body t) as [o|o g|o cs|rm|rm e|img e|img e];
    try destruct (opt_str_eqb rv (Some "yes")) eqn:Y;
    app_simpl;
    try (destruct (shuffle RT _ (global_rng st)) as [cs' g'] eqn:S);
    app_simpl; rewrite ?R;
    repeat split; try reflexivity; exact Ec.
Qed.

End FinalizeFacts.

(** ** Invariants of a run *)

Lemma count_app {A} (f : A -> bool) l1 l2 : count f (l1 ++ l2) = (count f l1 + count f l2)%nat.
Proof. unfold count. now rewrite filter_app, length_app. Qed.

Lemma score_of_bump k stage c sc :
  score_of k (bump stage c sc) =
    if k =? stage
    then option_map (fun s => mkScore (S (total s)) (if c then S (correct s) else correct s))
                    (score_of k sc)
    else score_of k sc.
Proof.
  induction sc as [|[k0 s0] sc IH]; simpl.
  - now destruct (k =? stage).
  - destruct (k0 =? stage) eqn:E0; simpl.
    + apply String.eqb_eq in E0. subst k0.
      rewrite (String.eqb_sym stage k). now destruct (k =? stage).
    + destruct (k0 =? k) eqn:E1.
      * apply String.eqb_eq in E1. subst k0. now rewrite E0.
      * exact IH.
Qed.

Lemma keys_bump stage c sc : map fst (bump stage c sc) = map fst sc.
Proof.
  induction sc as [|[k0 s0] sc IH]; simpl; [reflexivity|].
  destruct (k0 =? stage); simpl; [reflexivity | now rewrite IH].
Qed.

Lemma keys_zero_scores ks : map fst (zero_scores ks) = ks.
Proof. unfold zero_scores. rewrite map_map. simpl. apply map_id. Qed.

Lemma score_of_zero_scores k ks s :
  score_of k (zero_scores ks) = Some s -> s = mkScore 0 0.
Proof.
  induction ks as [|k0 ks IH]; simpl; [discriminate|].
  destruct (k0 =? k); [now intros [= <-] | exact IH].
Qed.

Lemma score_of_key k sc : In k (map fst sc) -> exists s, score_of k sc = Some s.
Proof.
  induction sc as [|[k0 s0] sc IH]; simpl; [intros []|].
  destruct (k0 =? k) eqn:E; [eauto|].
  intros [->|H]; [rewrite String.eqb_refl in E; discriminate | auto].
Qed.

Section Invariants.
Context {RT : Runtime}.

Lemma wf_init g0 : wf (init_app RT g0).
Proof.
  unfold wf; simpl. repeat split; try reflexivity; try discriminate; lia.
Qed.

Lemma tally_init g0 : tally (init_app RT g0).
Proof.
  unfold tally; simpl. split; [reflexivity|]. intros k s H.
  repeat match type of H with
    | (if ?b then _ else _) = _ => destruct b; [injection H as <-; now split|]
    end.
  discriminate.
Qed.

Lemma scored_record_of k timeout t (st : app RT) :
  scored k (record_of timeout t st) =
    match _evaluate_correctness t (response_value_of timeout st) timeout with
    | Some _ => stage t =? k
    | None => false
    end.
Proof.
  unfold scored, record_of. rewrite record_stage, record_is_correct.
  now destruct (_evaluate_correctness t _ timeout).
Qed.

Lemma scored_correct_record_of k timeout t (st : app RT) :
  scored_correct k (record_of timeout t st) =
    match _evaluate_correctness t (response_value_of timeout st) timeout with
    | Some true => stage t =? k
    | _ => false
    end.
Proof.
  unfold scored_correct, record_of. rewrite record_stage, record_is_correct.
  now destruct (_evaluate_correctness t _ timeout) as [[|]|].
Qed.

Lemma wf_active_finalizes force (st : app RT) :
  wf st -> task_active st = true ->
  exists t, finalizes force st = Some t
            /\ nth_error (task_queue st) (Z.to_nat (current_task_index st)) = Some t
            /\ (0 <= current_task_index st)%Z.
Proof.
  intros (_ & _ & _ & H & _) Ha. destruct (H Ha) as (t & start & Ht & Hs & Hi & Hn).
  exists t. unfold finalizes. rewrite Ha, Ht, Hs. simpl. auto.
Qed.

Lemma wf_inactive_finalizes force (st : app RT) :
  wf st -> task_active st = false -> finalizes force st = None.
Proof.
  intros (_ & _ & H & _) Ha. unfold finalizes. rewrite Ha, (H Ha).
  destruct force; simpl; [|reflexivity]. now destruct (current_task st).
Qed.

Lemma wf_finalizes_active force (st : app RT) t :
  wf st -> finalizes force st = Some t -> task_active st = true.
Proof.
  intros W H. destruct (task_active st) eqn:Ha; [reflexivity|].
  rewrite (wf_inactive_finalizes force st W Ha) in H. discriminate.
Qed.

Lemma finalize_inactive timeout force (st : app RT) :
  wf st -> task_active (_finalize_current_task timeout force st) = false.
Proof.
  intros W. destruct (finalizes force st) as [t|] eqn:F.
  - now destruct (finalizes_some timeout force st t F) as (_ & _ & _ & H & _).
  - rewrite (finalizes_none timeout force st F).
    destruct (task_active st) eqn:Ha; [|reflexivity].
    destruct (wf_active_finalizes force st W Ha) as (t & Ht & _). congruence.
Qed.

Lemma wf_finalize timeout force (st : app RT) :
  wf st -> wf (_finalize_current_task timeout force st).
Proof.
  intros W. destruct (finalizes force st) as [t|] eqn:F.
  - destruct (finalizes_some timeout force st t F)
      as (_ & _ & _ & Ha & Hs & _ & _ & Hi & Hr & _).
    destruct W as (_ & _ & _ & _ & W5).
    unfold wf. rewrite Ha, Hs, Hi. repeat split; auto; discriminate.
  - now rewrite (finalizes_none timeout force st F).
Qed.

Lemma tally_finalize timeout force (st : app RT) :
  tally st -> tally (_finalize_current_task timeout force st).
Proof.
  intros T. destruct (finalizes force st) as [t|] eqn:F.
  2:{ now rewrite (finalizes_none timeout force st F). }
  destruct (finalizes_some timeout force st t F) as (Hr & Hs & _).
  destruct T as [K T]. unfold tally. rewrite Hr, Hs. split.
  - destruct (_evaluate_correctness t _ timeout); [now rewrite keys_bump | exact K].
  - intros k s. rewrite !count_app. unfold count at 2 4. simpl.
    rewrite scored_record_of, scored_correct_record_of.
    destruct (_evaluate_correctness t (response_value_of timeout st) timeout) as [c|].
    + rewrite score_of_bump, (String.eqb_sym k (stage t)).
      destruct (stage t =? k).
      * destruct (score_of k (stage_scores st)) as [s0|] eqn:E; [|discriminate].
        intros [= <-]. destruct (T k s0 E) as [T1 T2]. simpl.
        destruct c; simpl; lia.
      * intros E. destruct (T k s E) as [T1 T2].
        destruct c; simpl; lia.
    + intros E. destruct (T k s E) as [T1 T2]. simpl; lia.
Qed.

Lemma inv_finalize timeout force (st : app RT) :
  inv st -> inv (_finalize_current_task timeout force st).
Proof. intros [W T]. split; [now apply wf_finalize | now apply tally_finalize]. Qed.

Lemma tally_ext (st st' : app RT) :
  records st' = records st -> stage_scores st' = stage_scores st ->
  tally st -> tally st'.
Proof. unfold tally. now intros -> ->. Qed.

Lemma wf_ext (st st' : app RT) :
  running st' = running st ->
  (intermission_active st' = true -> intermission_active st = true) ->
  task_active st' = task_active st -> task_start_perf st' = task_start_perf st ->
  current_task st' = current_task st ->
  current_task_index st' = current_task_index st ->
  task_queue st' = task_queue st ->
  wf st -> wf st'.
Proof.
  unfold wf. intros -> Hi -> -> -> -> -> (W1 & W2 & W3 & W4 & W5).
  repeat split; auto.
Qed.

(** An inactive state stays well-formed when only the cursor, the
    intermission and the fields outside the invariant change. *)
Lemma wf_inactive (st : app RT) :
  task_active st = false -> task_start_perf st = None ->
  (-1 <= current_task_index st)%Z -> wf st.
Proof.
  intros Ha Hs Hi. unfold wf. rewrite Ha.
  repeat split; auto; discriminate.
Qed.

Lemma save_session_fields vr (st : app RT) :
  let st' := _save_session vr st in
  running st' = running st /\ intermission_active st' = intermission_active st
  /\ task_active st' = task_active st /\ task_start_perf st' = task_start_perf st
  /\ current_task st' = current_task st
  /\ current_task_index st' = current_task_index st
  /\ task_queue st' = task_queue st /\ records st' = records st
  /\ stage_scores st' = stage_scores st.
Proof.
  unfold _save_session.
  destruct (session_start_perf st) as [q|]; [destruct (Qeq_bool q 0)|];
    app_simpl; destruct (truthy (session_started_at st));
    app_simpl; repeat split; reflexivity.
Qed.

Lemma inv_show_task t (st : app RT) :
  running st = true -> current_task st = Some t ->
  (0 <= current_task_index st)%Z ->
  nth_error (task_queue st) (Z.to_nat (current_task_index st)) = Some t ->
  tally st -> inv (_show_task t st).
Proof.
  intros Hr Hc Hi Hn T. split.
  - unfold wf, _show_task. app_simpl.
    split; [congruence|]. split; [discriminate|]. split; [discriminate|].
    split; [|lia]. intros _. exists t. eexists. repeat split; auto.
  - exact T.
Qed.

Lemma inv_on_stop (st : app RT) : inv st -> inv (on_stop st).
Proof.
  intros I. unfold on_stop.
  pose proof (inv_finalize true false st I) as [W1 T1].
  pose proof (finalize_inactive true false st (proj1 I)) as Ha.
  set (st1 := _finalize_current_task true false st) in *.
  destruct (running st1); cbn [negb]; [|now split].
  app_simpl.
  match goal with |- inv (_save_session ?v ?s) =>
    destruct (save_session_fields v s)
      as (_ & _ & Fa & Fs & _ & Fi & _ & Fr & Fsc)
  end.
  app_simpl_in Fa. app_simpl_in Fs. app_simpl_in Fi. app_simpl_in Fr.
  app_simpl_in Fsc.
  split.
  - apply wf_inactive; [now rewrite Fa | | ].
    + rewrite Fs. destruct W1 as (_ & _ & W & _). now apply W.
    + rewrite Fi. now destruct W1 as (_ & _ & _ & _ & W).
  - unfold tally. rewrite Fr, Fsc. exact T1.
Qed.

Lemma inv_go_to_next (st : app RT) :
  inv st -> task_active st = false -> inv (_go_to_next_task st).
Proof.
  intros [W T] Ha. unfold _go_to_next_task.
  destruct (running st) eqn:Hr; cbn [negb]; [|now split].
  app_simpl.
  assert (Hi : (-1 <= current_task_index st)%Z) by now destruct W as (_ & _ & _ & _ & W).
  assert (Hs : task_start_perf st = None) by (destruct W as (_ & _ & W & _); auto).
  destruct (Z.of_nat (List.length (task_queue st)) <=? current_task_index st + 1)%Z
    eqn:Hlen.
  - apply inv_on_stop. split; [|exact T].
    apply wf_inactive; app_simpl; auto; lia.
  - apply Z.leb_gt in Hlen. unfold py_index.
    replace (current_task_index st + 1 <? 0)%Z with false by (symmetry; apply Z.ltb_ge; lia).
    destruct (nth_error (task_queue st) (Z.to_nat (current_task_index st + 1)))
      as [t|] eqn:Hn.
    + apply inv_show_task; app_simpl; auto; lia.
    + apply nth_error_None in Hn. lia.
Qed.

Lemma inv_on_choice c (st : app RT) : inv st -> inv (_on_choice c st).
Proof.
  intros I. unfold _on_choice. destruct (task_active st); cbn [negb]; [|exact I].
  apply inv_finalize. exact I.
Qed.

Lemma inv_timer_tick (st : app RT) : inv st -> inv (_timer_tick st).
Proof.
  intros I. unfold _timer_tick.
  destruct (running st); cbn [negb]; [|exact I].
  destruct (intermission_active st) eqn:Hi.
  - destruct (intermission_start_perf st) as [start|].
    + app_simpl. destruct (Qle_bool _ _); [|exact I].
      apply inv_go_to_next.
      * destruct I as [W T]. split; [|exact T].
        apply (wf_ext st); try reflexivity; [discriminate | exact W].
      * app_simpl. destruct I as [(_ & W & _) _]. now apply W.
    + destruct (task_active st); [|exact I].
      destruct (task_start_perf st); [|exact I].
      app_simpl. destruct (Qle_bool _ _); [|exact I].
      apply inv_finalize. exact I.
  - destruct (task_active st); [|exact I].
    destruct (task_start_perf st); [|exact I].
    app_simpl. destruct (Qle_bool _ _); [|exact I].
    apply inv_finalize. exact I.
Qed.

Lemma inv_jump index (st : app RT) : inv st -> inv (_jump_to_question index st).
Proof.
  intros I. unfold _jump_to_question.
  destruct (negb (running st) || (index <? 0)%Z
            || (Z.of_nat (List.length (task_queue st)) <=? index)%Z) eqn:G;
    [exact I|].
  apply orb_false_iff in G as [G _]. apply orb_false_iff in G as [_ G].
  apply Z.ltb_ge in G.
  set (st1 := if task_active st then _finalize_current_task true true st else st).
  assert (I1 : inv st1).
  { unfold st1. destruct (task_active st); [now apply inv_finalize | exact I]. }
  assert (A1 : task_active st1 = false).
  { unfold st1. destruct (task_active st) eqn:Ha; [|exact Ha].
    apply finalize_inactive. apply I. }
  apply inv_go_to_next; [|exact A1].
  destruct I1 as [W1 T1]. split; [|exact T1].
  apply wf_inactive; app_simpl; auto; [|lia].
  destruct W1 as (_ & _ & W & _). auto.
Qed.

Lemma inv_ws_handler m (st : app RT) : inv st -> inv (ws_handler m st).
Proof. intros I. exact I. Qed.

Lemma inv_on_start subject selector loaded uuid (st : app RT) :
  inv st -> inv (on_start subject selector loaded uuid st).
Proof.
  intros I. unfold on_start.
  destruct (running st) eqn:Hr; [exact I|].
  destruct (subject =? ""); [exact I|].
  unfold _build_tasks. cbv zeta. app_simpl.
  destruct I as [W T].
  assert (Ha : task_active st = false) by (destruct W as (W & _); auto).
  assert (Hs : task_start_perf st = None) by (destruct W as (_ & _ & W & _); auto).
  assert (Hi : (-1 <= current_task_index st)%Z) by now destruct W as (_ & _ & _ & _ & W).
  match goal with |- context [b_tasks ?b] => set (bt := b) end.
  destruct (b_tasks bt) as [|t0 q] eqn:Hq.
  - split; [|exact T]. apply wf_inactive; app_simpl; auto.
  - app_simpl. apply inv_go_to_next; [|reflexivity].
    split.
    + apply wf_inactive; app_simpl; auto. lia.
    + unfold tally. app_simpl. destruct T as [K _].
      rewrite keys_zero_scores. split; [exact K|].
      intros k s H. apply score_of_zero_scores in H. subst s. now split.
Qed.

Lemma inv_step (st : app RT) e : inv st -> inv (step st e).
Proof.
  intros I. destruct e; simpl.
  - now apply inv_on_start.
  - now apply inv_on_stop.
  - now apply inv_timer_tick.
  - now apply inv_on_choice.
  - now apply inv_jump.
  - now apply inv_ws_handler.
Qed.

Lemma inv_run es (st : app RT) : inv st -> inv (run es st).
Proof.
  revert st; induction es as [|e es IH]; intros st I; [exact I|].
  simpl. apply IH. now apply inv_step.
Qed.

Lemma reachable_inv (st : app RT) : reachable st -> inv st.
Proof.
  intros (g0 & es & ->). apply inv_run. split; [apply wf_init | apply tally_init].
Qed.

End Invariants.

(** ** The session state machine *)

Lemma slice_insert_after {A} (q : list A) (i : nat) (t : A) (xs : list A) :
  nth_error q i = Some t ->
  slice_insert q (Z.of_nat i + 1) xs = firstn (S i) q ++ xs ++ skipn (S i) q.
Proof.
  intros H. unfold slice_insert, slice_pos.
  assert (Hlt : (i < List.length q)%nat) by (apply nth_error_Some; congruence).
  replace (Z.of_nat i + 1 <? 0)%Z with false by (symmetry; apply Z.ltb_ge; lia).
  replace (Nat.min (Z.to_nat (Z.of_nat i + 1)) (List.length q)) with (S i) by lia.
  reflexivity.
Qed.

Lemma iib_choice_ids o pos :
  map ch_id (iib_choices o pos)
  = if is_familiar o then ["good"; "bad"] else ["bad1"; "bad2"].
Proof. unfold iib_choices. now destruct (is_familiar o). Qed.

Section SessionFacts.
Context {RT : Runtime}.

(** C1. Every call of [_finalize_current_task] on a well-formed state (every
    state the handlers call it on) either finalizes nothing and leaves the
    state as it is, or finalizes the task [t] under the cursor [i]; then the
    queue is unchanged, except when [t] is a Stage-I task and the recorded
    response is "yes": in that case exactly two tasks are inserted right
    after position [i], first the room-locate task (stage IIA), then the
    spatial-position task (stage IIB), whose choices are a shuffle of
    good/bad for a familiar object and of bad1/bad2 for a novel one.  In
    every case the tasks already queued stay, in their order. *)
Theorem followups_spliced (st : app RT) (timeout force : bool) :
  wf st ->
  let st' := _finalize_current_task timeout force st in
  let q := task_queue st in
  (finalizes force st = None -> st' = st)
  /\ forall t, finalizes force st = Some t ->
     exists i,
       current_task_index st = Z.of_nat i /\ nth_error q i = Some t
       /\ match body t with
          | Step1 o =>
              if opt_str_eqb (response_value_of timeout st) (Some "yes") then
                exists cs,
                  task_queue st'
                  = firstn (S i) q
                    ++ [step2_where_task o (ordered_rooms st); step2_spatial_task o cs]
                    ++ skipn (S i) q
                  /\ stage (step2_where_task o (ordered_rooms st)) = "IIA"
                  /\ kind (step2_where_task o (ordered_rooms st)) = "step2_where"
                  /\ stage (step2_spatial_task o cs) = "IIB"
                  /\ kind (step2_spatial_task o cs) = "step2_spatial"
                  /\ Permutation cs
                       (iib_choices o (positions_of (obj_id o) (iib_positions (data st))))
                  /\ Permutation (map ch_id cs)
                       (if is_familiar o then ["good"; "bad"] else ["bad1"; "bad2"])
              else task_queue st' = q
          | _ => task_queue st' = q
          end.
Proof.
  intros W st' q. split; [apply finalizes_none|].
  intros t F.
  pose proof (wf_finalizes_active force st t W F) as Ha.
  destruct (wf_active_finalizes force st W Ha) as (t' & F' & Hn & Hi).
  assert (t' = t) by congruence. subst t'.
  exists (Z.to_nat (current_task_index st)).
  split; [lia|]. split; [exact Hn|].
  destruct (finalizes_some timeout force st t F) as (_ & _ & Hq & _).
  fold st' in Hq. rewrite Hq. unfold queue_after.
  destruct (body t) as [o|o g|o cs|rm|rm e|img e|img e]; try reflexivity.
  destruct (opt_str_eqb (response_value_of timeout st) (Some "yes")); [|reflexivity].
  exists (shuffled_choices o st).
  assert (P : Permutation (shuffled_choices o st)
                (iib_choices o (positions_of (obj_id o) (iib_positions (data st)))))
    by apply shuffle_perm.
  repeat split; try reflexivity.
  - replace (current_task_index st) with (Z.of_nat (Z.to_nat (current_task_index st)))
      at 1 by lia.
    now apply slice_insert_after with t.
  - exact P.
  - rewrite <- iib_choice_ids with (pos := positions_of (obj_id o) (iib_positions (data st))).
    now apply Permutation_map.
Qed.

(** C7. In every state a run reaches, each of the eight stages has a tally
    whose [total] is the number of records of that stage with a non-null
    correctness and whose [correct] is the number of those records whose
    correctness is true; so the total never exceeds that number of
    records. *)
Theorem stage_scores_match_records (st : app RT) (k : string) :
  reachable st -> In k STAGES ->
  exists s,
    score_of k (stage_scores st) = Some s
    /\ total s = count (scored k) (records st)
    /\ correct s = count (scored_correct k) (records st)
    /\ (total s <= count (scored k) (records st))%nat.
Proof.
  intros R Hk. destruct (reachable_inv st R) as [_ [K T]].
  destruct (score_of_key k (stage_scores st)) as [s Hs]; [now rewrite K|].
  exists s. destruct (T k s Hs) as [T1 T2]. repeat split; auto. lia.
Qed.

(** C8. While no task is active a choice is not processed and the
    non-forced finalization does nothing: the state, hence the records, the
    scores, the queue and the cursor, stays as it is.  In every state a run
    reaches this holds of the forced finalization as well, and every
    finalization leaves no task active: a second finalization, or a late
    choice, does nothing, so a task shown once is finalized at most once. *)
Theorem inactive_task_not_processed (st : app RT) :
  reachable st ->
  (task_active st = false ->
     (forall c, _on_choice c st = st)
     /\ (forall timeout, _finalize_current_task timeout false st = st)
     /\ (forall timeout, _finalize_current_task timeout true st = st))
  /\ (forall timeout force,
        let st' := _finalize_current_task timeout force st in
        task_active st' = false
        /\ (forall c, _on_choice c st' = st')
        /\ (forall timeout' force', _finalize_current_task timeout' force' st' = st')).
Proof.
  intros R. destruct (reachable_inv st R) as [W _]. split.
  - intros Ha. split; [|split].
    + intros c. unfold _on_choice. now rewrite Ha.
    + intros timeout. unfold _finalize_current_task. now rewrite Ha.
    + intros timeout. apply finalizes_none. now apply wf_inactive_finalizes.
  - intros timeout force st'.
    assert (W' : wf st') by now apply wf_finalize.
    assert (Ha : task_active st' = false) by now apply finalize_inactive.
    split; [exact Ha|]. split.
    + intros c. unfold _on_choice. now rewrite Ha.
    + intros timeout' force'. apply finalizes_none. now apply wf_inactive_finalizes.
Qed.

(** C9, what the code does. The record a finalization appends holds the
    nominal duration under "duration_ms" and the unclamped elapsed time under
    "actual_elapsed_ms"; the elapsed time clamped to the duration is computed
    ([response_duration_ms]) and dropped: the record has no key for it. *)
Theorem finalized_record_elapsed (st : app RT) (timeout force : bool) (t : task) :
  finalizes force st = Some t ->
  let r := record_of timeout t st in
  records (_finalize_current_task timeout force st) = records st ++ [r]
  /\ dget "duration_ms" r = Some (VInt (task_duration_ms st))
  /\ dget "actual_elapsed_ms" r = Some (VInt (py_int (py_max 0 (elapsed_ms_of st))))
  /\ has_key "response_duration_ms" r = false
  /\ has_key "response_duration" r = false.
Proof.
  intros F r.
  destruct (finalizes_some timeout force st t F) as (Hr & _).
  destruct (record_no_response_duration timeout t (elapsed_ms_of st)
              (now_iso RT (S (clock st))) st) as [N1 N2].
  repeat split; auto.
  - apply record_duration_ms.
  - apply record_actual_elapsed_ms.
Qed.

End SessionFacts.

(** ** The model run on a small session *)

Lemma demo_shown_reachable : reachable demo_shown.
Proof. exists 7%N, [demo_start]. reflexivity. Qed.

Lemma demo_timed_out_reachable : reachable demo_timed_out.
Proof. exists 7%N, (demo_start :: repeat EvTick 10). reflexivity. Qed.

Lemma wf_set_selected {RT : Runtime} c (st : app RT) :
  wf st -> wf (set_selected_choice_id c st).
Proof. intros W. exact W. Qed.

Lemma followups_spliced_witness :
  exists cs,
    task_queue (_finalize_current_task false true demo_yes)
    = firstn 1 (task_queue demo_yes)
      ++ [step2_where_task (Demo.new_n 1) (ordered_rooms demo_yes);
          step2_spatial_task (Demo.new_n 1) cs]
      ++ skipn 1 (task_queue demo_yes)
    /\ Permutation (map ch_id cs) ["bad1"; "bad2"].
Proof.
  assert (W : wf demo_yes).
  { apply wf_set_selected.
    exact (proj1 (reachable_inv demo_shown demo_shown_reachable)). }
  assert (F : finalizes true demo_yes = Some demo_task) by (vm_compute; reflexivity).
  assert (I : current_task_index demo_yes = 0%Z) by (vm_compute; reflexivity).
  assert (Y : response_value_of false demo_yes = Some "yes")
    by (vm_compute; reflexivity).
  revert W F I Y. generalize demo_yes. intros st W F I Y.
  destruct (followups_spliced st false true W) as [_ H].
  destruct (H demo_task F) as (i & Hi & _ & Hm).
  assert (E : i = 0%nat) by lia. subst i.
  cbn [body demo_task] in Hm. rewrite Y in Hm. cbn [opt_str_eqb] in Hm.
  change ("yes" =? "yes") with true in Hm.
  destruct Hm as (cs & Hq & _ & _ & _ & _ & _ & Hp).
  exists cs. split; [exact Hq | exact Hp].
Defined.

Lemma stage_scores_match_records_witness :
  exists s,
    score_of "I" (stage_scores demo_timed_out) = Some s
    /\ total s = count (scored "I") (records demo_timed_out)
    /\ correct s = count (scored_correct "I") (records demo_timed_out)
    /\ (total s <= count (scored "I") (records demo_timed_out))%nat.
Proof.
  apply (stage_scores_match_records demo_timed_out "I").
  - exact demo_timed_out_reachable.
  - simpl. auto.
Defined.

Lemma inactive_task_not_processed_witness :
  task_active demo_timed_out = false
  /\ _on_choice "yes" demo_timed_out = demo_timed_out
  /\ _finalize_current_task false false demo_timed_out = demo_timed_out.
Proof.
  destruct (inactive_task_not_processed demo_timed_out demo_timed_out_reachable)
    as [H _].
  assert (Ha : task_active demo_timed_out = false) by (vm_compute; reflexivity).
  destruct (H Ha) as (H1 & H2 & _).
  split; [exact Ha|]. split; [apply H1 | apply H2].
Defined.

(** The record of the timed-out task: 10000 ms nominal, 11000 ms elapsed,
    and no key for the elapsed time clamped to 10000. *)
Lemma finalized_record_elapsed_witness :
  let st := demo_deadline in
  let r := record_of true demo_task st in
  (records (_finalize_current_task true true st) = records st ++ [r]
   /\ dget "duration_ms" r = Some (VInt (task_duration_ms st))
   /\ dget "actual_elapsed_ms" r = Some (VInt (py_int (py_max 0 (elapsed_ms_of st))))
   /\ has_key "response_duration_ms" r = false
   /\ has_key "response_duration" r = false)
  /\ task_duration_ms st = 10000%Z
  /\ py_int (py_max 0 (elapsed_ms_of st)) = 11000%Z.
Proof.
  split.
  - apply (finalized_record_elapsed demo_deadline true true demo_task).
    vm_compute. reflexivity.
  - split; vm_compute; reflexivity.
Defined.

(** A timed-out task: the keys of its record, in order, none of them for the
    clamped elapsed time. *)
Lemma timed_out_record_keys :
  map keys (records demo_timed_out)
  = [["task_id"; "stage"; "kind"; "started_at"; "ended_at"; "duration_ms";
      "actual_elapsed_ms"; "response"; "timeout"; "is_correct"; "object";
      "response_category"]]
  /\ map (dget "duration_ms") (records demo_timed_out) = [Some (VInt 10000)]
  /\ map (dget "actual_elapsed_ms") (records demo_timed_out) = [Some (VInt 11000)].
Proof. vm_compute. repeat split. Qed.

(** * Further properties of the session logic *)

(** ** What a run keeps true besides *)

Section Quiet.
Context {RT : Runtime}.

(** Between two handlers no choice is pending, and the deadline in force is
    that of the task on screen. *)
Definition quiet (st : app RT) : Prop :=
  selected_choice_id st = None
  /\ (task_active st = true ->
        exists t, current_task st = Some t /\ task_duration_ms st = duration_ms t).

Lemma finalizes_some_rest timeout force (st : app RT) t :
  finalizes force st = Some t ->
  let st' := _finalize_current_task timeout force st in
  selected_choice_id st' = None
  /\ task_duration_ms st' = task_duration_ms st
  /\ clock st' = S (S (S (clock st)))
  /\ intermission_start_perf st' = Some (perf_counter RT (S (S (clock st))))
  /\ session_start_perf st' = session_start_perf st
  /\ learning_room_order st' = learning_room_order st.
Proof.
  unfold finalizes, _finalize_current_task.
  destruct (negb (task_active st) && negb force); [discriminate|].
  destruct (current_task st) as [t0|] eqn:Ec; [|discriminate].
  destruct (task_start_perf st) as [start|]; [|discriminate].
  intros H; injection H as ->. cbv zeta.
  unfold _start_intermission, inject_followups, response_value_of.
  app_simpl.
  set (rv := match selected_choice_id st with
             | Some c => Some c
             | None => if timeout then Some NE_REPOND_PAS else None
             end).
  destruct (_evaluate_correctness t rv timeout) eqn:E;
    destruct (body t) as [o|o g|o cs|rm|rm e|img e|img e];
    try destruct (opt_str_eqb rv (Some "yes")) eqn:Y;
    app_simpl;
    try (destruct (shuffle RT _ (global_rng st)) as [cs' g'] eqn:S);
    app_simpl; repeat split; reflexivity.
Qed.

Lemma save_session_rest vr (st : app RT) :
  let st' := _save_session vr st in
  selected_choice_id st' = selected_choice_id st
  /\ task_duration_ms st' = task_duration_ms st
  /\ ws_messages st' = ws_messages st
  /\ session_ended_at st' = session_ended_at st.
Proof.
  unfold _save_session.
  destruct (session_start_perf st) as [q|]; [destruct (Qeq_bool q 0)|];
    app_simpl; destruct (truthy (session_started_at st));
    app_simpl; repeat split; reflexivity.
Qed.

Lemma quiet_inactive (st : app RT) :
  selected_choice_id st = None -> task_active st = false -> quiet st.
Proof. intros Hs Ha. split; [exact Hs|]. rewrite Ha. discriminate. Qed.

Lemma quiet_finalize timeout force (st : app RT) :
  wf st -> (task_active st = false -> selected_choice_id st = None) ->
  quiet (_finalize_current_task timeout force st).
Proof.
  intros W Hs. apply quiet_inactive; [|now apply finalize_inactive].
  destruct (finalizes force st) as [t|] eqn:F.
  - now destruct (finalizes_some_rest timeout force st t F) as (H & _).
  - rewrite (finalizes_none timeout force st F). apply Hs.
    destruct (task_active st) eqn:Ha; [|reflexivity].
    destruct (wf_active_finalizes force st W Ha) as (t & Ht & _). congruence.
Qed.

Lemma quiet_on_stop (st : app RT) :
  wf st -> (task_active st = false -> selected_choice_id st = None) ->
  quiet (on_stop st).
Proof.
  intros W Hs. unfold on_stop.
  pose proof (quiet_finalize true false st W Hs) as Q.
  set (st1 := _finalize_current_task true false st) in *.
  destruct (running st1); cbn [negb]; [|exact Q].
  app_simpl.
  match goal with |- quiet (_save_session ?v ?s) =>
    destruct (save_session_fields v s) as (_ & _ & Fa & _);
    destruct (save_session_rest v s) as (Fs & _)
  end.
  app_simpl_in Fa. app_simpl_in Fs.
  apply quiet_inactive; [rewrite Fs; apply Q | exact Fa].
Qed.

Lemma quiet_go_to_next (st : app RT) :
  wf st -> quiet st -> task_active st = false -> quiet (_go_to_next_task st).
Proof.
  intros W Q Ha. unfold _go_to_next_task.
  destruct (running st); cbn [negb]; [|exact Q].
  app_simpl.
  destruct (Z.of_nat (List.length (task_queue st)) <=? current_task_index st + 1)%Z.
  - apply quiet_on_stop.
    + destruct W as (_ & _ & W3 & _ & W5).
      apply wf_inactive; app_simpl; auto; lia.
    + intros _. apply Q.
  - destruct (py_index (task_queue st) (current_task_index st + 1)) as [t|].
    + unfold quiet, _show_task. app_simpl. split; [reflexivity|].
      intros _. exists t. split; reflexivity.
    + apply quiet_inactive; [apply Q | exact Ha].
Qed.

Lemma quiet_step (st : app RT) e : inv st -> quiet st -> quiet (step st e).
Proof.
  intros [W T] Q. destruct e as [subject selector loaded uuid| | |c|index|m]; simpl.
  - unfold on_start.
    destruct (running st) eqn:Hr; [exact Q|].
    destruct (subject =? ""); [exact Q|].
    unfold _build_tasks. cbv zeta. app_simpl.
    assert (Ha : task_active st = false) by (destruct W as (W1 & _); auto).
    assert (Hs : task_start_perf st = None) by (destruct W as (_ & _ & W3 & _); auto).
    match goal with |- context [b_tasks ?b] => set (bt := b) end.
    destruct (b_tasks bt) as [|t0 q].
    + apply quiet_inactive; [apply Q | exact Ha].
    + app_simpl. apply quiet_go_to_next; [| |reflexivity].
      * apply wf_inactive; app_simpl; auto. lia.
      * apply quiet_inactive; [apply Q | reflexivity].
  - apply quiet_on_stop; [exact W|]. intros _. apply Q.
  - unfold _timer_tick.
    destruct (running st); cbn [negb]; [|exact Q].
    assert (QF : quiet (_finalize_current_task true true
                          (set_clock (S (clock st)) st))).
    { apply quiet_finalize; [exact W|]. intros _. apply Q. }
    destruct (intermission_active st) eqn:Hi.
    + destruct (intermission_start_perf st) as [start|].
      * app_simpl. destruct (Qle_bool _ _); [|exact Q].
        assert (Ha : task_active st = false) by (destruct W as (_ & W2 & _); auto).
        apply quiet_go_to_next; [| |exact Ha].
        -- apply (wf_ext st); try reflexivity; [discriminate | exact W].
        -- apply quiet_inactive; [apply Q | exact Ha].
      * destruct (task_active st); [|exact Q].
        destruct (task_start_perf st); [|exact Q].
        app_simpl. destruct (Qle_bool _ _); [exact QF | exact Q].
    + destruct (task_active st); [|exact Q].
      destruct (task_start_perf st); [|exact Q].
      app_simpl. destruct (Qle_bool _ _); [exact QF | exact Q].
  - unfold _on_choice. destruct (task_active st) eqn:Ha; cbn [negb]; [|exact Q].
    apply quiet_finalize; [exact W|]. app_simpl. congruence.
  - unfold _jump_to_question.
    destruct (negb (running st) || (index <? 0)%Z
              || (Z.of_nat (List.length (task_queue st)) <=? index)%Z) eqn:G;
      [exact Q|].
    apply orb_false_iff in G as [G _]. apply orb_false_iff in G as [_ G].
    apply Z.ltb_ge in G.
    set (st1 := if task_active st then _finalize_current_task true true st else st).
    assert (W1 : wf st1).
    { unfold st1. destruct (task_active st); [now apply wf_finalize | exact W]. }
    assert (A1 : task_active st1 = false).
    { unfold st1. destruct (task_active st) eqn:Ha; [|exact Ha].
      now apply finalize_inactive. }
    assert (Q1 : quiet st1).
    { unfold st1. destruct (task_active st); [|exact Q].
      apply quiet_finalize; [exact W|]. intros _. apply Q. }
    apply quiet_go_to_next; [| |exact A1].
    + apply wf_inactive; app_simpl; auto; [|lia].
      destruct W1 as (_ & _ & W3 & _). auto.
    + apply quiet_inactive; [apply Q1 | exact A1].
  - exact Q.
Qed.

Lemma reachable_quiet (st : app RT) : reachable st -> quiet st.
Proof.
  intros (g0 & es & ->).
  assert (H : forall es (s : app RT), inv s -> quiet s -> quiet (run es s)).
  { clear. induction es as [|e es IH]; intros s I Q; [exact Q|].
    simpl. apply IH; [now apply inv_step | now apply quiet_step]. }
  apply H.
  - split; [apply wf_init | apply tally_init].
  - split; [reflexivity | discriminate].
Qed.

End Quiet.

(** ** What the handlers do to a session *)

Section Handlers.
Context {RT : Runtime}.

(** The keys of a record that only [_finalize_current_task] writes. *)
Definition HEAD_KEYS : list string :=
  ["task_id"; "kind"; "started_at"; "ended_at"; "response"; "timeout"].

Lemma copy_task_keys_head k t rec :
  In k HEAD_KEYS -> dget k (copy_task_keys t rec) = dget k rec.
Proof.
  intros H. unfold copy_task_keys.
  each_base_key H; destruct (body t); dget_through.
Qed.

Lemma annotate_head k t response rec :
  In k HEAD_KEYS -> dget k (_annotate_record_metrics RT t response rec) = dget k rec.
Proof.
  intros H. unfold _annotate_record_metrics.
  each_base_key H;
    (destruct response as [r|]; [|dget_through];
     destruct (r =? NE_REPOND_PAS); [dget_through|];
     destruct (r =? JE_NE_SAIS_PAS); [dget_through|];
     destruct (body t) as [o|o g|o cs|rm|rm [e|]|img e|img e];
     repeat match goal with
       | |- context [if ?b then _ else _] => destruct b
       | |- context [match int_of_str RT ?x with _ => _ end] =>
           destruct (int_of_str RT x)
       end;
     dget_through).
Qed.

Lemma record_head_key k timeout t elapsed ended_at (st : app RT) :
  In k HEAD_KEYS ->
  dget k (response_record timeout t elapsed ended_at st)
  = dget k [("task_id", v_opt_str (task_id t)); ("kind", VStr (kind t));
            ("started_at", v_opt_str (task_started_at_iso st));
            ("ended_at", VStr ended_at);
            ("response", v_opt_str (response_value_of timeout st));
            ("timeout", VBool timeout)].
Proof.
  intros H. unfold response_record.
  rewrite annotate_head, copy_task_keys_head by exact H.
  destruct (_evaluate_correctness t (response_value_of timeout st) timeout);
    each_base_key H; reflexivity.
Qed.


Lemma save_session_file vr (st : app RT) :
  sessions_dir (_save_session vr st)
  = sessions_dir st
    ++ [mkFile (session_id st) (subject_id st) (task_mode st) (experiment_name st)
          (session_started_at st) (session_ended_at st) (stage_scores st)
          (records st) (map (serialize_vr (start_marker st)) vr)].
Proof.
  unfold _save_session, start_marker.
  destruct (session_start_perf st) as [q|]; [destruct (Qeq_bool q 0)|];
    cbn; destruct (truthy (session_started_at st)); reflexivity.
Qed.

Lemma finalize_meta timeout force (st : app RT) :
  let st' := _finalize_current_task timeout force st in
  subject_id st' = subject_id st /\ session_id st' = session_id st
  /\ task_mode st' = task_mode st /\ experiment_name st' = experiment_name st
  /\ session_started_at st' = session_started_at st
  /\ running st' = running st /\ sessions_dir st' = sessions_dir st
  /\ ws_messages st' = ws_messages st /\ data st' = data st.
Proof.
  unfold _finalize_current_task.
  destruct (negb (task_active st) && negb force); [repeat split|].
  destruct (current_task st) as [t|]; [|repeat split].
  destruct (task_start_perf st) as [start|]; [|repeat split].
  cbv zeta. unfold _start_intermission, inject_followups, response_value_of.
  app_simpl.
  set (rv := match selected_choice_id st with
             | Some c => Some c
             | None => if timeout then Some NE_REPOND_PAS else None
             end).
  destruct (_evaluate_correctness t rv timeout) eqn:E;
    destruct (body t) as [o|o g|o cs|rm|rm e|img e|img e];
    try destruct (opt_str_eqb rv (Some "yes")) eqn:Y;
    app_simpl;
    try (destruct (shuffle RT _ (global_rng st)) as [cs' g'] eqn:S);
    app_simpl; repeat split; reflexivity.
Qed.

Lemma on_stop_fields (st : app RT) :
  wf st -> running st = true ->
  let st1 := _finalize_current_task true false st in
  let st' := on_stop st in
  running st' = false /\ task_active st' = false /\ intermission_active st' = false
  /\ ws_messages st' = []
  /\ records st' = records st1 /\ stage_scores st' = stage_scores st1
  /\ task_queue st' = task_queue st1
  /\ exists f,
       sessions_dir st' = sessions_dir st ++ [f]
       /\ f_tasks f = records st1 /\ f_scores f = stage_scores st1
       /\ f_subject_id f = subject_id st
       /\ f_ended_at f = Some (now_iso RT (clock st1))
       /\ map e_payload (vr_messages f) = map msg_payload (ws_messages st)
       /\ map e_received_at (vr_messages f) = map received_at (ws_messages st).
Proof.
  intros W Hr st1 st'. unfold st', on_stop. fold st1.
  assert (F : running st1 = true /\ sessions_dir st1 = sessions_dir st
              /\ ws_messages st1 = ws_messages st /\ subject_id st1 = subject_id st).
  { destruct (finalize_meta true false st) as (U & _ & _ & _ & _ & R & S & M & _).
    fold st1 in U, R, S, M. rewrite R, S, M, U. auto. }
  destruct F as (R1 & S1 & M1 & U1).
  rewrite R1. cbn [negb]. app_simpl.
  match goal with |- context [_save_session ?v ?s] =>
    destruct (save_session_fields v s)
      as (Fr & Fi & Fa & _ & _ & _ & Fq & Frec & Fsc);
    destruct (save_session_rest v s) as (_ & _ & Fw & _);
    pose proof (save_session_file v s) as Ff
  end.
  app_simpl_in Fr. app_simpl_in Fi. app_simpl_in Fa. app_simpl_in Fq.
  app_simpl_in Frec. app_simpl_in Fsc. app_simpl_in Fw. app_simpl_in Ff.
  repeat (split; [assumption|]).
  eexists. split; [rewrite Ff, S1; reflexivity|].
  cbn [f_tasks f_scores f_subject_id f_ended_at vr_messages].
  repeat split; auto.
  - rewrite map_map, M1. reflexivity.
  - rewrite map_map, M1. reflexivity.
Qed.

(** X1. Stopping a running session finalizes the task on screen as a
    timeout (when one is active), leaves the session stopped with no task
    active, hands the buffered telemetry over and empties the buffer, and
    writes one file holding all the records, the tallies and the telemetry
    entries in the order received. *)
Theorem on_stop_saves_session (st : app RT) :
  wf st -> running st = true ->
  let st1 := _finalize_current_task true false st in
  let st' := on_stop st in
  running st' = false /\ task_active st' = false /\ intermission_active st' = false
  /\ ws_messages st' = []
  /\ records st' = records st1 /\ stage_scores st' = stage_scores st1
  /\ task_queue st' = task_queue st1
  /\ exists f,
       sessions_dir st' = sessions_dir st ++ [f]
       /\ f_tasks f = records st1 /\ f_scores f = stage_scores st1
       /\ f_subject_id f = subject_id st
       /\ f_ended_at f = Some (now_iso RT (clock st1))
       /\ map e_payload (vr_messages f) = map msg_payload (ws_messages st)
       /\ map e_received_at (vr_messages f) = map received_at (ws_messages st).
Proof. exact (on_stop_fields st). Qed.

Lemma on_stop_idle (st : app RT) : wf st -> running st = false -> on_stop st = st.
Proof.
  intros W Hr. unfold on_stop.
  assert (Ha : task_active st = false) by (destruct W as (W1 & _); auto).
  assert (E : _finalize_current_task true false st = st).
  { unfold _finalize_current_task. now rewrite Ha. }
  rewrite E, Hr. reflexivity.
Qed.

(** X2. Stopping when no session is running does nothing: no record, no
    file, the state is as it was. *)
Theorem on_stop_without_session (st : app RT) :
  reachable st -> running st = false -> on_stop st = st.
Proof. intros R. apply on_stop_idle. apply (reachable_inv st R). Qed.

End Handlers.

Section Ticks.
Context {RT : Runtime}.

Lemma wf_active_running (st : app RT) :
  wf st -> task_active st = true ->
  running st = true /\ intermission_active st = false.
Proof.
  intros (W1 & W2 & _) Ha. split.
  - destruct (running st); [reflexivity|]. rewrite W1 in Ha by reflexivity.
    discriminate.
  - destruct (intermission_active st); [|reflexivity].
    rewrite W2 in Ha by reflexivity. discriminate.
Qed.

Lemma go_to_next_shows (st : app RT) t :
  running st = true -> (-1 <= current_task_index st)%Z ->
  nth_error (task_queue st) (Z.to_nat (current_task_index st + 1)) = Some t ->
  _go_to_next_task st
  = _show_task t (set_current_task (Some t)
                    (set_current_task_index (current_task_index st + 1)%Z st)).
Proof.
  intros Hr Hi Hn. unfold _go_to_next_task. rewrite Hr. cbn [negb]. app_simpl.
  assert (Hlt : (Z.to_nat (current_task_index st + 1) < List.length (task_queue st))%nat)
    by (apply nth_error_Some; congruence).
  replace (Z.of_nat (List.length (task_queue st)) <=? current_task_index st + 1)%Z
    with false by (symmetry; apply Z.leb_gt; lia).
  unfold py_index.
  replace (current_task_index st + 1 <? 0)%Z with false by (symmetry; apply Z.ltb_ge; lia).
  now rewrite Hn.
Qed.

Lemma go_to_next_stops (st : app RT) :
  running st = true ->
  (Z.of_nat (List.length (task_queue st)) <= current_task_index st + 1)%Z ->
  _go_to_next_task st
  = on_stop (set_current_task_index (current_task_index st + 1)%Z st).
Proof.
  intros Hr Hlen. unfold _go_to_next_task. rewrite Hr. cbn [negb]. app_simpl.
  now replace (Z.of_nat (List.length (task_queue st)) <=? current_task_index st + 1)%Z
    with true by (symmetry; apply Z.leb_le; lia).
Qed.

(** X3. Moving on while tasks remain: the cursor advances by one and the
    task there is put on screen: it is the current task, active, outside the
    intermission, with its own deadline, a fresh start marker and no choice
    selected; the records, the tallies and the queue are untouched. *)
Theorem next_task_shown (st : app RT) (t : task) :
  wf st -> running st = true ->
  nth_error (task_queue st) (Z.to_nat (current_task_index st + 1)) = Some t ->
  let st' := _go_to_next_task st in
  current_task_index st' = (current_task_index st + 1)%Z
  /\ current_task st' = Some t
  /\ task_active st' = true /\ intermission_active st' = false
  /\ task_duration_ms st' = duration_ms t
  /\ task_start_perf st' = Some (perf_counter RT (S (clock st)))
  /\ selected_choice_id st' = None
  /\ records st' = records st /\ stage_scores st' = stage_scores st
  /\ task_queue st' = task_queue st /\ running st' = true.
Proof.
  intros W Hr Hn st'. unfold st'.
  rewrite (go_to_next_shows st t Hr); [|now destruct W as (_ & _ & _ & _ & W5)|exact Hn].
  unfold _show_task. app_simpl. repeat split; auto.
Qed.

(** X4. Moving on past the last task ends the session: it is stopped, and
    one file with all the records and the tallies is written. *)
Theorem queue_exhausted_stops (st : app RT) :
  wf st -> running st = true -> task_active st = false ->
  (Z.of_nat (List.length (task_queue st)) <= current_task_index st + 1)%Z ->
  let st' := _go_to_next_task st in
  running st' = false /\ task_active st' = false
  /\ records st' = records st /\ stage_scores st' = stage_scores st
  /\ exists f, sessions_dir st' = sessions_dir st ++ [f]
               /\ f_tasks f = records st /\ f_scores f = stage_scores st.
Proof.
  intros W Hr Ha Hlen st'. unfold st'. rewrite (go_to_next_stops st Hr Hlen).
  set (s := set_current_task_index (current_task_index st + 1)%Z st).
  assert (Ws : wf s).
  { destruct W as (_ & _ & W3 & _ & W5).
    apply wf_inactive; unfold s; app_simpl; auto; lia. }
  assert (E : _finalize_current_task true false s = s).
  { unfold _finalize_current_task. unfold s at 1. app_simpl. now rewrite Ha. }
  destruct (on_stop_fields s Ws Hr)
    as (H1 & H2 & _ & _ & H5 & H6 & _ & f & F1 & F2 & F3 & _).
  rewrite E in H5, H6, F2, F3.
  repeat split; auto. exists f. auto.
Qed.


(** X6. A tick that comes at least one millisecond before the deadline only
    reads the clock, be the deadline that of the task on screen or the end of
    the intermission. The program computes the elapsed time in double
    precision, which may round it up to the deadline when it falls short of
    it by less than the rounding; the margin of one millisecond, with a clock
    that has not gone back and a deadline of at most 2^50 ms, keeps the
    statement clear of that. *)
Theorem timer_tick_waits (st : app RT) :
  reachable st ->
  (forall t start,
     task_active st = true ->
     current_task st = Some t -> task_start_perf st = Some start ->
     (0 <= (perf_counter RT (clock st) - start) * 1000)%Q ->
     ((perf_counter RT (clock st) - start) * 1000 + 1 <= py_float (duration_ms t))%Q ->
     (duration_ms t <= 2 ^ 50)%Z ->
     _timer_tick st = set_clock (S (clock st)) st)
  /\ (forall start,
        running st = true -> intermission_active st = true ->
        intermission_start_perf st = Some start ->
        (0 <= (perf_counter RT (clock st) - start) * 1000)%Q ->
        ((perf_counter RT (clock st) - start) * 1000 + 1 <= py_float INTER_DELAY_MS)%Q ->
        _timer_tick st = set_clock (S (clock st)) st).
Proof.
  intros R. destruct (reachable_inv st R) as [W _].
  destruct (reachable_quiet st R) as [_ Q2]. split.
  - intros t start Ha Hc Hs _ Hlt _.
    destruct (Q2 Ha) as (t' & Ht' & Hd). assert (t' = t) by congruence. subst t'.
    destruct (wf_active_running st W Ha) as [Hr Hi].
    unfold _timer_tick. rewrite Hr, Hi, Ha, Hs. cbn [negb]. app_simpl. rewrite Hd.
    destruct (Qle_bool _ _) eqn:E; [|reflexivity].
    apply Qle_bool_iff in E. exfalso.
    apply (Qlt_not_le ((perf_counter RT (clock st) - start) * 1000)
                      (py_float (duration_ms t))); [|exact E].
    eapply Qlt_le_trans; [|exact Hlt].
    rewrite <- (Qplus_0_r ((perf_counter RT (clock st) - start) * 1000)) at 1.
    apply Qplus_lt_r. reflexivity.
  - intros start Hr Hi Hs _ Hlt.
    unfold _timer_tick. rewrite Hr, Hi, Hs. cbn [negb]. app_simpl.
    destruct (Qle_bool _ _) eqn:E; [|reflexivity].
    apply Qle_bool_iff in E. exfalso.
    apply (Qlt_not_le ((perf_counter RT (clock st) - start) * 1000)
                      (py_float INTER_DELAY_MS)); [|exact E].
    eapply Qlt_le_trans; [|exact Hlt].
    rewrite <- (Qplus_0_r ((perf_counter RT (clock st) - start) * 1000)) at 1.
    apply Qplus_lt_r. reflexivity.
Qed.

End Ticks.

Section Operator.
Context {RT : Runtime}.

Lemma finalize_timeout_queue force (st : app RT) :
  selected_choice_id st = None ->
  task_queue (_finalize_current_task true force st) = task_queue st.
Proof.
  intros Hs. destruct (finalizes force st) as [t|] eqn:F.
  - destruct (finalizes_some true force st t F) as (_ & _ & Hq & _).
    rewrite Hq. unfold queue_after, response_value_of. rewrite Hs.
    now destruct (body t).
  - now rewrite (finalizes_none true force st F).
Qed.

Lemma finalize_inactive_id timeout (st : app RT) :
  task_active st = false -> _finalize_current_task timeout false st = st.
Proof. intros Ha. unfold _finalize_current_task. now rewrite Ha. Qed.

Lemma on_stop_queue (st : app RT) :
  wf st -> selected_choice_id st = None ->
  task_queue (on_stop st) = task_queue st.
Proof.
  intros W Hs. destruct (running st) eqn:Hr.
  - destruct (on_stop_fields st W Hr) as (_ & _ & _ & _ & _ & _ & Hq & _).
    rewrite Hq. now apply finalize_timeout_queue.
  - now rewrite on_stop_idle.
Qed.

Lemma go_to_next_queue (st : app RT) :
  wf st -> task_active st = false -> selected_choice_id st = None ->
  task_queue (_go_to_next_task st) = task_queue st.
Proof.
  intros W Ha Hs. unfold _go_to_next_task.
  destruct (running st); cbn [negb]; [|reflexivity]. app_simpl.
  destruct (Z.of_nat (List.length (task_queue st)) <=? current_task_index st + 1)%Z.
  - rewrite on_stop_queue; [reflexivity| |exact Hs].
    destruct W as (_ & _ & W3 & _ & W5).
    apply wf_inactive; app_simpl; auto; lia.
  - now destruct (py_index (task_queue st) (current_task_index st + 1)).
Qed.

(** X7. While a task is on screen in a state a run reaches, the session is
    running and not in the intermission; the task is the one the cursor
    points at in the queue; its start marker is set, the deadline in force is
    its own duration, and no choice is pending. *)
Theorem active_task_is_current (st : app RT) :
  reachable st -> task_active st = true ->
  running st = true /\ intermission_active st = false
  /\ selected_choice_id st = None
  /\ exists t start,
       current_task st = Some t /\ task_start_perf st = Some start
       /\ (0 <= current_task_index st)%Z
       /\ nth_error (task_queue st) (Z.to_nat (current_task_index st)) = Some t
       /\ task_duration_ms st = duration_ms t.
Proof.
  intros R Ha. destruct (reachable_inv st R) as [W _].
  destruct (reachable_quiet st R) as [Q1 Q2].
  destruct (wf_active_running st W Ha) as [Hr Hi].
  repeat split; auto.
  destruct W as (_ & _ & _ & W4 & _).
  destruct (W4 Ha) as (t & start & Hc & Hs & H0 & Hn).
  destruct (Q2 Ha) as (t' & Hc' & Hd). assert (t' = t) by congruence. subst t'.
  exists t, start. auto.
Qed.

(** X8. The end of the intermission: a tick 3000 ms or more after it
    began, with a task left after the cursor, ends the intermission, advances
    the cursor by one and puts that task on screen, leaving the records and
    the queue as they are. *)
Theorem intermission_tick (st : app RT) (start : Q) :
  reachable st -> running st = true ->
  intermission_active st = true -> intermission_start_perf st = Some start ->
  let elapsed_ms := ((perf_counter RT (clock st) - start) * 1000)%Q in
  let st' := _timer_tick st in
  (py_float INTER_DELAY_MS <= elapsed_ms)%Q ->
  forall t,
    nth_error (task_queue st) (Z.to_nat (current_task_index st + 1)) = Some t ->
    current_task_index st' = (current_task_index st + 1)%Z
    /\ current_task st' = Some t /\ task_active st' = true
    /\ intermission_active st' = false
    /\ task_duration_ms st' = duration_ms t
    /\ records st' = records st /\ task_queue st' = task_queue st.
Proof.
  intros R Hr Hi Hs elapsed_ms st' Hle t Hn.
  destruct (reachable_inv st R) as [W _].
  assert (E : st' = if Qle_bool (py_float INTER_DELAY_MS) elapsed_ms
                    then _go_to_next_task
                           (set_intermission_start_perf None
                              (set_intermission_active false
                                 (set_clock (S (clock st)) st)))
                    else set_clock (S (clock st)) st).
  { unfold st', _timer_tick. rewrite Hr, Hi, Hs. cbn [negb]. app_simpl. reflexivity. }
  apply Qle_bool_iff in Hle. rewrite Hle in E.
  set (s := set_intermission_start_perf None
              (set_intermission_active false (set_clock (S (clock st)) st))) in E.
  assert (Ws : wf s).
  { apply (wf_ext st); try reflexivity; [discriminate | exact W]. }
  rewrite E, (go_to_next_shows s t); [| exact Hr | now destruct W as (_ & _ & _ & _ & W5) | exact Hn].
  unfold _show_task, s. app_simpl. repeat split; reflexivity.
Qed.

(** X9. An operator jump to a task of the queue, in a running session a run
    has reached: the task on screen, if any, is finalized as a timeout (one
    record with the no-response sentinel), the queue is left as it is, and
    the target becomes the current task, on screen at once, with the cursor
    on it. *)
Theorem jump_shows_target (st : app RT) (index : Z) (t : task) :
  reachable st -> running st = true -> (0 <= index)%Z ->
  nth_error (task_queue st) (Z.to_nat index) = Some t ->
  let st' := _jump_to_question index st in
  current_task_index st' = index /\ current_task st' = Some t
  /\ task_active st' = true /\ intermission_active st' = false
  /\ task_duration_ms st' = duration_ms t
  /\ task_queue st' = task_queue st
  /\ (if task_active st
      then exists r, records st' = records st ++ [r]
                     /\ dget "response" r = Some (VStr NE_REPOND_PAS)
                     /\ dget "timeout" r = Some (VBool true)
      else records st' = records st).
Proof.
  intros R Hr H0 Hn st'.
  destruct (reachable_inv st R) as [W _]. destruct (reachable_quiet st R) as [Q1 _].
  assert (Hlt : (Z.to_nat index < List.length (task_queue st))%nat)
    by (apply nth_error_Some; congruence).
  set (st1 := if task_active st then _finalize_current_task true true st else st).
  assert (E : st' = _go_to_next_task
                      (set_intermission_start_perf None
                         (set_intermission_active false
                            (set_current_task_index (index - 1)%Z st1)))).
  { unfold st', _jump_to_question. rewrite Hr. cbn [negb orb].
    replace (index <? 0)%Z with false by (symmetry; apply Z.ltb_ge; lia).
    replace (Z.of_nat (List.length (task_queue st)) <=? index)%Z with false
      by (symmetry; apply Z.leb_gt; lia).
    reflexivity. }
  assert (Hq1 : task_queue st1 = task_queue st).
  { unfold st1. destruct (task_active st); [|reflexivity].
    now apply finalize_timeout_queue. }
  assert (Hr1 : running st1 = true).
  { unfold st1. destruct (task_active st); [|exact Hr].
    destruct (finalize_meta true true st) as (_ & _ & _ & _ & _ & H & _). congruence. }
  set (s := set_intermission_start_perf None
              (set_intermission_active false
                 (set_current_task_index (index - 1)%Z st1))) in E.
  assert (Hns : nth_error (task_queue s) (Z.to_nat (current_task_index s + 1)) = Some t).
  { unfold s. app_simpl. rewrite Hq1. now replace (index - 1 + 1)%Z with index by lia. }
  rewrite E, (go_to_next_shows s t); [| exact Hr1 | unfold s; app_simpl; lia | exact Hns].
  unfold _show_task, s. app_simpl.
  split; [lia|]. repeat (split; [reflexivity|]). split; [exact Hq1|].
  unfold st1. destruct (task_active st) eqn:Ha; [|reflexivity].
  destruct (wf_active_finalizes true st W Ha) as (t0 & F & _).
  destruct (finalizes_some true true st t0 F) as (Hrec & _).
  exists (record_of true t0 st). split; [exact Hrec|].
  unfold record_of. rewrite !record_head_key by (simpl; auto 10).
  unfold response_value_of. rewrite Q1. split; reflexivity.
Qed.

(** X10. In a run, the queue changes in one way only (a session start
    apart, which builds a new one): a "yes" chosen for a Stage-I task on
    screen inserts the two follow-up tasks right after it.  Every other
    choice, every tick, jump, stop and telemetry message leaves the queue as
    it is; no task is ever removed. *)
Theorem queue_changes_only_on_yes (st : app RT) (e : event) :
  reachable st ->
  (forall subject selector loaded uuid, e <> EvStart subject selector loaded uuid) ->
  let q := task_queue st in
  let q' := task_queue (step st e) in
  match e, task_active st, current_task st with
  | EvChoice c, true, Some t =>
      match body t with
      | Step1 o =>
          if c =? "yes" then
            exists i cs,
              current_task_index st = Z.of_nat i /\ nth_error q i = Some t
              /\ q' = firstn (S i) q
                      ++ [step2_where_task o (ordered_rooms st);
                          step2_spatial_task o cs]
                      ++ skipn (S i) q
          else q' = q
      | _ => q' = q
      end
  | _, _, _ => q' = q
  end.
Proof.
  intros R Hne q q'.
  destruct (reachable_inv st R) as [W _]. destruct (reachable_quiet st R) as [Q1 _].
  assert (Inactive : forall c, task_active st = false -> task_queue (_on_choice c st) = q).
  { intros c Ha. unfold _on_choice. now rewrite Ha. }
  destruct e as [subject selector loaded uuid| | |c|index|m].
  - exfalso. now apply (Hne subject selector loaded uuid).
  - assert (H : q' = q) by (unfold q'; simpl; now apply on_stop_queue).
    destruct (task_active st); [destruct (current_task st)|]; exact H.
  - assert (H : q' = q).
    { unfold q'. simpl. unfold _timer_tick.
      destruct (running st); cbn [negb]; [|reflexivity].
      assert (QF : task_queue (_finalize_current_task true true
                                 (set_clock (S (clock st)) st)) = q)
        by now apply finalize_timeout_queue.
      destruct (intermission_active st) eqn:Hi.
      - destruct (intermission_start_perf st) as [start|].
        + app_simpl. destruct (Qle_bool _ _); [|reflexivity].
          rewrite go_to_next_queue; [reflexivity| | |exact Q1].
          * apply (wf_ext st); try reflexivity; [discriminate | exact W].
          * app_simpl. destruct W as (_ & W2 & _). auto.
        + destruct (task_active st); [|reflexivity].
          destruct (task_start_perf st); [|reflexivity].
          app_simpl. destruct (Qle_bool _ _); [exact QF | reflexivity].
      - destruct (task_active st); [|reflexivity].
        destruct (task_start_perf st); [|reflexivity].
        app_simpl. destruct (Qle_bool _ _); [exact QF | reflexivity]. }
    destruct (task_active st); [destruct (current_task st)|]; exact H.
  - destruct (task_active st) eqn:Ha; [|now apply Inactive].
    destruct (wf_active_finalizes true st W Ha) as (t & F & Hn & H0).
    assert (Hc : current_task st = Some t).
    { unfold finalizes in F. rewrite Ha in F. cbn [negb andb] in F.
      destruct (current_task st); [|discriminate].
      destruct (task_start_perf st); [|discriminate]. exact F. }
    rewrite Hc.
    set (s := set_selected_choice_id (Some c) st).
    assert (Fs : finalizes true s = Some t) by exact F.
    assert (E : q' = queue_after false t s).
    { unfold q'. simpl. unfold _on_choice. rewrite Ha. cbn [negb].
      now destruct (finalizes_some false true s t Fs) as (_ & _ & Hq & _). }
    rewrite E. unfold queue_after.
    destruct (body t) as [o|o g|o cs|rm|rm e|img e|img e]; try reflexivity.
    change (response_value_of false s) with (Some c).
    change (opt_str_eqb (Some c) (Some "yes")) with (c =? "yes").
    destruct (c =? "yes"); [|reflexivity].
    exists (Z.to_nat (current_task_index st)), (shuffled_choices o s).
    split; [lia|]. split; [exact Hn|].
    change (task_queue s) with q. change (current_task_index s) with (current_task_index st).
    replace (current_task_index st) with (Z.of_nat (Z.to_nat (current_task_index st)))
      at 1 by lia.
    now apply slice_insert_after with t.
  - assert (H : q' = q).
    { unfold q'. simpl. unfold _jump_to_question.
      destruct (negb (running st) || (index <? 0)%Z
                || (Z.of_nat (List.length (task_queue st)) <=? index)%Z) eqn:G;
        [reflexivity|].
      apply orb_false_iff in G as [G _]. apply orb_false_iff in G as [_ G].
      apply Z.ltb_ge in G.
      set (st1 := if task_active st then _finalize_current_task true true st else st).
      assert (W1 : wf st1).
      { unfold st1. destruct (task_active st); [now apply wf_finalize | exact W]. }
      assert (A1 : task_active st1 = false).
      { unfold st1. destruct (task_active st) eqn:Ha; [|exact Ha].
        now apply finalize_inactive. }
      assert (S1 : selected_choice_id st1 = None).
      { unfold st1. destruct (task_active st); [|exact Q1].
        apply quiet_finalize; [exact W|]. intros _. exact Q1. }
      assert (Hq1 : task_queue st1 = q).
      { unfold st1. destruct (task_active st); [|reflexivity].
        now apply finalize_timeout_queue. }
      rewrite go_to_next_queue; [exact Hq1 | | exact A1 | exact S1].
      apply wf_inactive; app_simpl; auto; [|lia].
      destruct W1 as (_ & _ & W3 & _). auto. }
    destruct (task_active st); [destruct (current_task st)|]; exact H.
  - destruct (task_active st); [destruct (current_task st)|]; reflexivity.
Qed.

End Operator.

Section Start.
Context {RT : Runtime}.

(** X11. Starting a session. While a session runs, or with an empty
    subject, nothing happens.  Otherwise the queue is built from the loaded
    catalog; when it is empty no session starts and the earlier records and
    files stay; when it is not, the session runs under the fresh id with no
    record, every tally at zero, and the first task of the queue on screen
    under the cursor 0. *)
Theorem on_start_begins_session (st : app RT) (subject : string)
    (selector : option string) (loaded : catalog) (uuid : string) :
  let st' := on_start subject selector loaded uuid st in
  let mode := if truthy selector then str_opt selector else "recall" in
  let q := b_tasks (build_from RT loaded mode (learning_room_order st)
                      (iia_room_order st) (Random RT RANDOM_SEED)) in
  (running st = true \/ subject = "" -> st' = st)
  /\ (running st = false -> subject <> "" ->
      match q with
      | [] => running st' = false /\ task_queue st' = []
              /\ records st' = records st /\ sessions_dir st' = sessions_dir st
      | t :: _ =>
          running st' = true /\ task_queue st' = q
          /\ current_task_index st' = 0%Z /\ current_task st' = Some t
          /\ task_active st' = true /\ intermission_active st' = false
          /\ task_duration_ms st' = duration_ms t
          /\ records st' = []
          /\ stage_scores st' = zero_scores (map fst (stage_scores st))
          /\ session_id st' = uuid /\ subject_id st' = subject
          /\ task_mode st' = mode
      end).
Proof.
  intros st' mode q. split.
  - intros [Hr|Hs]; unfold st', on_start.
    + now rewrite Hr.
    + destruct (running st); [reflexivity|]. subst subject. reflexivity.
  - intros Hr Hs. unfold st', on_start. rewrite Hr.
    destruct (subject =? "") eqn:E; [apply String.eqb_eq in E; contradiction|].
    unfold _build_tasks. cbv zeta. app_simpl.
    change (_get_rng RANDOM_MODE _) with (Random RT RANDOM_SEED).
    fold mode. fold q.
    destruct q as [|t q0] eqn:Eq.
    + app_simpl. repeat split; try reflexivity. exact Hr.
    + app_simpl.
      match goal with |- context [_go_to_next_task ?s] => set (s0 := s) end.
      rewrite (go_to_next_shows s0 t); unfold s0; app_simpl;
        [|reflexivity|lia|reflexivity].
      unfold _show_task. app_simpl. repeat split; reflexivity.
Qed.

End Start.

(** ** The queue the builder returns *)

(** How many trials balanced sampling keeps of a pool. *)
Definition balanced_size (pool : list trial) : nat :=
  if (5 <=? List.length (correct_of pool))%nat
     && (5 <=? List.length (incorrect_of pool))%nat
  then 10%nat else List.length pool.

(** The objects of the recognition tasks of a queue, in order. *)
Definition step1_objects (q : list task) : list obj :=
  flat_map (fun t => match body t with Step1 o => [o] | _ => [] end) q.

(** The rooms of the day/night tasks and of the room-order tasks, in order. *)
Definition step3_rooms (q : list task) : list room :=
  flat_map (fun t => match body t with Step3Daynight r => [r] | _ => [] end) q.
Definition step4_rooms (q : list task) : list room :=
  flat_map (fun t => match body t with Step4Order r _ => [r] | _ => [] end) q.

Section BuilderMore.
Context (RT : Runtime).

Lemma shuffle_pair {A} (x y : list A) (g g' : rng RT) :
  shuffle RT x g = (y, g') -> Permutation y x.
Proof. intros H. change y with (fst (y, g')). rewrite <- H. apply shuffle_perm. Qed.

(** What balanced sampling followed by a shuffle yields. *)
Definition sampled (s pool : list trial) : Prop :=
  List.length s = balanced_size pool
  /\ (exists rest, Permutation (s ++ rest) pool)
  /\ ((5 <= List.length (correct_of pool))%nat ->
      (5 <= List.length (incorrect_of pool))%nat ->
      List.length (correct_of s) = 5%nat /\ List.length (incorrect_of s) = 5%nat).

Lemma filter_length_perm {A} (f : A -> bool) (l l' : list A) :
  Permutation l l' -> List.length (filter f l) = List.length (filter f l').
Proof.
  induction 1; simpl; auto.
  - destruct (f x); simpl; auto.
  - destruct (f x), (f y); reflexivity.
  - congruence.
Qed.

Lemma pick_then_shuffle_sampled pool (r r1 r2 : rng RT) b s :
  _pick_balanced_trials RT pool r 5 = (b, r1) -> shuffle RT b r1 = (s, r2) ->
  sampled s pool.
Proof.
  intros Hb Hs. pose proof (shuffle_pair _ _ _ _ Hs) as P.
  assert (Eb : b = fst (_pick_balanced_trials RT pool r 5)) by now rewrite Hb.
  unfold sampled, balanced_size.
  destruct ((5 <=? List.length (correct_of pool))%nat
            && (5 <=? List.length (incorrect_of pool))%nat) eqn:G.
  - apply andb_true_iff in G as [G1 G2].
    apply Nat.leb_le in G1. apply Nat.leb_le in G2.
    destruct (pick_balanced_enough RT pool r 5 G1 G2) as (C & I & L & rest & Pr).
    rewrite <- Eb in C, I, L, Pr.
    split; [rewrite (Permutation_length P); exact L|]. split.
    + exists rest. now rewrite P.
    + intros _ _. unfold correct_of, incorrect_of in *.
      rewrite (filter_length_perm _ _ _ P), (filter_length_perm _ _ _ P) by auto.
      split; assumption.
  - assert (Sh : (List.length (correct_of pool) < 5)%nat
                 \/ (List.length (incorrect_of pool) < 5)%nat).
    { apply andb_false_iff in G as [G|G]; apply Nat.leb_gt in G; auto. }
    destruct (pick_balanced_short RT pool r 5 Sh) as [_ Pp].
    rewrite <- Eb in Pp.
    split; [rewrite (Permutation_length P); now apply Permutation_length|].
    split.
    + exists []. rewrite app_nil_r. now rewrite P.
    + intros H1 H2. lia.
Qed.

(** The full battery, taken apart. *)
Lemma build_from_recall data mode l0 i0 (rand : rng RT) :
  (mode =? "rappel_immediat") = false ->
  exists objs rms s5 ri,
    build_from RT data mode l0 i0 rand
    = mkBuilt (step1_tasks 1 objs
               ++ map step3_task rms
               ++ map (step4_task (fst (fst (room_orders RT (rooms data) rand)))) rms
               ++ map step5_task s5
               ++ map ri_end_task ri)
              (fst (fst (room_orders RT (rooms data) rand)))
              (snd (fst (room_orders RT (rooms data) rand)))
    /\ Permutation objs (familiar_objects data ++ new_objects data)
    /\ Permutation rms (rooms data)
    /\ sampled s5 (step5_trials data)
    /\ sampled ri (rappel_immediat_trials data).
Proof.
  intros Hmode. unfold build_from. rewrite Hmode.
  destruct (room_orders RT (rooms data) rand) as [[learning iia] r0].
  destruct (shuffle RT (familiar_objects data ++ new_objects data) r0)
    as [objs r1] eqn:S1.
  destruct (shuffle RT (rooms data) r1) as [rms r2] eqn:S3.
  destruct (_pick_balanced_trials RT (step5_trials data) r2 5) as [b5 r3] eqn:B5.
  destruct (shuffle RT b5 r3) as [s5 r4] eqn:S5.
  destruct (_pick_balanced_trials RT (rappel_immediat_trials data) r4 5)
    as [bri r5] eqn:BR.
  destruct (shuffle RT bri r5) as [ri r6] eqn:SR.
  exists objs, rms, s5, ri. cbn [fst snd].
  split; [reflexivity|].
  split; [eapply shuffle_pair; eauto|].
  split; [eapply shuffle_pair; eauto|].
  split; eapply pick_then_shuffle_sampled; eauto.
Qed.

End BuilderMore.

Lemma step1_tasks_stage k objs : map stage (step1_tasks k objs) = repeat "I" (List.length objs).
Proof. revert k; induction objs as [|o l IH]; intros k; simpl; [reflexivity|]. now rewrite IH. Qed.

Lemma step1_tasks_body k objs t :
  In t (step1_tasks k objs) -> exists o, In o objs /\ body t = Step1 o /\ stage t = "I".
Proof.
  revert k; induction objs as [|o l IH]; intros k; simpl; [intros []|].
  intros [<-|H]; [exists o; auto|].
  destruct (IH _ H) as (o' & Ho & Hb). exists o'. auto.
Qed.

Lemma step1_tasks_objects k objs : step1_objects (step1_tasks k objs) = objs.
Proof. revert k; induction objs as [|o l IH]; intros k; simpl; [reflexivity|]. now rewrite IH. Qed.

Lemma map_stage_const {A} (f : A -> task) s (l : list A) :
  (forall x, stage (f x) = s) -> map stage (map f l) = repeat s (List.length l).
Proof. intros H. induction l as [|a l IH]; simpl; [reflexivity|]. now rewrite H, IH. Qed.

Lemma flat_map_none {A B} (f : A -> task) (g : task -> list B) (l : list A) :
  (forall x, g (f x) = []) -> flat_map g (map f l) = [].
Proof. intros H. induction l as [|a l IH]; simpl; [reflexivity|]. now rewrite H, IH. Qed.

Lemma flat_map_one {A} (f : A -> task) (g : task -> list A) (l : list A) :
  (forall x, g (f x) = [x]) -> flat_map g (map f l) = l.
Proof. intros H. induction l as [|a l IH]; simpl; [reflexivity|]. now rewrite H, IH. Qed.

Lemma step1_tasks_no_room k objs :
  step3_rooms (step1_tasks k objs) = [] /\ step4_rooms (step1_tasks k objs) = [].
Proof.
  revert k; induction objs as [|o l IH]; intros k; simpl; [auto|].
  destruct (IH (S k)) as [-> ->]. auto.
Qed.

Lemma id_in_index x l :
  id_in x l = true -> nth_error l (id_index x l) = Some x.
Proof.
  induction l as [|y l IH]; simpl; [discriminate|].
  rewrite orb_true_iff. intros H.
  destruct (opt_str_eqb y x) eqn:E.
  - apply opt_str_eqb_eq in E. now subst.
  - simpl. apply IH. destruct H as [H|H]; [|exact H].
    apply opt_str_eqb_eq in H. subst.
    assert (opt_str_eqb y y = true) by now apply opt_str_eqb_eq. congruence.
Qed.

Lemma id_in_false x l : id_in x l = false -> ~ In x l.
Proof.
  unfold id_in. intros H Hin.
  assert (existsb (opt_str_eqb x) l = true).
  { apply existsb_exists. exists x. split; [exact Hin | now apply opt_str_eqb_eq]. }
  congruence.
Qed.

Section Queue.
Context (RT : Runtime).

(** X12. The full battery is laid out by stage: one Stage-I task per object
    of the catalog, then one Stage-III and one Stage-IV task per room, then
    the Stage-V scenes and the final immediate-recall scenes, each block of
    scenes holding 10 trials when the pool has 5 of each truth value and the
    whole pool otherwise. *)
Theorem recall_queue_layout (data : catalog) (mode : string)
    (l0 i0 : list (option string)) (rand : rng RT) :
  (mode =? "rappel_immediat") = false ->
  map stage (b_tasks (build_from RT data mode l0 i0 rand))
  = repeat "I" (List.length (familiar_objects data ++ new_objects data))
    ++ repeat "III" (List.length (rooms data))
    ++ repeat "IV" (List.length (rooms data))
    ++ repeat "V" (balanced_size (step5_trials data))
    ++ repeat "RI_END" (balanced_size (rappel_immediat_trials data)).
Proof.
  intros Hmode.
  destruct (build_from_recall RT data mode l0 i0 rand Hmode)
    as (objs & rms & s5 & ri & -> & Po & Pr & (L5 & _) & (Lr & _)).
  cbn [b_tasks]. rewrite !map_app, step1_tasks_stage.
  rewrite (map_stage_const step3_task "III"), (map_stage_const (step4_task _) "IV"),
    (map_stage_const step5_task "V"), (map_stage_const ri_end_task "RI_END")
    by reflexivity.
  now rewrite (Permutation_length Po), (Permutation_length Pr), L5, Lr.
Qed.

(** X13. Stage I of the full battery asks about every object of the
    catalog, familiar and new, exactly once; and the day/night tasks and the
    room-order tasks go through the rooms in one and the same order, each
    room once. *)
Theorem recall_queue_covers_catalog (data : catalog) (mode : string)
    (l0 i0 : list (option string)) (rand : rng RT) :
  (mode =? "rappel_immediat") = false ->
  let q := b_tasks (build_from RT data mode l0 i0 rand) in
  Permutation (step1_objects q) (familiar_objects data ++ new_objects data)
  /\ step3_rooms q = step4_rooms q
  /\ Permutation (step3_rooms q) (rooms data).
Proof.
  intros Hmode q. unfold q.
  destruct (build_from_recall RT data mode l0 i0 rand Hmode)
    as (objs & rms & s5 & ri & -> & Po & Pr & _).
  cbn [b_tasks]. unfold step1_objects, step3_rooms, step4_rooms.
  rewrite !flat_map_app.
  fold (step1_objects (step1_tasks 1 objs)). rewrite step1_tasks_objects.
  destruct (step1_tasks_no_room 1 objs) as [N3 N4].
  unfold step3_rooms in N3. unfold step4_rooms in N4. rewrite N3, N4.
  rewrite (flat_map_one step3_task
             (fun t => match body t with Step3Daynight r => [r] | _ => [] end))
    by reflexivity.
  rewrite (flat_map_one (step4_task _)
             (fun t => match body t with Step4Order r _ => [r] | _ => [] end))
    by reflexivity.
  repeat (rewrite (flat_map_none step3_task) by reflexivity).
  repeat (rewrite (flat_map_none (step4_task _)) by reflexivity).
  repeat (rewrite (flat_map_none step5_task) by reflexivity).
  repeat (rewrite (flat_map_none ri_end_task) by reflexivity).
  rewrite !app_nil_r. simpl. auto.
Qed.

(** X14. The expected answer of a room-order task is the 1-based rank of
    its room in the learning order: looking that rank up in the learning
    order gives the room's id back; it is unset exactly when the id does not
    occur in the learning order. *)
Theorem room_order_rank (data : catalog) (mode : string)
    (l0 i0 : list (option string)) (rand : rng RT) (t : task) (rm : room)
    (co : option nat) :
  (mode =? "rappel_immediat") = false ->
  let b := build_from RT data mode l0 i0 rand in
  In t (b_tasks b) -> body t = Step4Order rm co ->
  match co with
  | Some k => (1 <= k)%nat
              /\ nth_error (b_learning_room_order b) (k - 1) = Some (rm_id rm)
  | None => ~ In (rm_id rm) (b_learning_room_order b)
  end.
Proof.
  intros Hmode b. unfold b.
  destruct (build_from_recall RT data mode l0 i0 rand Hmode)
    as (objs & rms & s5 & ri & -> & _).
  cbn [b_tasks b_learning_room_order].
  set (learning := fst (fst (room_orders RT (rooms data) rand))).
  intros Hin Hb.
  repeat (apply in_app_or in Hin; destruct Hin as [Hin|Hin]).
  - apply step1_tasks_body in Hin as (o & _ & Hb' & _). congruence.
  - apply in_map_iff in Hin as (r & <- & _). discriminate.
  - apply in_map_iff in Hin as (r & <- & _). unfold step4_task in Hb.
    cbn [body] in Hb. injection Hb as <- <-.
    destruct (id_in (rm_id r) learning) eqn:E.
    + split; [lia|]. replace (id_index (rm_id r) learning + 1 - 1)%nat
        with (id_index (rm_id r) learning) by lia.
      now apply id_in_index.
    + now apply id_in_false.
  - apply in_map_iff in Hin as (r & <- & _). discriminate.
  - apply in_map_iff in Hin as (r & <- & _). discriminate.
Qed.

Lemma sampled_in s pool x : sampled s pool -> In x s -> In x pool.
Proof.
  intros (_ & (rest & P) & _) Hx.
  eapply Permutation_in; [exact P|]. apply in_or_app. now left.
Qed.

(** X15. Every scene task of the full battery shows a trial of its pool:
    a Stage-V task shows a trial of the Stage-V pool with the ground truth
    inverted, a final immediate-recall task a trial of the immediate-recall
    pool with the ground truth as stored. *)
Theorem recall_scene_ground_truth (data : catalog) (mode : string)
    (l0 i0 : list (option string)) (rand : rng RT) (t : task) :
  (mode =? "rappel_immediat") = false ->
  In t (b_tasks (build_from RT data mode l0 i0 rand)) ->
  match body t with
  | Step5 img e =>
      stage t = "V"
      /\ exists tr, In tr (step5_trials data) /\ img = tr_image tr
                    /\ e = negb (tr_is_correct tr)
  | RappelImmediat img e =>
      stage t = "RI_END"
      /\ exists tr, In tr (rappel_immediat_trials data) /\ img = tr_image tr
                    /\ e = tr_is_correct tr
  | _ => True
  end.
Proof.
  intros Hmode.
  destruct (build_from_recall RT data mode l0 i0 rand Hmode)
    as (objs & rms & s5 & ri & -> & _ & _ & S5 & SR).
  cbn [b_tasks]. intros Hin.
  repeat (apply in_app_or in Hin; destruct Hin as [Hin|Hin]).
  - apply step1_tasks_body in Hin as (o & _ & -> & _). exact I.
  - apply in_map_iff in Hin as (r & <- & _). exact I.
  - apply in_map_iff in Hin as (r & <- & _). exact I.
  - apply in_map_iff in Hin as (tr & <- & Htr). cbn [body step5_task stage].
    split; [reflexivity|]. exists tr. split; [|auto].
    now apply (sampled_in s5).
  - apply in_map_iff in Hin as (tr & <- & Htr). cbn [body ri_end_task stage].
    split; [reflexivity|]. exists tr. split; [|auto].
    now apply (sampled_in ri).
Qed.

(** X16. The short form builds immediate-recall tasks only: the queue is
    one stage-RI task per sampled trial (10 trials when the pool has 5 of
    each truth value, the whole pool otherwise), each with the trial's own id,
    image and ground truth and the immediate-recall duration, and the two
    room orders are left as they were. *)
Theorem rappel_immediat_queue (data : catalog) (l0 i0 : list (option string))
    (rand : rng RT) :
  let b := build_from RT data "rappel_immediat" l0 i0 rand in
  b_learning_room_order b = l0 /\ b_iia_room_order b = i0
  /\ List.length (b_tasks b) = balanced_size (rappel_immediat_trials data)
  /\ forall t, In t (b_tasks b) ->
       stage t = "RI" /\ duration_ms t = RAPPEL_IMMEDIAT_DURATION_MS
       /\ exists tr, In tr (rappel_immediat_trials data) /\ task_id t = tr_id tr
                     /\ body t = RappelImmediat (tr_image tr) (tr_is_correct tr).
Proof.
  unfold build_from. cbn [String.eqb Ascii.eqb Bool.eqb andb].
  destruct (_pick_balanced_trials RT (rappel_immediat_trials data) rand 5)
    as [b r1] eqn:B.
  destruct (shuffle RT b r1) as [s r2] eqn:S.
  pose proof (pick_then_shuffle_sampled RT _ _ _ _ _ _ B S) as Hs.
  cbn [b_tasks b_learning_room_order b_iia_room_order].
  repeat split; auto.
  - rewrite length_map. apply Hs.
  - apply in_map_iff in H as (tr & <- & _). reflexivity.
  - apply in_map_iff in H as (tr & <- & _). reflexivity.
  - apply in_map_iff in H as (tr & <- & Htr). exists tr.
    split; [now apply (sampled_in s)|]. auto.
Qed.

End Queue.

(** ** Categories and correctness *)

(** The categories that stand for a correct response. *)
Definition CORRECT_CATEGORIES : list string :=
  ["hit"; "correct_rejection"; "correct_room"; "correct_position"; "correct_time";
   "correct_order"; "correct_scene"].

(** The category of a record says "correct". *)
Definition category_correct (r : record) : bool :=
  match dget "response_category" r with
  | Some (VStr c) => existsb (String.eqb c) CORRECT_CATEGORIES
  | _ => false
  end.

Lemma append_missing_in r acc rs :
  In r (append_missing acc rs) <-> In r acc \/ In r rs.
Proof.
  unfold append_missing. revert acc.
  induction rs as [|x rs IH]; intros acc; simpl; [tauto|].
  rewrite IH. unfold room_in.
  destruct (in_dec room_dec x acc) as [Hx|Hx].
  - split; [tauto|]. intros [H|[<-|H]]; auto.
  - rewrite in_app_iff. simpl. tauto.
Qed.

Lemma lookup_room_in rid rs r : lookup_room rid rs = Some r -> In r rs.
Proof.
  induction rs as [|x rs IH]; simpl; [discriminate|].
  destruct (lookup_room rid rs) as [r'|].
  - intros [= <-]. auto.
  - destruct (opt_str_eqb (rm_id x) (Some rid)); [|discriminate].
    intros [= <-]. auto.
Qed.

Lemma rooms_by_ids_in ids rs r : In r (_rooms_by_ids ids rs) -> In r rs.
Proof.
  unfold _rooms_by_ids. intros H. apply in_flat_map in H as (rid & _ & H).
  destruct (lookup_room rid rs) as [r'|] eqn:E; [|destruct H].
  destruct H as [<-|[]]. now apply lookup_room_in with rid.
Qed.

Section Scoring.
Context {RT : Runtime}.

(** X17. The room grid of a room-locate follow-up holds exactly the rooms of
    the catalog: every room is offered, and nothing else is. *)
Theorem ordered_rooms_cover (st : app RT) (r : room) :
  In r (ordered_rooms st) <-> In r (rooms (data st)).
Proof.
  unfold ordered_rooms. rewrite append_missing_in. split; [|tauto].
  intros [H|H]; [|exact H]. now apply rooms_by_ids_in with ROOM_GRID_ORDER.
Qed.

(** X18. For recognition, room-locate, day/night and scene tasks the
    category of a record and its correctness agree, whatever the response
    (a sentinel and a missing response included): the category is one of the
    "correct" ones exactly when the recorded correctness is true. *)
Theorem category_agrees_with_correctness (timeout : bool) (t : task) (elapsed : Q)
    (ended_at : string) (st : app RT) :
  match body t with Step2Spatial _ _ | Step4Order _ _ => False | _ => True end ->
  let r := response_record timeout t elapsed ended_at st in
  category_correct r = true <-> dget "is_correct" r = Some (VBool true).
Proof.
  intros Hb r. unfold r, category_correct. rewrite record_is_correct.
  unfold response_record.
  destruct (response_value_of timeout st) as [resp|].
  2:{ unfold _annotate_record_metrics. rewrite dget_dset_eq.
      unfold _evaluate_correctness.
      destruct (no_correct_answer t); simpl; split; discriminate. }
  unfold _annotate_record_metrics.
  destruct (resp =? NE_REPOND_PAS) eqn:E1.
  { rewrite dget_dset_eq. unfold _evaluate_correctness, is_sentinel. rewrite E1, orb_true_r.
    destruct (no_correct_answer t); simpl; split; discriminate. }
  destruct (resp =? JE_NE_SAIS_PAS) eqn:E2.
  { rewrite dget_dset_eq. unfold _evaluate_correctness, is_sentinel. rewrite E2.
    destruct (no_correct_answer t); simpl; split; discriminate. }
  unfold _evaluate_correctness, no_correct_answer, is_sentinel, copy_task_keys.
  rewrite E1, E2.
  destruct (body t) as [o|o g|o cs|rm|rm e|img e|img e]; try contradiction;
    cbn [orb negb].
  - destruct (resp =? "yes"); [|destruct (resp =? "no")];
      rewrite dget_dset_eq; destruct (is_familiar o); simpl; split;
      try discriminate; reflexivity.
  - destruct (is_familiar o); cbn [negb].
    + destruct (opt_str_eqb (Some resp) (room_id o));
        rewrite dget_dset_eq; simpl; split; try discriminate; reflexivity.
    + rewrite dget_dset_eq; simpl; split; discriminate.
  - destruct (opt_str_eqb (Some resp) (rm_timing rm));
      rewrite dget_dset_eq; simpl; split; try discriminate; reflexivity.
  - rewrite dget_dset_eq. unfold rec_is_correct.
    destruct (resp =? "correct"); [|destruct (resp =? "incorrect")];
      destruct e; simpl; split; try discriminate; reflexivity.
  - rewrite dget_dset_eq. unfold rec_is_correct.
    destruct (resp =? "correct"); [|destruct (resp =? "incorrect")];
      destruct e; simpl; split; try discriminate; reflexivity.
Qed.

(** X19. The spatial-position follow-up of a familiar object is scored
    against the "good" choice, in whichever order the two choices were
    shuffled: a response other than a sentinel is correct exactly when it is
    "good", and "good" is the expected choice the record names. *)
Theorem spatial_followup_scoring (o : obj) (pos : positions) (cs : list choice)
    (resp : string) (timeout : bool) :
  Permutation cs (iib_choices o pos) -> is_familiar o = true ->
  is_sentinel resp = false ->
  _evaluate_correctness (step2_spatial_task o cs) (Some resp) timeout
  = Some (resp =? "good")
  /\ expected_choice cs = Some "good".
Proof.
  intros P Hf Hs. unfold iib_choices in P. rewrite Hf in P.
  apply Permutation_sym, Permutation_length_2_inv in P.
  unfold _evaluate_correctness, no_correct_answer.
  cbn [body step2_spatial_task]. rewrite Hf, Hs. cbn [negb].
  destruct P as [-> | ->]; cbn [choice_correct expected_choice ch_id ch_is_correct].
  - rewrite (String.eqb_sym "good" resp). split; [|reflexivity].
    destruct (resp =? "good"); [reflexivity|]. now destruct ("bad" =? resp).
  - rewrite (String.eqb_sym "good" resp), (String.eqb_sym "bad" resp).
    split; [|reflexivity].
    destruct (resp =? "bad") eqn:B; [|now destruct (resp =? "good")].
    apply String.eqb_eq in B. subst resp. reflexivity.
Qed.


End Scoring.

(** ** The category counts of a session ([_compute_metrics]) *)

(** The counts of one kind: category to count. *)
Definition counts := list (string * nat).

(** The mapping [_compute_metrics] starts from (the mean error of the
    room-order stage, which it keeps under the same key, is held apart). *)
Definition METRICS0 : list (string * counts) :=
  [("step1", [("hit", 0); ("miss", 0); ("false_alarm", 0); ("correct_rejection", 0);
              ("dont_know", 0)]);
   ("step2_where", [("correct_room", 0); ("wrong_room", 0); ("dont_know", 0);
                    ("no_correct_answer", 0)]);
   ("step2_spatial", [("correct_position", 0); ("wrong_position", 0); ("dont_know", 0);
                      ("no_correct_answer", 0)]);
   ("step3_daynight", [("correct_time", 0); ("wrong_time", 0); ("dont_know", 0)]);
   ("step4_order", [("correct_order", 0); ("wrong_order", 0); ("dont_know", 0)]);
   ("step5", [("correct_scene", 0); ("wrong_scene", 0); ("dont_know", 0)]);
   ("rappel_immediat", [("correct_scene", 0); ("wrong_scene", 0); ("dont_know", 0)])]%nat.

(** [if category in d: d[category] += 1] *)
Fixpoint count_category (category : string) (d : counts) : counts :=
  match d with
  | [] => []
  | (c, n) :: d' =>
      if c =? category then (c, S n) :: d' else (c, n) :: count_category category d'
  end.

(** The chain [if kind == "step1": ... elif kind == ...] over the kinds of
    the mapping. *)
Fixpoint count_kind (kind category : string) (m : list (string * counts))
    : list (string * counts) :=
  match m with
  | [] => []
  | (k, d) :: m' =>
      if k =? kind then (k, count_category category d) :: m'
      else (k, d) :: count_kind kind category m'
  end.

(** One turn of the loop over the records, on the counts. *)
Definition count_record (m : list (string * counts)) (rec : record)
    : list (string * counts) :=
  match dget "kind" rec, dget "response_category" rec with
  | Some (VStr kind), Some (VStr category) => count_kind kind category m
  | _, _ => m
  end.

(** One turn of the loop, on [order_errors]. *)
Definition order_error (rec : record) : list Z :=
  match dget "kind" rec, dget "error_distance" rec with
  | Some (VStr kind), Some (VInt d) => if kind =? "step4_order" then [d] else []
  | _, _ => []
  end.

(** [_compute_metrics()] over the records: the counts and
    ["mean_abs_error"]. *)
Definition _compute_metrics (recs : list record) : list (string * counts) * option Q :=
  let metrics := fold_left count_record recs METRICS0 in
  let order_errors := flat_map order_error recs in
  (metrics,
   match order_errors with
   | [] => None
   | _ :: _ => Some (inject_Z (fold_right Z.add 0%Z order_errors)
                     / inject_Z (Z.of_nat (List.length order_errors)))%Q
   end).

(** [metrics[kind][category]], when both keys exist. *)
Fixpoint counts_get (category : string) (d : counts) : option nat :=
  match d with
  | [] => None
  | (c, n) :: d' => if c =? category then Some n else counts_get category d'
  end.
Fixpoint metrics_get (kind category : string) (m : list (string * counts)) : option nat :=
  match m with
  | [] => None
  | (k, d) :: m' => if k =? kind then counts_get category d else metrics_get kind category m'
  end.

(** A record is of the kind and in the category. *)
Definition in_category (kind category : string) (rec : record) : bool :=
  match dget "kind" rec, dget "response_category" rec with
  | Some (VStr k), Some (VStr c) => (k =? kind) && (c =? category)
  | _, _ => false
  end.

Lemma counts_get_count category c d :
  counts_get c (count_category category d)
  = option_map (fun n => if c =? category then S n else n) (counts_get c d).
Proof.
  induction d as [|[c0 n0] d IH]; simpl; [reflexivity|].
  destruct (c0 =? category) eqn:E0; simpl.
  - apply String.eqb_eq in E0. subst c0.
    rewrite (String.eqb_sym category c).
    destruct (c =? category); [reflexivity | now destruct (counts_get c d)].
  - destruct (c0 =? c) eqn:E1; [|exact IH].
    apply String.eqb_eq in E1. subst c0. simpl. now rewrite E0.
Qed.

Lemma metrics_get_count kind category k c m :
  metrics_get k c (count_kind kind category m)
  = option_map (fun n => if (k =? kind) && (c =? category) then S n else n)
               (metrics_get k c m).
Proof.
  induction m as [|[k0 d0] m IH]; simpl; [reflexivity|].
  destruct (k0 =? kind) eqn:E0; simpl.
  - apply String.eqb_eq in E0. subst k0.
    rewrite (String.eqb_sym kind k). destruct (k =? kind); simpl.
    + apply counts_get_count.
    + now destruct (metrics_get k c m).
  - destruct (k0 =? k) eqn:E1; [|exact IH].
    apply String.eqb_eq in E1. subst k0. rewrite E0. simpl.
    now destruct (counts_get c d0).
Qed.

Lemma metrics_get_fold k c recs m :
  metrics_get k c (fold_left count_record recs m)
  = option_map (fun n => (n + count (in_category k c) recs)%nat) (metrics_get k c m).
Proof.
  revert m; induction recs as [|r recs IH]; intros m; simpl.
  - destruct (metrics_get k c m); simpl; [f_equal; unfold count; simpl; lia | reflexivity].
  - rewrite IH. unfold count_record, in_category, count. simpl.
    destruct (dget "kind" r) as [[| | |kind| | |]|];
      try (destruct (metrics_get k c m); reflexivity).
    destruct (dget "response_category" r) as [[| | |category| | |]|];
      try (destruct (metrics_get k c m); reflexivity).
    rewrite metrics_get_count, (String.eqb_sym kind k), (String.eqb_sym category c).
    destruct (metrics_get k c m); simpl; [|reflexivity].
    destruct ((k =? kind) && (c =? category)); simpl; f_equal; lia.
Qed.

(** X21. Every count [_compute_metrics] returns is the number of records of
    that kind in that category; the categories it has no key for, the
    "no_response" of a timeout among them, are counted nowhere. *)
Theorem compute_metrics_counts (recs : list record) (kind category : string) :
  metrics_get kind category (fst (_compute_metrics recs))
  = (if match metrics_get kind category METRICS0 with Some _ => true | None => false end
     then Some (count (in_category kind category) recs) else None)
  /\ metrics_get kind "no_response" (fst (_compute_metrics recs)) = None.
Proof.
  unfold _compute_metrics. cbn [fst]. rewrite !metrics_get_fold. split.
  - destruct (metrics_get kind category METRICS0) as [n|] eqn:E; [|reflexivity].
    simpl. f_equal.
    assert (n = 0%nat); [|lia].
    revert E. unfold METRICS0. cbn [metrics_get].
    repeat match goal with
      | |- context [if ?b then _ else _] => destruct b
      end; cbn [counts_get];
      repeat match goal with
        | |- context [if ?b then _ else _] => destruct b
        end; congruence.
  - unfold METRICS0. cbn [metrics_get].
    repeat match goal with
      | |- context [if ?b then _ else _] => destruct b
      end; reflexivity.
Qed.

(** ** The further properties on the small session *)


(** Two ticks into the intermission after the timeout: the next tick ends it. *)
Definition demo_intermission_over : app Demo.RT1 :=
  run (demo_start :: repeat EvTick 12) (init_app Demo.RT1 7%N).

(** A session over one room: its last task (of four) has been answered. *)
Definition demo_last_answered : app Demo.RT1 :=
  run [EvStart "S2" None (Demo.demo_catalog 1 0) "uuid2"; EvJump 3; EvChoice "1"]
      (init_app Demo.RT1 7%N).

(** The full battery built over the two-room catalog. *)
Definition demo_built : built :=
  build_from Demo.RT1 (Demo.demo_catalog 2 1) "recall" [] [] (Random Demo.RT1 RANDOM_SEED).


Lemma demo_intermission_over_reachable : reachable demo_intermission_over.
Proof. exists 7%N, (demo_start :: repeat EvTick 12). reflexivity. Qed.

Lemma demo_last_answered_reachable : reachable demo_last_answered.
Proof.
  exists 7%N,
    [EvStart "S2" None (Demo.demo_catalog 1 0) "uuid2"; EvJump 3; EvChoice "1"].
  reflexivity.
Qed.

Lemma on_stop_saves_session_witness :
  running (on_stop demo_timed_out) = false
  /\ exists f, sessions_dir (on_stop demo_timed_out) = sessions_dir demo_timed_out ++ [f].
Proof.
  pose proof (proj1 (reachable_inv _ demo_timed_out_reachable)) as W.
  assert (Hr : running demo_timed_out = true) by (vm_compute; reflexivity).
  revert W Hr. generalize demo_timed_out. intros st W Hr.
  destruct (on_stop_saves_session st W Hr) as (H1 & _ & _ & _ & _ & _ & _ & f & Hf & _).
  split; [exact H1|]. exists f. exact Hf.
Defined.

Lemma on_stop_without_session_witness :
  on_stop (init_app Demo.RT1 7%N) = init_app Demo.RT1 7%N.
Proof.
  apply on_stop_without_session.
  - exists 7%N, []. reflexivity.
  - reflexivity.
Defined.

Lemma next_task_shown_witness :
  current_task_index (_go_to_next_task demo_timed_out) = 1%Z
  /\ task_active (_go_to_next_task demo_timed_out) = true.
Proof.
  pose proof (proj1 (reachable_inv _ demo_timed_out_reachable)) as W.
  assert (Hr : running demo_timed_out = true) by (vm_compute; reflexivity).
  assert (Hi : current_task_index demo_timed_out = 0%Z) by (vm_compute; reflexivity).
  assert (Hn : exists t, nth_error (task_queue demo_timed_out)
                           (Z.to_nat (current_task_index demo_timed_out + 1)) = Some t)
    by (vm_compute; eexists; reflexivity).
  revert W Hr Hi Hn. generalize demo_timed_out. intros st W Hr Hi [t Hn].
  destruct (next_task_shown st t W Hr Hn) as (H1 & _ & H3 & _).
  split; [rewrite H1; lia | exact H3].
Defined.

Lemma queue_exhausted_stops_witness :
  running (_go_to_next_task demo_last_answered) = false
  /\ exists f, sessions_dir (_go_to_next_task demo_last_answered)
               = sessions_dir demo_last_answered ++ [f]
               /\ f_tasks f = records demo_last_answered.
Proof.
  pose proof (proj1 (reachable_inv _ demo_last_answered_reachable)) as W.
  assert (Hr : running demo_last_answered = true) by (vm_compute; reflexivity).
  assert (Ha : task_active demo_last_answered = false) by (vm_compute; reflexivity).
  assert (Hl : (Z.of_nat (List.length (task_queue demo_last_answered))
                <= current_task_index demo_last_answered + 1)%Z)
    by (vm_compute; discriminate).
  revert W Hr Ha Hl. generalize demo_last_answered. intros st W Hr Ha Hl.
  destruct (queue_exhausted_stops st W Hr Ha Hl) as (H1 & _ & _ & _ & f & Hf & Ht & _).
  split; [exact H1|]. exists f. auto.
Defined.


Lemma timer_tick_waits_witness :
  _timer_tick demo_shown = set_clock (S (clock demo_shown)) demo_shown
  /\ _timer_tick demo_timed_out
     = set_clock (S (clock demo_timed_out)) demo_timed_out.
Proof.
  split.
  - pose proof demo_shown_reachable as R.
    assert (Ha : task_active demo_shown = true) by (vm_compute; reflexivity).
    assert (Hc : current_task demo_shown = Some demo_task) by (vm_compute; reflexivity).
    assert (Hs : task_start_perf demo_shown = Some (inject_Z 3))
      by (vm_compute; reflexivity).
    assert (H0 : (0 <= (perf_counter Demo.RT1 (clock demo_shown) - inject_Z 3) * 1000)%Q)
      by (vm_compute; discriminate).
    assert (Hlt : ((perf_counter Demo.RT1 (clock demo_shown) - inject_Z 3) * 1000 + 1
                   <= py_float (duration_ms demo_task))%Q)
      by (vm_compute; discriminate).
    assert (Hd : (duration_ms demo_task <= 2 ^ 50)%Z) by (vm_compute; discriminate).
    revert R Ha Hc Hs H0 Hlt. generalize demo_shown. intros st R Ha Hc Hs H0 Hlt.
    destruct (timer_tick_waits st R) as [H _].
    exact (H demo_task (inject_Z 3) Ha Hc Hs H0 Hlt Hd).
  - pose proof demo_timed_out_reachable as R.
    assert (Hr : running demo_timed_out = true) by (vm_compute; reflexivity).
    assert (Hi : intermission_active demo_timed_out = true)
      by (vm_compute; reflexivity).
    assert (Hs : intermission_start_perf demo_timed_out = Some (inject_Z 16))
      by (vm_compute; reflexivity).
    assert (H0 : (0 <= (perf_counter Demo.RT1 (clock demo_timed_out) - inject_Z 16)
                       * 1000)%Q)
      by (vm_compute; discriminate).
    assert (Hlt : ((perf_counter Demo.RT1 (clock demo_timed_out) - inject_Z 16)
                   * 1000 + 1 <= py_float INTER_DELAY_MS)%Q)
      by (vm_compute; discriminate).
    revert R Hr Hi Hs H0 Hlt. generalize demo_timed_out.
    intros st R Hr Hi Hs H0 Hlt.
    destruct (timer_tick_waits st R) as [_ H].
    exact (H (inject_Z 16) Hr Hi Hs H0 Hlt).
Defined.

Lemma active_task_is_current_witness :
  running demo_shown = true /\ intermission_active demo_shown = false.
Proof.
  pose proof demo_shown_reachable as R.
  assert (Ha : task_active demo_shown = true) by (vm_compute; reflexivity).
  revert R Ha. generalize demo_shown. intros st R Ha.
  destruct (active_task_is_current st R Ha) as (H1 & H2 & _).
  split; assumption.
Defined.

Lemma intermission_tick_witness :
  current_task_index (_timer_tick demo_intermission_over) = 1%Z
  /\ task_active (_timer_tick demo_intermission_over) = true
  /\ records (_timer_tick demo_intermission_over) = records demo_intermission_over.
Proof.
  pose proof demo_intermission_over_reachable as R.
  assert (Hr : running demo_intermission_over = true) by (vm_compute; reflexivity).
  assert (Hi : intermission_active demo_intermission_over = true)
    by (vm_compute; reflexivity).
  assert (Hs : intermission_start_perf demo_intermission_over = Some (inject_Z 16))
    by (vm_compute; reflexivity).
  assert (Hle : (py_float INTER_DELAY_MS
                 <= (perf_counter Demo.RT1 (clock demo_intermission_over) - inject_Z 16)
                    * 1000)%Q)
    by (vm_compute; discriminate).
  assert (Hx : current_task_index demo_intermission_over = 0%Z)
    by (vm_compute; reflexivity).
  assert (Hn : exists t, nth_error (task_queue demo_intermission_over)
                           (Z.to_nat (current_task_index demo_intermission_over + 1))
                         = Some t)
    by (vm_compute; eexists; reflexivity).
  revert R Hr Hi Hs Hle Hx Hn. generalize demo_intermission_over.
  intros st R Hr Hi Hs Hle Hx [t Hn].
  destruct (intermission_tick st (inject_Z 16) R Hr Hi Hs Hle t Hn)
    as (H1 & _ & H3 & _ & _ & H6 & _).
  split; [rewrite H1; lia|]. split; assumption.
Defined.

Lemma jump_shows_target_witness :
  current_task_index (_jump_to_question 5 demo_shown) = 5%Z
  /\ task_active (_jump_to_question 5 demo_shown) = true
  /\ task_queue (_jump_to_question 5 demo_shown) = task_queue demo_shown.
Proof.
  pose proof demo_shown_reachable as R.
  assert (Hr : running demo_shown = true) by (vm_compute; reflexivity).
  assert (Hn : exists t, nth_error (task_queue demo_shown) (Z.to_nat 5) = Some t)
    by (vm_compute; eexists; reflexivity).
  revert R Hr Hn. generalize demo_shown. intros st R Hr [t Hn].
  destruct (jump_shows_target st 5%Z t R Hr) as (H1 & _ & H3 & _ & _ & H6 & _);
    [lia | exact Hn |].
  split; [exact H1|]. split; assumption.
Defined.

Lemma queue_changes_only_on_yes_witness :
  task_queue (step demo_shown EvTick) = task_queue demo_shown
  /\ task_queue (step demo_shown (EvJump 3)) = task_queue demo_shown.
Proof.
  pose proof demo_shown_reachable as R.
  revert R. generalize demo_shown. intros st R.
  split.
  - pose proof (queue_changes_only_on_yes st EvTick R) as H.
    cbv zeta in H. cbv iota in H. apply H. discriminate.
  - pose proof (queue_changes_only_on_yes st (EvJump 3) R) as H.
    cbv zeta in H. cbv iota in H. apply H. discriminate.
Defined.

Lemma recall_queue_layout_witness :
  map stage (b_tasks demo_built)
  = repeat "I" (List.length (familiar_objects (Demo.demo_catalog 2 1)
                             ++ new_objects (Demo.demo_catalog 2 1)))
    ++ repeat "III" (List.length (rooms (Demo.demo_catalog 2 1)))
    ++ repeat "IV" (List.length (rooms (Demo.demo_catalog 2 1)))
    ++ repeat "V" (balanced_size (step5_trials (Demo.demo_catalog 2 1)))
    ++ repeat "RI_END" (balanced_size (rappel_immediat_trials (Demo.demo_catalog 2 1))).
Proof.
  apply (recall_queue_layout Demo.RT1 (Demo.demo_catalog 2 1) "recall" [] []
           (Random Demo.RT1 RANDOM_SEED)).
  reflexivity.
Defined.

Lemma recall_queue_covers_catalog_witness :
  Permutation (step1_objects (b_tasks demo_built))
    (familiar_objects (Demo.demo_catalog 2 1) ++ new_objects (Demo.demo_catalog 2 1))
  /\ step3_rooms (b_tasks demo_built) = step4_rooms (b_tasks demo_built)
  /\ Permutation (step3_rooms (b_tasks demo_built)) (rooms (Demo.demo_catalog 2 1)).
Proof.
  apply (recall_queue_covers_catalog Demo.RT1 (Demo.demo_catalog 2 1) "recall" [] []
           (Random Demo.RT1 RANDOM_SEED)).
  reflexivity.
Defined.

Lemma room_order_rank_witness :
  exists t rm k,
    In t (b_tasks demo_built) /\ body t = Step4Order rm (Some k)
    /\ nth_error (b_learning_room_order demo_built) (k - 1) = Some (rm_id rm).
Proof.
  assert (Hin : In (nth 6 (b_tasks demo_built) demo_task) (b_tasks demo_built)).
  { apply nth_In. vm_compute. lia. }
  assert (Hb : exists rm k, body (nth 6 (b_tasks demo_built) demo_task)
                            = Step4Order rm (Some k))
    by (vm_compute; eexists; eexists; reflexivity).
  destruct Hb as (rm & k & Hb).
  exists (nth 6 (b_tasks demo_built) demo_task), rm, k.
  split; [exact Hin|]. split; [exact Hb|].
  revert Hin Hb. generalize (nth 6 (b_tasks demo_built) demo_task). intros t Hin Hb.
  apply (room_order_rank Demo.RT1 (Demo.demo_catalog 2 1) "recall" [] []
           (Random Demo.RT1 RANDOM_SEED) t rm (Some k) eq_refl Hin Hb).
Defined.

Lemma recall_scene_ground_truth_witness :
  Forall (fun t =>
            match body t with
            | Step5 img e =>
                stage t = "V"
                /\ exists tr, In tr (step5_trials (Demo.demo_catalog 2 1))
                              /\ img = tr_image tr /\ e = negb (tr_is_correct tr)
            | RappelImmediat img e =>
                stage t = "RI_END"
                /\ exists tr, In tr (rappel_immediat_trials (Demo.demo_catalog 2 1))
                              /\ img = tr_image tr /\ e = tr_is_correct tr
            | _ => True
            end) (b_tasks demo_built).
Proof.
  apply Forall_forall. intros t Hin.
  apply (recall_scene_ground_truth Demo.RT1 (Demo.demo_catalog 2 1) "recall" [] []
           (Random Demo.RT1 RANDOM_SEED) t eq_refl Hin).
Defined.

Lemma category_agrees_with_correctness_witness :
  let r := response_record false demo_task 1000 "t5" demo_yes in
  category_correct r = true <-> dget "is_correct" r = Some (VBool true).
Proof.
  apply (category_agrees_with_correctness false demo_task 1000 "t5" demo_yes).
  exact I.
Defined.

Lemma spatial_followup_scoring_witness :
  let cs := [mkChoice "bad" (Some "wrong") false; mkChoice "good" (Some "ok") true] in
  _evaluate_correctness (step2_spatial_task (Demo.familiar_n 1) cs) (Some "good") false
  = Some ("good" =? "good")
  /\ expected_choice cs = Some "good".
Proof.
  apply (spatial_followup_scoring (Demo.familiar_n 1)
           (mkPositions (Some "ok") (Some "wrong") (Some "wrong"))).
  - apply perm_swap.
  - reflexivity.
  - reflexivity.
Defined.

